(** * Fuel-Station-Tracker: the trip planner of [routing/views.py]

    A shallow embedding of the planning code (coordinate parsing, cumulative
    mileage, corridor indexing, waypoint markers, stop selection, plan
    assembly, the [route_distance] handler and its cache) together with the
    properties the specification states about it.

    Conventions of the embedding.
    - Python floats are exact rationals ([Q]); IEEE rounding, NaN and the
      infinities are not represented.  [float("inf")] as the initial value of
      a running minimum is [None] in an [option Q].
    - Python dictionaries are [gmap string pyval]; lists are [list].
    - Exceptions are the [Raise] outcomes of [Result]; code that talks to a
      collaborator (geocoder, router, station table, cache) runs in the
      state-and-error monad [M] over [World], which holds the cache contents
      and the log of collaborator calls.
    - Library functions of Python ([json.loads], [float] on text, [math.sin],
      ...) and the external collaborators are the fields of the classes
      [PyLib], [MathLib] and [Collaborators]; every definition below is
      parametric in them. *)

From Stdlib Require Import QArith Qround Qabs ZArith Lia Lqa List Ascii String.
From stdpp Require Import base option gmap strings list pretty.
From Equations Require Import Equations.
Import ListNotations.

Set Warnings "-register-all".
Open Scope Q_scope.

(** ** Rational arithmetic helpers *)

Definition Qltb (x y : Q) : bool := negb (Qle_bool y x).
Definition Qleb (x y : Q) : bool := Qle_bool x y.

(** [min(a, b)] and [max(a, b)] of Python: the first argument wins a tie. *)
Definition py_min2 (a b : Q) : Q := if Qltb b a then b else a.
Definition py_max2 (a b : Q) : Q := if Qltb a b then b else a.

(** Nearest integer, ties to the even one. *)
Definition round_half_even (x : Q) : Z :=
  let f := Qfloor x in
  let r := x - inject_Z f in
  if Qltb r (1 # 2) then f
  else if Qltb (1 # 2) r then (f + 1)%Z
  else if Z.even f then f else (f + 1)%Z.

(** [round(x, ndigits)]. *)
Definition py_round (x : Q) (ndigits : nat) : Q :=
  let scale := inject_Z (10 ^ Z.of_nat ndigits) in
  inject_Z (round_half_even (x * scale)) / scale.

(** ** Text helpers: [str.strip], [str.lower], [str.split(",")], [in] *)

Definition py_isspace (c : ascii) : bool :=
  let n := nat_of_ascii c in
  ((9 <=? n)%nat && (n <=? 13)%nat) || ((28 <=? n)%nat && (n <=? 32)%nat).

Definition is_empty_string (s : string) : bool :=
  match s with EmptyString => true | String _ _ => false end.

Fixpoint lstrip (s : string) : string :=
  match s with
  | EmptyString => EmptyString
  | String c s' => if py_isspace c then lstrip s' else s
  end.

Fixpoint rstrip (s : string) : string :=
  match s with
  | EmptyString => EmptyString
  | String c s' =>
      let r := rstrip s' in
      if py_isspace c && is_empty_string r then EmptyString else String c r
  end.

Definition strip (s : string) : string := lstrip (rstrip s).

Definition lower_ascii (c : ascii) : ascii :=
  let n := nat_of_ascii c in
  if ((65 <=? n)%nat && (n <=? 90)%nat) then ascii_of_nat (n + 32) else c.

Fixpoint lower (s : string) : string :=
  match s with
  | EmptyString => EmptyString
  | String c s' => String (lower_ascii c) (lower s')
  end.

Fixpoint contains_char (sep : ascii) (s : string) : bool :=
  match s with
  | EmptyString => false
  | String c s' => if Ascii.eqb c sep then true else contains_char sep s'
  end.

Fixpoint split_on (sep : ascii) (s : string) : list string :=
  match s with
  | EmptyString => [EmptyString]
  | String c s' =>
      if Ascii.eqb c sep then EmptyString :: split_on sep s'
      else match split_on sep s' with
           | [] => [String c EmptyString]
           | p :: ps => String c p :: ps
           end
  end.

Definition comma : ascii := ","%char.

(** ** Python values *)

Inductive pyval : Type :=
| PNone
| PBool (b : bool)
| PInt (z : Z)
| PNum (q : Q)
| PStr (s : string)
| PList (l : list pyval)
| PDict (d : gmap string pyval).

Definition mkdict (kvs : list (string * pyval)) : gmap string pyval :=
  list_to_map kvs.

(** Truth value of an object, as [if x:] and [x or y] test it. *)
Definition truthy (v : pyval) : bool :=
  match v with
  | PNone => false
  | PBool b => b
  | PInt z => negb (z =? 0)%Z
  | PNum q => negb (Qeq_bool q 0)
  | PStr s => negb (is_empty_string s)
  | PList l => match l with [] => false | _ :: _ => true end
  | PDict d => negb (Nat.eqb (size d) 0)
  end.

Definition py_or (a b : pyval) : pyval := if truthy a then a else b.

(** [d.get(key)]: the value, or [None]. *)
Definition dict_get (d : gmap string pyval) (key : string) : pyval :=
  default PNone (d !! key).

(** ** Exceptions and effects *)

Inductive exn : Type :=
| TripPlanningError (message : string) (status : Z)
| ValueError
| IndexError
| RecursionError.

Inductive Result (A : Type) : Type :=
| Ret (a : A)
| Raise (e : exn).
Arguments Ret {A} a.
Arguments Raise {A} e.

#[global] Instance Result_ret : MRet Result := fun A a => Ret a.
#[global] Instance Result_bind : MBind Result := fun A B f m =>
  match m with
  | Ret a => f a
  | Raise e => Raise e
  end.

(** Calls that leave the process. *)
Inductive Event : Type :=
| EvGeocode (address : string)
| EvRoute (start finish : Q * Q)
| EvStationTable
| EvCacheGet (key : string)
| EvCacheSet (key : string).

Record World : Type := mkWorld {
  cache : gmap string (gmap string pyval);
  calls : list Event
}.

Definition M (A : Type) : Type := World -> Result A * World.

#[global] Instance M_ret : MRet M := fun A a w => (Ret a, w).
#[global] Instance M_bind : MBind M := fun A B f m w =>
  match m w with
  | (Ret a, w') => f a w'
  | (Raise e, w') => (Raise e, w')
  end.

Definition raiseM {A} (e : exn) : M A := fun w => (Raise e, w).
Definition liftM {A} (r : Result A) : M A := fun w => (r, w).
Definition emit (e : Event) : M unit :=
  fun w => (Ret tt, mkWorld (cache w) (calls w ++ [e])).

(** [cache.get(key)] and [cache.set(key, value, timeout=...)]; expiry is a
    matter of wall-clock time and is not represented. *)
Definition cache_get (key : string) : M (option (gmap string pyval)) :=
  fun w => (Ret (cache w !! key), mkWorld (cache w) (calls w ++ [EvCacheGet key])).
Definition cache_set (key : string) (value : gmap string pyval) : M unit :=
  fun w => (Ret tt, mkWorld (<[key := value]> (cache w)) (calls w ++ [EvCacheSet key])).

(** ** What the code takes from outside the repository *)

(** [math]: the transcendental functions, total on the rationals. *)
Class MathLib : Type := {
  m_sin : Q -> Q;
  m_cos : Q -> Q;
  m_asin : Q -> Q;
  m_sqrt : Q -> Q;
  m_radians : Q -> Q
}.

(** The Python runtime and standard library. [None] stands for the exception
    the call raises ([JSONDecodeError], [UnicodeDecodeError], [ValueError]). *)
Class PyLib : Type := {
  json_loads : string -> option pyval;
  json_dumps : pyval -> string;
  utf8_decode : string -> option string;
  float_of_str : string -> option Q;
  str_of_float : Q -> string;
  str_of_value : pyval -> string;
  quote_plus : string -> string;
  recursion_limit : nat
}.

(** A row of the [FuelStation] table, restricted to the columns that
    [_load_station_rows] reads. *)
Record FuelStationRow : Type := mkRow {
  row_name : string;
  row_city : string;
  row_state : string;
  row_retail_price : Q;
  row_latitude : option Q;
  row_longitude : option Q
}.

(** The collaborators: geocoder and router of [services.py] (HTTP clients,
    seen here through their replies) and the station table. *)
Class Collaborators : Type := {
  geocode_address_opencage : string -> option (Q * Q);
  get_route : Q * Q -> Q * Q -> option Q * option string * list (Q * Q);
  FuelStation_objects : list FuelStationRow
}.

(** ** Constants of [views.py] *)

Definition MPG : Q := 10.
Definition MAX_RANGE_MILES : Q := 500.
Definition CORRIDOR_RADIUS_MILES : Q := 25.
Definition WAYPOINT_WINDOWS_MILES : list Q := [60; 120; 200; 320].
Definition DETOUR_WEIGHT : Q := 0.04.
Definition WAYPOINT_WEIGHT : Q := 0.002.

(** ** Stations *)

Record Station : Type := mkStation {
  name : string;
  city : string;
  state : string;
  price : Q;
  latitude : Q;
  longitude : Q
}.

(** [{**station, "route_mile": ..., "detour_miles": ...}] *)
Record MappedStation : Type := mkMapped {
  station_of : Station;
  route_mile : Q;
  detour_miles : Q
}.

(** ** Waypoint planner *)

(** The [while marker < total_miles] loop. *)
Equations markers_from (marker total_miles : Q) : list Q
  by wf (Z.to_nat (Qceiling (total_miles - marker))) lt :=
markers_from marker total_miles with Qlt_le_dec marker total_miles := {
  | left _ => marker :: markers_from (marker + MAX_RANGE_MILES) total_miles
  | right _ => [] }.
Next Obligation.
  assert (H0 : 0 < total_miles - marker) by lra.
  assert (H1 : (0 < Qceiling (total_miles - marker))%Z).
  { rewrite Zlt_Qlt. pose proof (Qle_ceiling (total_miles - marker)).
    change (inject_Z 0) with 0. lra. }
  assert (H2 : (Qceiling (total_miles - (marker + MAX_RANGE_MILES))
                < Qceiling (total_miles - marker))%Z).
  { rewrite Zlt_Qlt.
    pose proof (Qceiling_lt (total_miles - (marker + MAX_RANGE_MILES))) as A.
    pose proof (Qle_ceiling (total_miles - marker)) as B.
    unfold Z.sub in A. rewrite inject_Z_plus in A.
    change (inject_Z (- (1))) with (-1) in A.
    unfold MAX_RANGE_MILES in *. lra. }
  lia.
Qed.

Definition _build_waypoint_markers (total_miles : Q) (start_with_full_tank : bool) : list Q :=
  if Qleb total_miles 0 then []
  else markers_from (if start_with_full_tank then MAX_RANGE_MILES else 0) total_miles.

(** ** Stop selector *)

Definition _score_station (station : MappedStation) (marker : Q) : Q :=
  price (station_of station)
  + detour_miles station * DETOUR_WEIGHT
  + Qabs (route_mile station - marker) * WAYPOINT_WEIGHT.

(** [min(iterable, key=...)]: the running best is replaced only by a strictly
    smaller key; an empty iterable raises [ValueError]. *)
Fixpoint min_from {A : Type} (key : A -> Q) (best : A) (l : list A) : A :=
  match l with
  | [] => best
  | x :: xs => min_from key (if Qltb (key x) (key best) then x else best) xs
  end.

Definition py_min_key {A : Type} (key : A -> Q) (l : list A) : Result A :=
  match l with
  | [] => Raise ValueError
  | x :: xs => Ret (min_from key x xs)
  end.

Definition window_candidates (mapped_stations : list MappedStation)
    (marker previous_marker window : Q) : list MappedStation :=
  List.filter
    (fun station =>
       Qleb (Qabs (route_mile station - marker)) window
       && Qleb (previous_marker - 40) (route_mile station))
    mapped_stations.

(** The [for window in WAYPOINT_WINDOWS_MILES] loop; [None] when it runs to
    its end without returning. *)
Fixpoint select_in_windows (mapped_stations : list MappedStation)
    (marker previous_marker : Q) (windows : list Q) : Result (option MappedStation) :=
  match windows with
  | [] => Ret None
  | window :: rest =>
      let candidates := window_candidates mapped_stations marker previous_marker window in
      match candidates with
      | _ :: _ =>
          station ← py_min_key (fun station => _score_station station marker) candidates;
          mret (Some station)
      | [] => select_in_windows mapped_stations marker previous_marker rest
      end
  end.

Definition _select_station (mapped_stations : list MappedStation)
    (marker previous_marker : Q) : Result (option MappedStation) :=
  match mapped_stations with
  | [] => Ret None
  | _ :: _ =>
      found ← select_in_windows mapped_stations marker previous_marker WAYPOINT_WINDOWS_MILES;
      match found with
      | Some station => mret (Some station)
      | None =>
          let candidates :=
            List.filter
              (fun station => Qleb (previous_marker - 40) (route_mile station))
              mapped_stations in
          let candidates :=
            match candidates with [] => mapped_stations | _ :: _ => candidates end in
          station ← py_min_key (fun station => _score_station station marker) candidates;
          mret (Some station)
      end
  end.

Section Planner.
Context {math : MathLib} {py : PyLib} {services : Collaborators}.

(** ** Request parsing *)

Record HttpRequest : Type := mkRequest {
  GET : gmap string string;
  body : string
}.

Record HttpResponse : Type := JsonResponse {
  payload : gmap string pyval;
  status : Z
}.

Definition _parse_body (request : HttpRequest) : gmap string pyval :=
  if is_empty_string (body request) then ∅
  else
    match utf8_decode (body request) with
    | None => ∅
    | Some text =>
        match json_loads text with
        | Some (PDict data) => data
        | _ => ∅
        end
    end.

Definition py_str (value : pyval) : string :=
  match value with PStr s => s | _ => str_of_value value end.

Definition _parse_bool (value : pyval) (default : bool) : bool :=
  match value with
  | PNone => default
  | PBool b => b
  | _ =>
      let text := lower (strip (py_str value)) in
      if existsb (String.eqb text) ["1"; "true"; "yes"; "y"]%string then true
      else if existsb (String.eqb text) ["0"; "false"; "no"; "n"]%string then false
      else default
  end.

(** [float(x)]; [None] for the [TypeError] or [ValueError] it raises. *)
Definition py_float (value : pyval) : option Q :=
  match value with
  | PBool b => Some (if b then 1 else 0)
  | PInt z => Some (inject_Z z)
  | PNum q => Some q
  | PStr s => float_of_str s
  | _ => None
  end.

(** [_parse_coords] calls itself on what [json.loads] returns; [depth] is the
    number of frames left before Python gives up with [RecursionError]. *)
Fixpoint parse_coords_at (depth : nat) (value : pyval) : Result (option (Q * Q)) :=
  match depth with
  | O => Raise RecursionError
  | S depth' =>
      match value with
      | PNone => Ret None
      | PList (v0 :: v1 :: _) =>
          match py_float v0, py_float v1 with
          | Some lon, Some lat => Ret (Some (lon, lat))
          | _, _ => Ret None
          end
      | PStr s =>
          let text := strip s in
          if is_empty_string text then Ret None
          else
            let parsed := default PNone (json_loads text) in
            match parsed with
            | PNone =>
                if contains_char comma text then
                  match map strip (split_on comma text) with
                  | p0 :: p1 :: _ =>
                      match float_of_str p0, float_of_str p1 with
                      | Some a, Some b =>
                          if Qltb 90 (Qabs a) && Qleb (Qabs b) 90 then Ret (Some (a, b))
                          else if Qltb 90 (Qabs b) && Qleb (Qabs a) 90 then Ret (Some (b, a))
                          else Ret (Some (a, b))
                      | _, _ => Ret None
                      end
                  | _ => Ret None
                  end
                else Ret None
            | _ => parse_coords_at depth' parsed
            end
      | _ => Ret None
      end
  end.

Definition _parse_coords (value : pyval) : Result (option (Q * Q)) :=
  parse_coords_at (S recursion_limit) value.

Definition _is_probably_us (lon lat : Q) : bool :=
  Qleb (-179.9) lon && Qleb lon (-66.0) && Qleb 18.0 lat && Qleb lat 72.0.

(** ** Geometry *)

Definition _haversine_miles (lat1 lon1 lat2 lon2 : Q) : Q :=
  let radius_miles := 3958.7613 in
  let lat1_rad := m_radians lat1 in
  let lon1_rad := m_radians lon1 in
  let lat2_rad := m_radians lat2 in
  let lon2_rad := m_radians lon2 in
  let dlat := lat2_rad - lat1_rad in
  let dlon := lon2_rad - lon1_rad in
  let a :=
    m_sin (dlat / 2) ^ 2
    + m_cos lat1_rad * m_cos lat2_rad * m_sin (dlon / 2) ^ 2 in
  2 * radius_miles * m_asin (m_sqrt a).

(** The [for idx in range(1, len(route_points))] loop: [previous] is
    [route_points[idx - 1]] and [last_value] is [cumulative[-1]]. *)
Fixpoint cumulative_from (previous : Q * Q) (rest : list (Q * Q)) (last_value : Q) : list Q :=
  match rest with
  | [] => []
  | current :: rest' =>
      let '(lat1, lon1) := previous in
      let '(lat2, lon2) := current in
      let value := last_value + _haversine_miles lat1 lon1 lat2 lon2 in
      value :: cumulative_from current rest' value
  end.

Definition _build_cumulative_miles (route_points : list (Q * Q)) : list Q :=
  match route_points with
  | [] => [0]
  | first :: rest => 0 :: cumulative_from first rest 0
  end.

(** [min(xs)] and [max(xs)] over a list of numbers. *)
Definition py_min_list (xs : list Q) : Result Q :=
  match xs with
  | [] => Raise ValueError
  | x :: xs' => Ret (fold_left py_min2 xs' x)
  end.
Definition py_max_list (xs : list Q) : Result Q :=
  match xs with
  | [] => Raise ValueError
  | x :: xs' => Ret (fold_left py_max2 xs' x)
  end.

Definition _route_bbox (route_points : list (Q * Q)) (padding_miles : Q)
    : Result (Q * Q * Q * Q) :=
  let lats := map fst route_points in
  let lons := map snd route_points in
  let lat_pad := padding_miles / 69.0 in
  min_lat ← py_min_list lats;
  max_lat ← py_max_list lats;
  let mid_lat := (min_lat + max_lat) / 2.0 in
  let lon_denominator := 69.172 * py_max2 0.2 (Qabs (m_cos (m_radians mid_lat))) in
  let lon_pad := padding_miles / lon_denominator in
  min_lon ← py_min_list lons;
  max_lon ← py_max_list lons;
  mret (min_lat - lat_pad, max_lat + lat_pad, min_lon - lon_pad, max_lon + lon_pad).

(** ** Corridor indexer *)

(** The query keeps the rows with both coordinates; the columns are typed, so
    the [float(...)] conversions cannot fail and no row is skipped for a
    malformed value.  The [lru_cache] of the source makes later calls return
    the first result; here every call reads the same table. *)
Definition _load_station_rows : M (list Station) :=
  _ ← emit EvStationTable;
  mret (omap
          (fun row =>
             match row_latitude row, row_longitude row with
             | Some lat, Some lon =>
                 Some (mkStation (row_name row) (row_city row) (row_state row)
                                 (row_retail_price row) lat lon)
             | _, _ => None
             end)
          FuelStation_objects).

(** [range(0, stop, step)] *)
Definition py_range_step (stop step : nat) : list nat :=
  map (fun k => (k * step)%nat) (seq 0 ((stop + step - 1) / step)).

Definition sampled_indexes_of (n : nat) : Result (list nat) :=
  let stride := Nat.max 1 (n / 800) in
  let sampled_indexes := py_range_step n stride in
  match last sampled_indexes with
  | None => Raise IndexError
  | Some final =>
      if negb (final =? n - 1)%nat then Ret (sampled_indexes ++ [(n - 1)%nat])
      else Ret sampled_indexes
  end.

(** [distance < best_distance] and [best_distance <= radius] where
    [best_distance] may still be [float("inf")]. *)
Definition below_best (distance : Q) (best_distance : option Q) : bool :=
  match best_distance with None => true | Some best => Qltb distance best end.
Definition best_within (best_distance : option Q) (radius : Q) : bool :=
  match best_distance with None => false | Some best => Qleb best radius end.

(** The inner [for idx in sampled_indexes] loop. *)
Fixpoint nearest_sample (station : Station) (route_points : list (Q * Q))
    (sampled_indexes : list nat) (best_distance : option Q) (best_index : nat)
    : Result (option Q * nat) :=
  match sampled_indexes with
  | [] => Ret (best_distance, best_index)
  | idx :: rest =>
      match route_points !! idx with
      | None => Raise IndexError
      | Some (route_lat, route_lon) =>
          let distance :=
            _haversine_miles (latitude station) (longitude station) route_lat route_lon in
          if below_best distance best_distance
          then nearest_sample station route_points rest (Some distance) idx
          else nearest_sample station route_points rest best_distance best_index
      end
  end.

(** The outer [for station in candidates] loop. *)
Fixpoint map_candidates (route_points : list (Q * Q)) (cumulative : list Q)
    (sampled_indexes : list nat) (candidates : list Station) : Result (list MappedStation) :=
  match candidates with
  | [] => Ret []
  | station :: rest =>
      best ← nearest_sample station route_points sampled_indexes None 0%nat;
      let '(best_distance, best_index) := best in
      if best_within best_distance CORRIDOR_RADIUS_MILES then
        match cumulative !! best_index, best_distance with
        | Some mile, Some distance =>
            mapped ← map_candidates route_points cumulative sampled_indexes rest;
            mret (mkMapped station mile distance :: mapped)
        | _, _ => Raise IndexError
        end
      else map_candidates route_points cumulative sampled_indexes rest
  end.

Definition _map_stations_to_route (route_points : list (Q * Q)) (cumulative : list Q)
    : M (list MappedStation) :=
  match route_points with
  | [] => mret []
  | _ :: _ =>
      bbox ← liftM (_route_bbox route_points (CORRIDOR_RADIUS_MILES + 20.0));
      let '(lat_min, lat_max, lon_min, lon_max) := bbox in
      rows ← _load_station_rows;
      let candidates :=
        List.filter
          (fun station =>
             Qleb lat_min (latitude station) && Qleb (latitude station) lat_max
             && Qleb lon_min (longitude station) && Qleb (longitude station) lon_max)
          rows in
      match candidates with
      | [] => mret []
      | _ :: _ =>
          sampled_indexes ← liftM (sampled_indexes_of (length route_points));
          liftM (map_candidates route_points cumulative sampled_indexes candidates)
      end
  end.

(** ** Trip assembler *)

Definition _resolve_location (raw_value : pyval) : M (option (Q * Q)) :=
  coords ← liftM (_parse_coords raw_value);
  match coords with
  | Some c => mret (Some c)
  | None =>
      match raw_value with
      | PStr s =>
          if is_empty_string (strip s) then mret None
          else
            _ ← emit (EvGeocode s);
            mret (geocode_address_opencage s)
      | _ => mret None
      end
  end.

Definition _to_route_points (decoded_points : list (Q * Q)) (start_coords finish_coords : Q * Q)
    : list (Q * Q) :=
  match decoded_points with
  | _ :: _ => map (fun '(lat, lon) => (lat, lon)) decoded_points
  | [] => [(snd start_coords, fst start_coords); (snd finish_coords, fst finish_coords)]
  end.

Definition cache_key_part (raw : pyval) : string :=
  match raw with
  | PStr s => strip s
  | _ => json_dumps raw
  end.

Definition _trip_cache_key (start_raw finish_raw : pyval) (start_with_full_tank : bool) : string :=
  let start_key := cache_key_part start_raw in
  let finish_key := cache_key_part finish_raw in
  "trip:v2:" +:+ start_key +:+ ":" +:+ finish_key +:+ ":"
    +:+ (if start_with_full_tank then "1" else "0").

Definition _build_start_end_map_urls (start_coords finish_coords : Q * Q) : gmap string pyval :=
  let start_lat := str_of_float (snd start_coords) in
  let start_lon := str_of_float (fst start_coords) in
  let end_lat := str_of_float (snd finish_coords) in
  let end_lon := str_of_float (fst finish_coords) in
  mkdict [
    ("openstreetmap_directions",
     PStr ("https://www.openstreetmap.org/directions"
           +:+ "?engine=fossgis_osrm_car&route=" +:+ start_lat +:+ "%2C" +:+ start_lon
           +:+ "%3B" +:+ end_lat +:+ "%2C" +:+ end_lon));
    ("google_maps_directions",
     PStr ("https://www.google.com/maps/dir/?api=1"
           +:+ "&origin=" +:+ quote_plus (start_lat +:+ "," +:+ start_lon)
           +:+ "&destination=" +:+ quote_plus (end_lat +:+ "," +:+ end_lon)
           +:+ "&travelmode=driving"))
  ].

(** [cumulative_miles[-1] if cumulative_miles else float(distance_meters) / 1609.344] *)
Definition total_distance_of (cumulative_miles : list Q) (distance_meters : Q) : Q :=
  match last cumulative_miles with
  | Some final => final
  | None => distance_meters / 1609.344
  end.

(** The variables the [for order, marker in enumerate(waypoints, start=1)]
    loop updates. *)
Record LoopState : Type := mkLoop {
  fuel_stops : list (gmap string pyval);
  total_cost : Q;
  previous_marker : Q;
  missing_station_markers : list Q
}.

Definition gap_stop (order : Z) (marker segment_distance : Q) : gmap string pyval :=
  mkdict [
    ("order", PInt order);
    ("route_mile_marker", PNum (py_round marker 2));
    ("segment_distance_miles", PNum (py_round segment_distance 2));
    ("note", PStr "No geocoded station found near this route segment.")
  ].

Definition station_stop (order : Z) (marker segment_distance : Q) (station : MappedStation)
    (gallons segment_cost : Q) : gmap string pyval :=
  mkdict [
    ("order", PInt order);
    ("route_mile_marker", PNum (py_round marker 2));
    ("segment_distance_miles", PNum (py_round segment_distance 2));
    ("name", PStr (name (station_of station)));
    ("city", PStr (city (station_of station)));
    ("state", PStr (state (station_of station)));
    ("latitude", PNum (latitude (station_of station)));
    ("longitude", PNum (longitude (station_of station)));
    ("distance_to_route_miles", PNum (py_round (detour_miles station) 2));
    ("price_per_gallon_usd", PNum (py_round (price (station_of station)) 3));
    ("gallons_purchased", PNum (py_round gallons 2));
    ("segment_cost_usd", PNum (py_round segment_cost 2))
  ].

Fixpoint stops_loop (mapped_stations : list MappedStation) (total_distance_miles : Q)
    (order : Z) (waypoints : list Q) (st : LoopState) : Result LoopState :=
  match waypoints with
  | [] => Ret st
  | marker :: rest =>
      let segment_distance := py_min2 MAX_RANGE_MILES (total_distance_miles - marker) in
      if Qleb segment_distance 0
      then stops_loop mapped_stations total_distance_miles (order + 1) rest st
      else
        station ← _select_station mapped_stations marker (previous_marker st);
        match station with
        | None =>
            stops_loop mapped_stations total_distance_miles (order + 1) rest
              (mkLoop
                 (fuel_stops st ++ [gap_stop order marker segment_distance])
                 (total_cost st)
                 marker
                 (missing_station_markers st ++ [py_round marker 2]))
        | Some station =>
            let gallons := segment_distance / MPG in
            let segment_cost := gallons * price (station_of station) in
            stops_loop mapped_stations total_distance_miles (order + 1) rest
              (mkLoop
                 (fuel_stops st
                    ++ [station_stop order marker segment_distance station gallons segment_cost])
                 (total_cost st + segment_cost)
                 marker
                 (missing_station_markers st))
        end
  end.

Definition has_key (d : gmap string pyval) (key : string) : bool :=
  match d !! key with Some _ => true | None => false end.

Definition option_str (s : option string) : pyval :=
  match s with Some s => PStr s | None => PNone end.

Definition link_text (raw : pyval) (coords : Q * Q) : string :=
  match raw with
  | PStr s => s
  | _ => str_of_float (fst coords) +:+ "," +:+ str_of_float (snd coords)
  end.

(** The [plan = {...}] literal and the optional ["warnings"] entry. *)
Definition assemble_plan (start_raw finish_raw : pyval) (start_with_full_tank : bool)
    (start_coords finish_coords : Q * Q) (encoded_polyline : option string)
    (total_distance_miles : Q) (st : LoopState) : gmap string pyval :=
  let purchasable_distance :=
    py_max2
      (total_distance_miles - (if start_with_full_tank then MAX_RANGE_MILES else 0.0))
      0.0 in
  let total_purchased_gallons := purchasable_distance / MPG in
  let start_link := link_text start_raw start_coords in
  let finish_link := link_text finish_raw finish_coords in
  let plan :=
    mkdict [
      ("start",
       PDict (mkdict [
         ("input", start_raw);
         ("coordinates",
          PDict (mkdict [("lon", PNum (fst start_coords)); ("lat", PNum (snd start_coords))]))
       ]));
      ("finish",
       PDict (mkdict [
         ("input", finish_raw);
         ("coordinates",
          PDict (mkdict [("lon", PNum (fst finish_coords)); ("lat", PNum (snd finish_coords))]))
       ]));
      ("assumptions",
       PDict (mkdict [
         ("vehicle_range_miles", PNum MAX_RANGE_MILES);
         ("mpg", PNum MPG);
         ("start_with_full_tank", PBool start_with_full_tank);
         ("corridor_radius_miles", PNum CORRIDOR_RADIUS_MILES)
       ]));
      ("summary",
       PDict (mkdict [
         ("total_distance_miles", PNum (py_round total_distance_miles 2));
         ("total_fuel_consumed_gallons", PNum (py_round (total_distance_miles / MPG) 2));
         ("total_fuel_purchased_gallons", PNum (py_round total_purchased_gallons 2));
         ("total_fuel_cost_usd", PNum (py_round (total_cost st) 2));
         ("number_of_fuel_stops",
          PInt (Z.of_nat
                  (length (List.filter (fun stop => has_key stop "name") (fuel_stops st)))))
       ]));
      ("fuel_stops", PList (map PDict (fuel_stops st)));
      ("route_polyline", option_str encoded_polyline);
      ("start_end_map", PDict (_build_start_end_map_urls start_coords finish_coords));
      ("map_url",
       PStr ("/map/?start=" +:+ quote_plus start_link
             +:+ "&finish=" +:+ quote_plus finish_link
             +:+ "&start_with_full_tank="
             +:+ (if start_with_full_tank then "true" else "false")))
    ] in
  match missing_station_markers st with
  | [] => plan
  | _ :: _ =>
      <["warnings" :=
          PDict (mkdict [
            ("missing_station_markers_miles", PList (map PNum (missing_station_markers st)));
            ("message",
             PStr "Some stops were estimated because no geocoded station was found nearby.")
          ])]> plan
  end.

Definition _build_trip_plan (start_raw finish_raw : pyval) (start_with_full_tank : bool)
    : M (gmap string pyval) :=
  start_coords ← _resolve_location start_raw;
  finish_coords ← _resolve_location finish_raw;
  match start_coords, finish_coords with
  | Some start_coords, Some finish_coords =>
      if negb (_is_probably_us (fst start_coords) (snd start_coords))
         || negb (_is_probably_us (fst finish_coords) (snd finish_coords))
      then raiseM (TripPlanningError "Start and finish must be locations within the USA." 400)
      else
        _ ← emit (EvRoute start_coords finish_coords);
        let '(distance_meters, encoded_polyline, decoded_route) :=
          get_route start_coords finish_coords in
        match distance_meters with
        | None =>
            raiseM (TripPlanningError
                      "Route service failed. Check API key/quota and try again." 502)
        | Some distance_meters =>
            let route_points := _to_route_points decoded_route start_coords finish_coords in
            let cumulative_miles := _build_cumulative_miles route_points in
            let total_distance_miles := total_distance_of cumulative_miles distance_meters in
            mapped_stations ← _map_stations_to_route route_points cumulative_miles;
            let waypoints := _build_waypoint_markers total_distance_miles start_with_full_tank in
            st ← liftM (stops_loop mapped_stations total_distance_miles 1 waypoints
                          (mkLoop [] 0.0 (- MAX_RANGE_MILES) []));
            mret (assemble_plan start_raw finish_raw start_with_full_tank
                    start_coords finish_coords encoded_polyline total_distance_miles st)
        end
  | _, _ =>
      raiseM (TripPlanningError
                "Invalid start or finish. Use US address text or coordinates [lon, lat]." 400)
  end.

(** ** The [/route/] handler *)

Definition query_get (query : gmap string string) (key : string) (default : pyval) : pyval :=
  match query !! key with Some s => PStr s | None => default end.

Definition _extract_inputs (request : HttpRequest) : pyval * pyval * bool :=
  let payload := _parse_body request in
  let start :=
    query_get (GET request) "start"
      (py_or (dict_get payload "start") (dict_get payload "start_coords")) in
  let finish :=
    query_get (GET request) "finish"
      (py_or (py_or (dict_get payload "finish") (dict_get payload "end"))
             (dict_get payload "end_coords")) in
  let start_with_full_tank :=
    _parse_bool
      (query_get (GET request) "start_with_full_tank"
         (default (PBool false) (payload !! "start_with_full_tank")))
      false in
  (start, finish, start_with_full_tank).

Definition is_none (v : pyval) : bool :=
  match v with PNone => true | _ => false end.

Definition missing_inputs_response : HttpResponse :=
  JsonResponse
    (mkdict [
       ("error", PStr "Both start and finish are required.");
       ("example",
        PDict (mkdict [
          ("start", PStr "Los Angeles, CA");
          ("finish", PStr "Dallas, TX");
          ("start_with_full_tank", PBool false)
        ]))
     ])
    400.

(** [try: ... except TripPlanningError as exc: ...]; any other exception
    leaves the handler. *)
Definition try_build_trip_plan (start finish : pyval) (start_with_full_tank : bool)
    : M (gmap string pyval + HttpResponse) :=
  fun w =>
    match _build_trip_plan start finish start_with_full_tank w with
    | (Ret plan, w') => (Ret (inl plan), w')
    | (Raise (TripPlanningError message code), w') =>
        (Ret (inr (JsonResponse (mkdict [("error", PStr message)]) code)), w')
    | (Raise e, w') => (Raise e, w')
    end.

Definition route_distance (request : HttpRequest) : M HttpResponse :=
  let '(start, finish, start_with_full_tank) := _extract_inputs request in
  if is_none start || is_none finish then mret missing_inputs_response
  else
    let cache_key := _trip_cache_key start finish start_with_full_tank in
    cached ← cache_get cache_key;
    match cached with
    | Some cached =>
        let public_payload := cached in
        let public_payload := delete "route_polyline" public_payload in
        mret (JsonResponse public_payload 200)
    | None =>
        outcome ← try_build_trip_plan start finish start_with_full_tank;
        match outcome with
        | inr response => mret response
        | inl plan =>
            _ ← cache_set cache_key plan;
            let public_payload := plan in
            let public_payload := delete "route_polyline" public_payload in
            mret (JsonResponse public_payload 200)
        end
    end.

End Planner.

(** ** A concrete environment for the examples

    Executable stand-ins for the library functions, precise enough to run the
    planner on the scenario of [routing/tests.py]: truncated power series for
    the trigonometric functions, an integer square root, a reader and a printer for plain decimal numerals, and
    percent-encoding. *)

Module Fixture.

(** Results are cut to twelve decimal places, which keeps the numerals
    short. *)
Definition twelve_places (x : Q) : Q :=
  Qred (Qmake (Qfloor (x * inject_Z (10 ^ 12))) (Z.to_pos (10 ^ 12))).

Definition series_sin (x : Q) : Q := twelve_places (x - x ^ 3 / 6 + x ^ 5 / 120).
Definition series_cos (x : Q) : Q :=
  twelve_places (1 - x ^ 2 / 2 + x ^ 4 / 24 - x ^ 6 / 720).
Definition series_asin (x : Q) : Q := twelve_places (x + x ^ 3 / 6 + 3 * x ^ 5 / 40).
Definition root (x : Q) : Q :=
  let r := Qred x in
  let n := Qnum r in
  let d := Z.pos (Qden r) in
  twelve_places (Qmake (Z.sqrt (n * d * 10 ^ 40)) (Z.to_pos (d * 10 ^ 20))).
Definition degrees_to_radians (x : Q) : Q := twelve_places (x * (355 # 113) / 180).

Definition math : MathLib := {|
  m_sin := series_sin;
  m_cos := series_cos;
  m_asin := series_asin;
  m_sqrt := root;
  m_radians := degrees_to_radians
|}.

Definition digit_value (c : ascii) : option Z :=
  let n := nat_of_ascii c in
  if ((48 <=? n)%nat && (n <=? 57)%nat) then Some (Z.of_nat (n - 48)) else None.

Fixpoint read_digits (s : string) (acc : Z) (count : nat) : Z * nat * string :=
  match s with
  | EmptyString => (acc, count, s)
  | String c s' =>
      match digit_value c with
      | Some d => read_digits s' (acc * 10 + d)%Z (S count)
      | None => (acc, count, s)
      end
  end.

(** Numerals of the form [-12], [+3.5], [.25], [7.]. *)
Definition read_decimal (s : string) : option Q :=
  let '(negative, s1) :=
    match s with
    | String "-" r => (true, r)
    | String "+" r => (false, r)
    | _ => (false, s)
    end in
  let signed (q : Q) : Q := if negative then - q else q in
  let '(int_part, n1, r1) := read_digits s1 0%Z 0%nat in
  match r1 with
  | EmptyString =>
      if (n1 =? 0)%nat then None else Some (signed (inject_Z int_part))
  | String "." r2 =>
      let '(frac_part, n2, r3) := read_digits r2 0%Z 0%nat in
      match r3 with
      | EmptyString =>
          if (n1 + n2 =? 0)%nat then None
          else Some (signed (Qred (inject_Z int_part
                                   + Qmake frac_part (Z.to_pos (10 ^ Z.of_nat n2)))))
      | String _ _ => None
      end
  | String _ _ => None
  end.

Fixpoint drop_trailing_zeros (s : string) : string :=
  match s with
  | EmptyString => EmptyString
  | String c s' =>
      let r := drop_trailing_zeros s' in
      if Ascii.eqb c "0" && is_empty_string r then EmptyString else String c r
  end.

Fixpoint pad_left (width : nat) (s : string) : string :=
  match width with
  | O => s
  | S w => if (String.length s <? S w)%nat then String "0" (pad_left w s) else s
  end.

(** Up to six decimal places, at least one. *)
Definition print_decimal (q : Q) : string :=
  let scaled := Qfloor (Qabs q * inject_Z (10 ^ 6)) in
  let int_part := (scaled / 10 ^ 6)%Z in
  let frac := drop_trailing_zeros (pad_left 6 (pretty (scaled mod 10 ^ 6)%Z)) in
  (if Qltb q 0 then "-" else "")
    +:+ pretty int_part +:+ "."
    +:+ (if is_empty_string frac then "0" else frac).

Definition hex_digit (n : nat) : ascii :=
  if (n <? 10)%nat then ascii_of_nat (48 + n) else ascii_of_nat (55 + n).

Definition unreserved (c : ascii) : bool :=
  let n := nat_of_ascii c in
  ((48 <=? n)%nat && (n <=? 57)%nat) || ((65 <=? n)%nat && (n <=? 90)%nat)
  || ((97 <=? n)%nat && (n <=? 122)%nat)
  || Ascii.eqb c "_" || Ascii.eqb c "." || Ascii.eqb c "-" || Ascii.eqb c "~".

Fixpoint percent_encode (s : string) : string :=
  match s with
  | EmptyString => EmptyString
  | String c s' =>
      if unreserved c then String c (percent_encode s')
      else if Ascii.eqb c " " then String "+" (percent_encode s')
      else
        let n := nat_of_ascii c in
        String "%" (String (hex_digit (n / 16)) (String (hex_digit (n mod 16))
                                                     (percent_encode s')))
  end.

(** The examples pass their inputs as query parameters holding coordinate
    text, which is not a JSON document: this decoder rejects every text, and
    the printers of arbitrary objects are never reached. *)
Definition python : PyLib := {|
  json_loads := fun _ => None;
  json_dumps := fun _ => "null"%string;
  utf8_decode := fun s => Some s;
  float_of_str := read_decimal;
  str_of_float := print_decimal;
  str_of_value := fun _ => ""%string;
  quote_plus := percent_encode;
  recursion_limit := 1000
|}.

(** [ROUTE_POINTS] and the four stations of [routing/tests.py]. *)
Definition ROUTE_POINTS : list (Q * Q) :=
  [(35.0, -120.0); (35.0, -115.0); (35.0, -110.0); (35.0, -105.0);
   (35.0, -100.0); (35.0, -95.0); (35.0, -90.0)].

Definition test_stations : list FuelStationRow :=
  [mkRow "Start Fuel" "Bakersfield" "CA" 3.90 (Some 35.0) (Some (-119.8));
   mkRow "Mesa Fuel" "Flagstaff" "AZ" 3.10 (Some 35.0) (Some (-110.3));
   mkRow "Plains Fuel" "Amarillo" "TX" 3.00 (Some 35.1) (Some (-101.0));
   mkRow "Delta Fuel" "Memphis" "TN" 3.40 (Some 35.0) (Some (-90.4))].

Definition test_services : Collaborators := {|
  geocode_address_opencage := fun _ => None;
  get_route := fun _ _ => (Some 2700000, Some "encoded-polyline"%string, ROUTE_POINTS);
  FuelStation_objects := test_stations
|}.

(** A second scenario: the router returns a distance but no decoded path
    (the planner falls back to the two end points), and the table holds one
    station at the start of the hop. *)
Definition roadside_station : list FuelStationRow :=
  [mkRow "Roadside Fuel" "Shamrock" "TX" 3.00 (Some 35.0) (Some (-100.0))].

Definition short_hop_services : Collaborators := {|
  geocode_address_opencage := fun _ => None;
  get_route := fun _ _ => (Some 9, Some "encoded-polyline"%string, []);
  FuelStation_objects := roadside_station
|}.

(** A third scenario: the same router and an empty station table. *)
Definition no_station_services : Collaborators := {|
  geocode_address_opencage := fun _ => None;
  get_route := fun _ _ => (Some 9, Some "encoded-polyline"%string, []);
  FuelStation_objects := []
|}.

(** The two end points of that hop, as route points [(lat, lon)]. *)
Definition hop_route : list (Q * Q) := [(35.0, -100.0); (35.0, -99.0)].

Definition empty_world : World := mkWorld ∅ [].

Definition get_request (params : list (string * string)) : HttpRequest :=
  mkRequest (list_to_map params) "".

(** The value and the final world of a run. *)
Definition value_of {A : Type} (fallback : A) (run : Result A * World) : A :=
  match run with
  | (Ret a, _) => a
  | (Raise _, _) => fallback
  end.

Definition world_of {A : Type} (run : Result A * World) : World := snd run.

(** The two requests of the tests, and the summary field of the answer to a
    request in the scenario of the tests. *)
Definition default_request : HttpRequest :=
  get_request [("start", "-120,35"); ("finish", "-90,35")]%string.

Definition full_tank_request : HttpRequest :=
  get_request
    [("start", "-120,35"); ("finish", "-90,35"); ("start_with_full_tank", "true")]%string.

Definition answer_to (request : HttpRequest) : HttpResponse :=
  value_of (JsonResponse ∅ 0)
    (route_distance (math := math) (py := python) (services := test_services)
       request empty_world).

Definition summary_of (request : HttpRequest) (key : string) : option pyval :=
  match payload (answer_to request) !! "summary" with
  | Some (PDict summary) => summary !! key
  | _ => None
  end.

End Fixture.

(** * The specification's own formulations

    Definitions written from the wording of the specification, against which
    the code above is compared. *)

(** ** Stop selection (specification, section 4.4) *)

(** [kept P l k]: [k] lists, in the order of [l], the elements of [l] that
    satisfy [P]. *)
Inductive kept {A : Type} (P : A -> Prop) : list A -> list A -> Prop :=
| kept_nil : kept P [] []
| kept_take x l k : P x -> kept P l k -> kept P (x :: l) (x :: k)
| kept_drop x l k : ~ P x -> kept P l k -> kept P (x :: l) k.

(** [s] minimises [score] over [pool], and is the first to do so. *)
Definition first_minimizer {A : Type} (score : A -> Q) (pool : list A) (s : A) : Prop :=
  exists before after,
    pool = before ++ s :: after
    /\ Forall (fun x => score s < score x) before
    /\ Forall (fun x => score s <= score x) after.

Definition spec_score (marker : Q) (s : MappedStation) : Q :=
  price (station_of s) + detour_miles s * 0.04 + Qabs (route_mile s - marker) * 0.002.

Definition spec_not_behind (previous_marker : Q) (s : MappedStation) : Prop :=
  previous_marker - 40 <= route_mile s.

Definition spec_in_window (marker previous_marker window : Q) (s : MappedStation) : Prop :=
  Qabs (route_mile s - marker) <= window /\ spec_not_behind previous_marker s.

Definition spec_windows : list Q := [60; 120; 200; 320].

(** The candidates the choice is made from: those of the first window that
    has any, else the stations not behind the previous marker, else all. *)
Inductive spec_pool (mapped : list MappedStation) (marker previous_marker : Q)
    : list MappedStation -> Prop :=
| pool_window earlier window later pool :
    spec_windows = earlier ++ window :: later ->
    Forall (fun w => kept (spec_in_window marker previous_marker w) mapped []) earlier ->
    kept (spec_in_window marker previous_marker window) mapped pool ->
    pool <> [] ->
    spec_pool mapped marker previous_marker pool
| pool_not_behind pool :
    Forall (fun w => kept (spec_in_window marker previous_marker w) mapped []) spec_windows ->
    kept (spec_not_behind previous_marker) mapped pool ->
    pool <> [] ->
    spec_pool mapped marker previous_marker pool
| pool_everything :
    Forall (fun w => kept (spec_in_window marker previous_marker w) mapped []) spec_windows ->
    kept (spec_not_behind previous_marker) mapped [] ->
    spec_pool mapped marker previous_marker mapped.

Definition spec_selection (mapped : list MappedStation) (marker previous_marker : Q)
    (result : option MappedStation) : Prop :=
  match result with
  | None => mapped = []
  | Some s =>
      mapped <> []
      /\ exists pool,
           spec_pool mapped marker previous_marker pool
           /\ first_minimizer (spec_score marker) pool s
  end.

(** ** Corridor distance (specification, section 4.2) *)

(** Distance from a station to a route point. *)
Definition station_distance {math : MathLib} (station : Station) (point : Q * Q) : Q :=
  _haversine_miles (latitude station) (longitude station) (fst point) (snd point).

(** [d] is the distance from [station] to the sampled route point of index
    [i], and no sampled route point is nearer. *)
Definition nearest_sampled {math : MathLib} (station : Station) (route_points : list (Q * Q))
    (sampled_indexes : list nat) (i : nat) (d : Q) : Prop :=
  In i sampled_indexes
  /\ (exists point, route_points !! i = Some point /\ d = station_distance station point)
  /\ (forall j point,
        In j sampled_indexes -> route_points !! j = Some point ->
        d <= station_distance station point).

(** ** Reading a plan *)

(** [plan["summary"][key]] and [plan["fuel_stops"]]. *)
Definition plan_summary (plan : gmap string pyval) (key : string) : option pyval :=
  match plan !! "summary" with
  | Some (PDict summary) => summary !! key
  | _ => None
  end.

Definition plan_fuel_stops (plan : gmap string pyval) : option (list pyval) :=
  match plan !! "fuel_stops" with
  | Some (PList stops) => Some stops
  | _ => None
  end.

(** The value of [previous_marker] when the loop reaches the marker of index
    [i], for a loop entered with [previous_marker = p]: the marker before it,
    or [p] at the first one. *)
Definition previous_from (p : Q) (waypoints : list Q) (i : nat) : Q :=
  match i with
  | O => p
  | S j => default p (waypoints !! j)
  end.

(** [_build_trip_plan] enters the loop with [-MAX_RANGE_MILES]. *)
Definition previous_marker_at (waypoints : list Q) (i : nat) : Q :=
  previous_from (- MAX_RANGE_MILES) waypoints i.

(** The stop at the marker of index [i] is filled with [station]. *)
Definition filled_with (mapped : list MappedStation) (waypoints : list Q)
    (i : nat) (station : MappedStation) : Prop :=
  exists marker,
    waypoints !! i = Some marker
    /\ _select_station mapped marker (previous_marker_at waypoints i) = Ret (Some station).

(** The local variables of a run of [_build_trip_plan] that reaches its
    [return plan]. *)
Record TripRun : Type := mkRun {
  run_start_coords : Q * Q;
  run_finish_coords : Q * Q;
  run_distance_meters : Q;
  run_polyline : option string;
  run_route_points : list (Q * Q);
  run_cumulative : list Q;
  run_total : Q;
  run_mapped : list MappedStation;
  run_waypoints : list Q;
  run_state : LoopState
}.

Definition trip_run {math : MathLib} {py : PyLib} {services : Collaborators}
    (start_raw finish_raw : pyval) (start_with_full_tank : bool) (w w' : World)
    (plan : gmap string pyval) (r : TripRun) : Prop :=
  exists w1 w2 decoded_route,
    _resolve_location start_raw w = (Ret (Some (run_start_coords r)), w1)
    /\ _resolve_location finish_raw w1 = (Ret (Some (run_finish_coords r)), w2)
    /\ get_route (run_start_coords r) (run_finish_coords r)
       = (Some (run_distance_meters r), run_polyline r, decoded_route)
    /\ run_route_points r
       = _to_route_points decoded_route (run_start_coords r) (run_finish_coords r)
    /\ run_cumulative r = _build_cumulative_miles (run_route_points r)
    /\ run_total r = total_distance_of (run_cumulative r) (run_distance_meters r)
    /\ _map_stations_to_route (run_route_points r) (run_cumulative r)
         (mkWorld (cache w2)
                  (calls w2 ++ [EvRoute (run_start_coords r) (run_finish_coords r)]))
       = (Ret (run_mapped r), w')
    /\ run_waypoints r = _build_waypoint_markers (run_total r) start_with_full_tank
    /\ stops_loop (run_mapped r) (run_total r) 1 (run_waypoints r)
         (mkLoop [] 0.0 (- MAX_RANGE_MILES) [])
       = Ret (run_state r)
    /\ plan = assemble_plan start_raw finish_raw start_with_full_tank
                (run_start_coords r) (run_finish_coords r) (run_polyline r)
                (run_total r) (run_state r).

(** * Further code of the repository

    The parts of [views.py] that the claims above do not
    reach, and the notions used to state their behaviour. *)

(** [sum(xs)] over rationals. *)
Definition Qsum (xs : list Q) : Q := fold_right Qplus 0 xs.

(** The rows [_load_station_rows] returns: those with both coordinates, in
    table order. *)
Definition eligible_stations {services : Collaborators} : list Station :=
  omap
    (fun row =>
       match row_latitude row, row_longitude row with
       | Some lat, Some lon =>
           Some (mkStation (row_name row) (row_city row) (row_state row)
                           (row_retail_price row) lat lon)
       | _, _ => None
       end)
    FuelStation_objects.

(** The box [_is_probably_us] accepts, for a pair [[lon, lat]]. *)
Definition inside_us_box (coords : Q * Q) : Prop :=
  -179.9 <= fst coords /\ fst coords <= -66
  /\ 18 <= snd coords /\ snd coords <= 72.

(** A call to the geocoder for one of the two raw inputs. *)
Definition geocode_of (start_raw finish_raw : pyval) (e : Event) : Prop :=
  exists s, e = EvGeocode s /\ (start_raw = PStr s \/ finish_raw = PStr s).


(** A station lies inside a box [(lat_min, lat_max, lon_min, lon_max)]. *)
Definition inside_box (box : Q * Q * Q * Q) (station : Station) : Prop :=
  let '(lat_min, lat_max, lon_min, lon_max) := box in
  lat_min <= latitude station /\ latitude station <= lat_max
  /\ lon_min <= longitude station /\ longitude station <= lon_max.

(** ** The [/map/] handler *)

(** What [map_view] answers: a JSON response, or the page
    [render(request, template_name, context)]. *)
Inductive ViewResponse : Type :=
| Json (response : HttpResponse)
| Rendered (template_name : string) (context : gmap string pyval).

(** What leaves [map_view] otherwise: an exception of the planner, the
    [KeyError] of a subscript with a missing key, or the [TypeError] of a
    subscript, a membership test or an iteration on a value that is neither a
    dict nor a list.  (The plan is the dict literal of [_build_trip_plan], so
    the last case does not arise; what Python would do with a string there is
    not distinguished.) *)
Inductive view_exn : Type :=
| PlannerError (e : exn)
| KeyError (key : string)
| TypeError.

Inductive ViewResult (A : Type) : Type :=
| Done (a : A)
| Fails (e : view_exn).
Arguments Done {A} a.
Arguments Fails {A} e.

#[global] Instance ViewResult_ret : MRet ViewResult := fun A a => Done a.
#[global] Instance ViewResult_bind : MBind ViewResult := fun A B f m =>
  match m with
  | Done a => f a
  | Fails e => Fails e
  end.

(** [value[key]] *)
Definition subscript (value : pyval) (key : string) : ViewResult pyval :=
  match value with
  | PDict d =>
      match d !! key with
      | Some item => Done item
      | None => Fails (KeyError key)
      end
  | _ => Fails TypeError
  end.

(** One round of the comprehension that builds [map_stops]: [None] when the
    stop has no ["name"]. *)
Definition map_stop (stop : pyval) : ViewResult (option (gmap string pyval)) :=
  match stop with
  | PDict d =>
      if has_key d "name" then
        name ← subscript stop "name";
        city ← subscript stop "city";
        state ← subscript stop "state";
        latitude ← subscript stop "latitude";
        longitude ← subscript stop "longitude";
        price ← subscript stop "price_per_gallon_usd";
        mret (Some (mkdict [
          ("name", name);
          ("city", city);
          ("state", state);
          ("latitude", latitude);
          ("longitude", longitude);
          ("price", price)
        ]))
      else mret None
  | _ => Fails TypeError
  end.

Fixpoint map_stops_of (stops : list pyval) : ViewResult (list (gmap string pyval)) :=
  match stops with
  | [] => mret []
  | stop :: rest =>
      entry ← map_stop stop;
      entries ← map_stops_of rest;
      mret (match entry with Some entry => entry :: entries | None => entries end)
  end.

Section MapView.
Context {math : MathLib} {py : PyLib} {services : Collaborators}.

(** The part of [map_view] after the plan is built. *)
Definition render_map (plan : gmap string pyval) : ViewResult ViewResponse :=
  stops ← subscript (PDict plan) "fuel_stops";
  match stops with
  | PList stops =>
      map_stops ← map_stops_of stops;
      let polyline := py_or (dict_get plan "route_polyline") (PStr "") in
      start ← subscript (PDict plan) "start";
      coordinates ← subscript start "coordinates";
      start_lon ← subscript coordinates "lon";
      start ← subscript (PDict plan) "start";
      coordinates ← subscript start "coordinates";
      start_lat ← subscript coordinates "lat";
      finish ← subscript (PDict plan) "finish";
      coordinates ← subscript finish "coordinates";
      finish_lon ← subscript coordinates "lon";
      finish ← subscript (PDict plan) "finish";
      coordinates ← subscript finish "coordinates";
      finish_lat ← subscript coordinates "lat";
      mret (Rendered "routing/map.html"
              (mkdict [
                 ("polyline", polyline);
                 ("fuel_stops", PStr (json_dumps (PList (map PDict map_stops))));
                 ("start_coords", PStr (json_dumps (PList [start_lon; start_lat])));
                 ("end_coords", PStr (json_dumps (PList [finish_lon; finish_lat])))
               ]))
  | _ => Fails TypeError
  end.

Definition map_view (request : HttpRequest) (w : World) : ViewResult ViewResponse * World :=
  let '(start, finish, start_with_full_tank) := _extract_inputs request in
  if is_none start || is_none finish
  then
    (Done (Json (JsonResponse
                   (mkdict [("error", PStr "Both start and finish are required for map view.")])
                   400)),
     w)
  else
    match try_build_trip_plan start finish start_with_full_tank w with
    | (Ret (inl plan), w') => (render_map plan, w')
    | (Ret (inr response), w') => (Done (Json response), w')
    | (Raise e, w') => (Fails (PlannerError e), w')
    end.

End MapView.

(** The entry [map_view] makes of a stop that names a station; the absent
    fields read as [None]. *)
Definition map_entry (stop : gmap string pyval) : gmap string pyval :=
  mkdict [
    ("name", dict_get stop "name");
    ("city", dict_get stop "city");
    ("state", dict_get stop "state");
    ("latitude", dict_get stop "latitude");
    ("longitude", dict_get stop "longitude");
    ("price", dict_get stop "price_per_gallon_usd")
  ].

(** ** Legs of a route *)

(** The haversine distances between consecutive route points. *)
Fixpoint leg_distances {math : MathLib} (route_points : list (Q * Q)) : list Q :=
  match route_points with
  | [] => []
  | p :: rest =>
      match rest with
      | [] => []
      | q :: _ => _haversine_miles (fst p) (snd p) (fst q) (snd q) :: leg_distances rest
      end
  end.

(** ** Absent inputs *)

(** An input is absent when the query string does not give it and the body
    gives it no value that counts: the first field holds nothing true and the
    last alternative is missing or [None]. *)
Definition start_absent {py : PyLib} (request : HttpRequest) : Prop :=
  GET request !! "start" = None
  /\ truthy (dict_get (_parse_body request) "start") = false
  /\ dict_get (_parse_body request) "start_coords" = PNone.

Definition finish_absent {py : PyLib} (request : HttpRequest) : Prop :=
  GET request !! "finish" = None
  /\ truthy (dict_get (_parse_body request) "finish") = false
  /\ truthy (dict_get (_parse_body request) "end") = false
  /\ dict_get (_parse_body request) "end_coords" = PNone.

(** ** Further stand-ins for the examples *)

Module Examples.

(** A decoder that reads one JSON array, and a geometry in which every
    distance is zero. *)
Definition array_reader : PyLib := {|
  json_loads := fun s =>
    if String.eqb s "[100, 35]" then Some (PList [PInt 100; PInt 35]) else None;
  json_dumps := json_dumps (PyLib := Fixture.python);
  utf8_decode := utf8_decode (PyLib := Fixture.python);
  float_of_str := float_of_str (PyLib := Fixture.python);
  str_of_float := str_of_float (PyLib := Fixture.python);
  str_of_value := str_of_value (PyLib := Fixture.python);
  quote_plus := quote_plus (PyLib := Fixture.python);
  recursion_limit := 1000
|}.

Definition flat_math : MathLib := {|
  m_sin := fun _ => 0;
  m_cos := fun _ => 1;
  m_asin := fun _ => 0;
  m_sqrt := fun _ => 0;
  m_radians := fun x => x
|}.

End Examples.
(** * Properties *)

(** ** Arithmetic facts *)

Lemma Qltb_true (x y : Q) : Qltb x y = true <-> x < y.
Proof.
  unfold Qltb. rewrite negb_true_iff. split.
  - intros E. apply Qnot_le_lt. intros L. apply Qle_bool_iff in L. congruence.
  - intros L. destruct (Qle_bool y x) eqn:E; [|reflexivity].
    apply Qle_bool_iff in E. lra.
Qed.

Lemma Qltb_false (x y : Q) : Qltb x y = false <-> y <= x.
Proof.
  unfold Qltb. rewrite negb_false_iff. apply Qle_bool_iff.
Qed.

Lemma Qleb_true (x y : Q) : Qleb x y = true <-> x <= y.
Proof. apply Qle_bool_iff. Qed.

Lemma Qleb_false (x y : Q) : Qleb x y = false <-> y < x.
Proof.
  unfold Qleb. split.
  - intros E. apply Qnot_le_lt. intros L. apply Qle_bool_iff in L. congruence.
  - intros L. destruct (Qle_bool x y) eqn:E; [|reflexivity].
    apply Qle_bool_iff in E. lra.
Qed.

Lemma inject_Z_sub (a b : Z) : inject_Z (a - b) = inject_Z a - inject_Z b.
Proof. unfold Z.sub. now rewrite inject_Z_plus, inject_Z_opp. Qed.

Lemma Zlt_of_inject (a b : Z) : inject_Z a < inject_Z b -> (a < b)%Z.
Proof. intros L. rewrite Zlt_Qlt. exact L. Qed.

Lemma Qceiling_add_Z (x : Q) (k : Z) : Qceiling (x + inject_Z k) = (Qceiling x + k)%Z.
Proof.
  pose proof (Qle_ceiling x) as U1. pose proof (Qceiling_lt x) as L1.
  pose proof (Qle_ceiling (x + inject_Z k)) as U2.
  pose proof (Qceiling_lt (x + inject_Z k)) as L2.
  rewrite inject_Z_sub in L1, L2. change (inject_Z 1) with 1 in *.
  assert (A : (Qceiling (x + inject_Z k) < Qceiling x + k + 1)%Z).
  { apply Zlt_of_inject. rewrite !inject_Z_plus. change (inject_Z 1) with 1. lra. }
  assert (B : (Qceiling x + k < Qceiling (x + inject_Z k) + 1)%Z).
  { apply Zlt_of_inject. rewrite !inject_Z_plus. change (inject_Z 1) with 1. lra. }
  lia.
Qed.

Lemma Qceiling_positive (x : Q) : 0 < x -> (0 < Qceiling x)%Z.
Proof.
  intros P. apply Zlt_of_inject. pose proof (Qle_ceiling x).
  change (inject_Z 0) with 0. lra.
Qed.

Lemma Qceiling_nonpositive (x : Q) : x <= 0 -> (Qceiling x <= 0)%Z.
Proof.
  intros P. change 0%Z with (Qceiling (inject_Z 0)) at 1.
  rewrite <- (Qceiling_Z 0). apply Qceiling_resp_le. exact P.
Qed.

(** ** The waypoint planner *)

Lemma markers_from_lookup (marker total_miles : Q) (i : nat) (a : Q) :
  markers_from marker total_miles !! i = Some a ->
  a == marker + inject_Z (Z.of_nat i) * MAX_RANGE_MILES /\ a < total_miles.
Proof.
  revert i a. funelim (markers_from marker total_miles); intros i a E.
  - destruct i as [|i]; simpl in E.
    + injection E as <-. split; [|assumption]. change (inject_Z (Z.of_nat 0)) with 0. ring.
    + destruct (H i a E) as [E1 L1]. split; [|assumption].
      rewrite E1, Nat2Z.inj_succ. unfold Z.succ. rewrite inject_Z_plus.
      change (inject_Z 1) with 1. ring.
  - destruct i; discriminate.
Qed.

Lemma markers_from_length (marker total_miles : Q) :
  length (markers_from marker total_miles)
  = Z.to_nat (Qceiling ((total_miles - marker) / MAX_RANGE_MILES)).
Proof.
  funelim (markers_from marker total_miles).
  - simpl. rewrite H.
    assert (E : (total_miles - (marker + MAX_RANGE_MILES)) / MAX_RANGE_MILES
                == (total_miles - marker) / MAX_RANGE_MILES + inject_Z (-1)).
    { change (inject_Z (-1)) with (-1). unfold MAX_RANGE_MILES. field. }
    rewrite E, Qceiling_add_Z.
    assert (P : (0 < Qceiling ((total_miles - marker) / MAX_RANGE_MILES))%Z).
    { apply Qceiling_positive. unfold MAX_RANGE_MILES.
      apply Qlt_shift_div_l; [reflexivity|]. lra. }
    lia.
  - simpl.
    assert (P : (Qceiling ((total_miles - marker) / MAX_RANGE_MILES) <= 0)%Z).
    { apply Qceiling_nonpositive. unfold MAX_RANGE_MILES.
      apply Qle_shift_div_r; [reflexivity|]. lra. }
    lia.
Qed.

Lemma markers_from_head (marker total_miles : Q) :
  marker < total_miles -> head (markers_from marker total_miles) = Some marker.
Proof.
  intros L. rewrite markers_from_equation_1.
  destruct (Qlt_le_dec marker total_miles); [reflexivity | lra].
Qed.

(** C3. [_build_waypoint_markers] returns offsets that are all strictly
    below [total_miles], consecutive ones exactly 500 miles apart and hence
    strictly ascending; the first offset, when there is one, is 500 with a
    full starting tank and 0 otherwise, and it is present as soon as it is
    below [total_miles]; for [total_miles <= 0] the result is empty. *)
Theorem waypoint_markers_shape (total_miles : Q) (start_with_full_tank : bool) :
  let markers := _build_waypoint_markers total_miles start_with_full_tank in
  let first := if start_with_full_tank then 500 else 0 in
  Forall (fun m => m < total_miles) markers
  /\ (forall i a b, markers !! i = Some a -> markers !! S i = Some b -> b == a + 500)
  /\ (forall i j a b, (i < j)%nat -> markers !! i = Some a -> markers !! j = Some b -> a < b)
  /\ (forall m, head markers = Some m -> m == first)
  /\ (first < total_miles -> exists m, head markers = Some m /\ m == first)
  /\ (total_miles <= 0 -> markers = []).
Proof.
  cbv zeta. unfold _build_waypoint_markers.
  destruct (Qleb total_miles 0) eqn:Z.
  - refine (conj _ (conj _ (conj _ (conj _ (conj _ _))))).
    + constructor.
    + intros i a b E. destruct i; discriminate.
    + intros i j a b _ E. destruct i; discriminate.
    + intros m E. discriminate.
    + intros L. apply Qleb_true in Z. destruct start_with_full_tank; lra.
    + reflexivity.
  - apply Qleb_false in Z.
    set (first := if start_with_full_tank then MAX_RANGE_MILES else 0).
    assert (F : first == (if start_with_full_tank then 500 else 0)).
    { subst first. destruct start_with_full_tank; reflexivity. }
    refine (conj _ (conj _ (conj _ (conj _ (conj _ _))))).
    + apply Forall_forall. intros m I. apply list_elem_of_lookup in I.
      destruct I as [i E]. apply (markers_from_lookup _ _ _ _ E).
    + intros i a b Ea Eb.
      apply markers_from_lookup in Ea as [Ea _]. apply markers_from_lookup in Eb as [Eb _].
      rewrite Eb, Ea, Nat2Z.inj_succ. unfold Z.succ. rewrite inject_Z_plus.
      change (inject_Z 1) with 1. unfold MAX_RANGE_MILES. ring.
    + intros i j a b L Ea Eb.
      apply markers_from_lookup in Ea as [Ea _]. apply markers_from_lookup in Eb as [Eb _].
      rewrite Ea, Eb. unfold MAX_RANGE_MILES.
      assert (inject_Z (Z.of_nat i) < inject_Z (Z.of_nat j)).
      { rewrite <- Zlt_Qlt. lia. }
      lra.
    + intros m E. rewrite <- F.
      destruct (markers_from first total_miles) as [|m0 rest] eqn:L; [discriminate|].
      simpl in E. injection E as <-.
      assert (E0 : markers_from first total_miles !! 0%nat = Some m0) by (rewrite L; reflexivity).
      apply markers_from_lookup in E0 as [E0 _]. rewrite E0.
      change (inject_Z (Z.of_nat 0)) with 0. ring.
    + intros L. exists first. split; [|exact F].
      apply markers_from_head. rewrite F. exact L.
    + intros L. lra.
Qed.

(** C4. For a total distance [D > 0] the planner without a full starting
    tank returns [ceil(D / 500)] markers, and with a full starting tank it
    returns at least one marker fewer. *)
Theorem waypoint_marker_count (D : Q) :
  0 < D ->
  length (_build_waypoint_markers D false) = Z.to_nat (Qceiling (D / 500))
  /\ (length (_build_waypoint_markers D true) + 1 <= length (_build_waypoint_markers D false))%nat.
Proof.
  intros P. unfold _build_waypoint_markers.
  assert (Z : Qleb D 0 = false) by (apply Qleb_false; exact P).
  rewrite Z, !markers_from_length.
  assert (E0 : (D - 0) / MAX_RANGE_MILES == D / 500).
  { unfold MAX_RANGE_MILES. field. }
  assert (E1 : (D - MAX_RANGE_MILES) / MAX_RANGE_MILES == D / 500 + inject_Z (-1)).
  { change (inject_Z (-1)) with (-1). unfold MAX_RANGE_MILES. field. }
  rewrite E0, E1, Qceiling_add_Z.
  assert (C : (0 < Qceiling (D / 500))%Z).
  { apply Qceiling_positive. apply Qlt_shift_div_l; [reflexivity|]. lra. }
  split; [reflexivity | lia].
Qed.

Lemma waypoint_marker_count_witness :
  0 < 1200
  /\ length (_build_waypoint_markers 1200 false) = Z.to_nat (Qceiling (1200 / 500))
  /\ (length (_build_waypoint_markers 1200 true) + 1
      <= length (_build_waypoint_markers 1200 false))%nat.
Proof. split; [reflexivity | apply (waypoint_marker_count 1200); reflexivity]. Defined.

(** ** The stop selector *)

Lemma kept_filter {A : Type} (P : A -> Prop) (b : A -> bool) (l : list A) :
  (forall x, b x = true <-> P x) -> kept P l (List.filter b l).
Proof.
  intros R. induction l as [|x l IH]; simpl.
  - constructor.
  - destruct (b x) eqn:E.
    + apply kept_take; [apply R; exact E | exact IH].
    + apply kept_drop; [|exact IH]. intros Px. apply R in Px. congruence.
Qed.

Lemma kept_functional {A : Type} (P : A -> Prop) (l k1 k2 : list A) :
  kept P l k1 -> kept P l k2 -> k1 = k2.
Proof.
  intros K1. revert k2. induction K1; intros k2 K2; inversion K2; subst;
    try reflexivity; try contradiction.
  - f_equal. apply IHK1. assumption.
  - apply IHK1. assumption.
Qed.

Lemma kept_sublist {A : Type} (P : A -> Prop) (l k : list A) (x : A) :
  kept P l k -> In x k -> In x l /\ P x.
Proof.
  induction 1; simpl; intros I.
  - contradiction.
  - destruct I as [<- | I]; [tauto|]. destruct (IHkept I). tauto.
  - destruct (IHkept I). tauto.
Qed.

Lemma first_minimizer_in {A : Type} (score : A -> Q) (pool : list A) (s : A) :
  first_minimizer score pool s -> In s pool.
Proof.
  intros (before & after & -> & _). apply in_or_app. right. left. reflexivity.
Qed.

Lemma first_minimizer_unique {A : Type} (score : A -> Q) (pool : list A) (s t : A) :
  first_minimizer score pool s -> first_minimizer score pool t -> s = t.
Proof.
  intros (b1 & a1 & -> & B1 & A1) (b2 & a2 & E & B2 & A2).
  revert b2 E B2. induction b1 as [|x b1 IH]; intros b2 E B2.
  - destruct b2 as [|y b2]; simpl in E.
    + congruence.
    + injection E as -> E. subst a1.
      apply Forall_inv in B2.
      rewrite Forall_app in A1. destruct A1 as [_ A1]. apply Forall_inv in A1. lra.
  - destruct b2 as [|y b2]; simpl in E.
    + injection E as -> E. subst a2.
      apply Forall_inv in B1.
      rewrite Forall_app in A2. destruct A2 as [_ A2]. apply Forall_inv in A2. lra.
    + injection E as -> E.
      apply (IH (Forall_inv_tail B1) b2 E (Forall_inv_tail B2)).
Qed.

Lemma min_from_spec {A : Type} (key : A -> Q) (l p1 p2 : list A) (best : A) :
  Forall (fun x => key best < key x) p1 ->
  Forall (fun x => key best <= key x) p2 ->
  first_minimizer key (p1 ++ best :: p2 ++ l) (min_from key best l).
Proof.
  revert p1 p2 best. induction l as [|x l IH]; intros p1 p2 best F1 F2; simpl.
  - exists p1, p2. rewrite app_nil_r. auto.
  - destruct (Qltb (key x) (key best)) eqn:E.
    + apply Qltb_true in E.
      replace (p1 ++ best :: p2 ++ x :: l) with ((p1 ++ best :: p2) ++ x :: [] ++ l)
        by (rewrite <- app_assoc; reflexivity).
      apply IH; [|constructor].
      apply Forall_app. split; [|constructor].
      * eapply Forall_impl; [exact F1|]. simpl. intros; lra.
      * exact E.
      * eapply Forall_impl; [exact F2|]. simpl. intros; lra.
    + apply Qltb_false in E.
      replace (p1 ++ best :: p2 ++ x :: l) with (p1 ++ best :: (p2 ++ [x]) ++ l)
        by (rewrite <- (app_assoc p2); reflexivity).
      apply IH; [exact F1|].
      apply Forall_app. split; [exact F2|]. constructor; [exact E | constructor].
Qed.

Lemma py_min_key_spec {A : Type} (key : A -> Q) (x : A) (l : list A) :
  exists s, py_min_key key (x :: l) = Ret s /\ first_minimizer key (x :: l) s.
Proof.
  exists (min_from key x l). split; [reflexivity|].
  apply (min_from_spec key l [] [] x); constructor.
Qed.

Lemma score_station_spec (marker : Q) (s : MappedStation) :
  _score_station s marker = spec_score marker s.
Proof. reflexivity. Qed.

Lemma window_candidates_kept (mapped : list MappedStation) (marker previous_marker window : Q) :
  kept (spec_in_window marker previous_marker window) mapped
       (window_candidates mapped marker previous_marker window).
Proof.
  apply kept_filter. intros s. unfold spec_in_window, spec_not_behind.
  rewrite andb_true_iff, !Qleb_true. reflexivity.
Qed.

Lemma not_behind_kept (mapped : list MappedStation) (previous_marker : Q) :
  kept (spec_not_behind previous_marker) mapped
       (List.filter (fun station => Qleb (previous_marker - 40) (route_mile station)) mapped).
Proof.
  apply kept_filter. intros s. unfold spec_not_behind. apply Qleb_true.
Qed.

(** The window loop either returns the first minimiser of the first window
    that has candidates, or finds every window empty. *)
Lemma select_in_windows_spec (mapped : list MappedStation) (marker previous_marker : Q)
    (windows : list Q) :
  (exists earlier window later s,
      windows = earlier ++ window :: later
      /\ Forall (fun w => kept (spec_in_window marker previous_marker w) mapped []) earlier
      /\ window_candidates mapped marker previous_marker window <> []
      /\ first_minimizer (spec_score marker)
           (window_candidates mapped marker previous_marker window) s
      /\ select_in_windows mapped marker previous_marker windows = Ret (Some s))
  \/ (Forall (fun w => kept (spec_in_window marker previous_marker w) mapped []) windows
      /\ select_in_windows mapped marker previous_marker windows = Ret None).
Proof.
  induction windows as [|w ws IH]; simpl.
  - right. split; [constructor | reflexivity].
  - destruct (window_candidates mapped marker previous_marker w) as [|c cs] eqn:C.
    + assert (K : kept (spec_in_window marker previous_marker w) mapped []).
      { rewrite <- C. apply window_candidates_kept. }
      destruct IH as [(earlier & window & later & s & -> & F & N & M & E) | [F E]].
      * left. exists (w :: earlier), window, later, s.
        repeat split; try assumption. constructor; assumption.
      * right. split; [constructor; assumption | exact E].
    + left. destruct (py_min_key_spec (fun station => _score_station station marker) c cs)
        as (s & E & M).
      exists [], w, ws, s. rewrite C. repeat split; try assumption.
      * constructor.
      * discriminate.
      * rewrite E. reflexivity.
Qed.

Lemma select_station_nonempty (mapped : list MappedStation) (marker previous_marker : Q) :
  mapped <> [] ->
  _select_station mapped marker previous_marker
  = (found ← select_in_windows mapped marker previous_marker WAYPOINT_WINDOWS_MILES;
     match found with
     | Some station => mret (Some station)
     | None =>
         let candidates :=
           List.filter (fun station => Qleb (previous_marker - 40) (route_mile station))
                       mapped in
         let candidates :=
           match candidates with [] => mapped | _ :: _ => candidates end in
         station ← py_min_key (fun station => _score_station station marker) candidates;
         mret (Some station)
     end).
Proof. destruct mapped; [congruence | reflexivity]. Qed.

(** What [_select_station] computes, in terms of the specification's
    procedure; it never raises. *)
Lemma select_station_spec (mapped : list MappedStation) (marker previous_marker : Q) :
  exists result,
    _select_station mapped marker previous_marker = Ret result
    /\ spec_selection mapped marker previous_marker result.
Proof.
  destruct (decide (mapped = [])) as [-> | N].
  - exists None. split; reflexivity.
  - rewrite select_station_nonempty by exact N.
    destruct (select_in_windows_spec mapped marker previous_marker WAYPOINT_WINDOWS_MILES)
      as [(earlier & window & later & s & W & F & N' & M & E) | [F E]].
    + exists (Some s). rewrite E. split; [reflexivity|]. simpl. split; [exact N|].
      exists (window_candidates mapped marker previous_marker window). split; [|exact M].
      eapply pool_window; eauto using window_candidates_kept.
    + rewrite E. simpl.
      pose proof (not_behind_kept mapped previous_marker) as K.
      destruct (List.filter _ mapped) as [|c cs] eqn:C.
      * destruct mapped as [|m ms] eqn:Em; [congruence|]. rewrite <- Em in *.
        destruct (py_min_key_spec (fun station => _score_station station marker) m ms)
          as (s & E' & M).
        rewrite <- Em in E', M.
        exists (Some s). rewrite E'.
        split; [reflexivity|]. simpl. split; [exact N|].
        exists mapped. split; [|exact M]. apply pool_everything; assumption.
      * destruct (py_min_key_spec (fun station => _score_station station marker) c cs)
          as (s & E' & M).
        exists (Some s). rewrite E'. split; [reflexivity|]. simpl. split; [exact N|].
        exists (c :: cs). split; [|exact M]. apply pool_not_behind; [assumption..|discriminate].
Qed.

Lemma spec_pool_unique (mapped : list MappedStation) (marker previous_marker : Q)
    (p1 p2 : list MappedStation) :
  spec_pool mapped marker previous_marker p1 ->
  spec_pool mapped marker previous_marker p2 -> p1 = p2.
Proof.
  assert (first_window : forall e1 w1 l1 e2 w2 l2 q1 q2,
    e1 ++ w1 :: l1 = e2 ++ w2 :: l2 ->
    Forall (fun w => kept (spec_in_window marker previous_marker w) mapped []) e1 ->
    Forall (fun w => kept (spec_in_window marker previous_marker w) mapped []) e2 ->
    kept (spec_in_window marker previous_marker w1) mapped q1 -> q1 <> [] ->
    kept (spec_in_window marker previous_marker w2) mapped q2 -> q2 <> [] ->
    q1 = q2).
  { induction e1 as [|x e1 IH]; intros w1 l1 e2 w2 l2 q1 q2 E F1 F2 K1 N1 K2 N2.
    - destruct e2 as [|y e2]; simpl in E.
      + injection E as -> _. eapply kept_functional; eassumption.
      + injection E as -> _. apply Forall_inv in F2.
        destruct N1. eapply kept_functional; eassumption.
    - destruct e2 as [|y e2]; simpl in E.
      + injection E as -> _. apply Forall_inv in F1.
        destruct N2. eapply kept_functional; eassumption.
      + injection E as -> E.
        eapply (IH _ _ _ _ _ _ _ E); eauto using Forall_inv_tail. }
  assert (window_vs_all : forall e w l q,
    spec_windows = e ++ w :: l ->
    kept (spec_in_window marker previous_marker w) mapped q -> q <> [] ->
    Forall (fun w => kept (spec_in_window marker previous_marker w) mapped []) spec_windows ->
    False).
  { intros e w l q E K N F. rewrite E in F. apply Forall_app in F as [_ F].
    apply Forall_inv in F. apply N. eapply kept_functional; eassumption. }
  intros P1 P2.
  destruct P1 as [e1 w1 l1 q1 E1 F1 K1 N1 | q1 F1 K1 N1 | F1 K1];
    destruct P2 as [e2 w2 l2 q2 E2 F2 K2 N2 | q2 F2 K2 N2 | F2 K2].
  - apply (first_window e1 w1 l1 e2 w2 l2 q1 q2); try assumption. congruence.
  - exfalso. exact (window_vs_all e1 w1 l1 q1 E1 K1 N1 F2).
  - exfalso. exact (window_vs_all e1 w1 l1 q1 E1 K1 N1 F2).
  - exfalso. exact (window_vs_all e2 w2 l2 q2 E2 K2 N2 F1).
  - eapply kept_functional; eassumption.
  - destruct N1. eapply kept_functional; eassumption.
  - exfalso. exact (window_vs_all e2 w2 l2 q2 E2 K2 N2 F1).
  - destruct N2. eapply kept_functional; eassumption.
  - reflexivity.
Qed.

Lemma spec_selection_unique (mapped : list MappedStation) (marker previous_marker : Q)
    (r1 r2 : option MappedStation) :
  spec_selection mapped marker previous_marker r1 ->
  spec_selection mapped marker previous_marker r2 -> r1 = r2.
Proof.
  destruct r1 as [s1|], r2 as [s2|]; simpl; try tauto.
  intros (_ & p1 & P1 & M1) (_ & p2 & P2 & M2).
  assert (p1 = p2) as -> by (eapply spec_pool_unique; eassumption).
  f_equal. eapply first_minimizer_unique; eassumption.
Qed.

(** C2. [_select_station] returns exactly what the procedure of the
    specification selects: the first score-minimiser among the candidates of
    the first of the windows 60, 120, 200, 320 that has any, else among the
    stations not more than 40 miles behind the previous marker, else among all
    mapped stations; it returns no station only when the mapped list is
    empty. *)
Theorem select_station_follows_procedure
    (mapped : list MappedStation) (marker previous_marker : Q) :
  (exists result,
      _select_station mapped marker previous_marker = Ret result
      /\ spec_selection mapped marker previous_marker result)
  /\ (forall result,
        spec_selection mapped marker previous_marker result ->
        _select_station mapped marker previous_marker = Ret result)
  /\ (_select_station mapped marker previous_marker = Ret None <-> mapped = []).
Proof.
  destruct (select_station_spec mapped marker previous_marker) as (r & E & S).
  split; [exists r; auto|]. split.
  - intros r' S'. rewrite E. f_equal. eapply spec_selection_unique; eassumption.
  - rewrite E. split.
    + intros [= ->]. exact S.
    + intros ->. f_equal. destruct r as [s|]; [|reflexivity].
      simpl in S. destruct S as [N _]. congruence.
Qed.

(** ** The corridor indexer *)

Section Corridor.
Context {math : MathLib} {py : PyLib} {services : Collaborators}.

(** The running minimum of the inner loop: the result is below the initial
    best and below the distance to every index visited, and it is either the
    initial pair or the distance to one of the indexes visited. *)
Lemma nearest_sample_inv (station : Station) (route_points : list (Q * Q))
    (sampled_indexes : list nat) (best_distance : option Q) (best_index : nat)
    (d : option Q) (i : nat) :
  nearest_sample station route_points sampled_indexes best_distance best_index = Ret (d, i) ->
  (forall j point, In j sampled_indexes -> route_points !! j = Some point ->
     exists r, d = Some r /\ r <= station_distance station point)
  /\ (forall b, best_distance = Some b -> exists r, d = Some r /\ r <= b)
  /\ ((d, i) = (best_distance, best_index)
      \/ (In i sampled_indexes
          /\ exists point, route_points !! i = Some point
                           /\ d = Some (station_distance station point))).
Proof.
  revert best_distance best_index.
  induction sampled_indexes as [|idx rest IH]; intros best_distance best_index E; simpl in E.
  - injection E as <- <-. split; [intros j point []|]. split; [|left; reflexivity].
    intros b ->. exists b. split; [reflexivity | lra].
  - destruct (route_points !! idx) as [[route_lat route_lon]|] eqn:L; [|discriminate].
    change (_haversine_miles (latitude station) (longitude station) route_lat route_lon)
      with (station_distance station (route_lat, route_lon)) in E.
    set (distance := station_distance station (route_lat, route_lon)) in *.
    destruct (below_best distance best_distance) eqn:B.
    + destruct (IH _ _ E) as (V & U & W).
      destruct (U distance eq_refl) as (r & -> & Rd).
      split; [|split].
      * intros j point [<- | I] Lj.
        -- rewrite L in Lj. injection Lj as <-. exists r. split; [reflexivity | exact Rd].
        -- apply (V j point I Lj).
      * intros b ->. simpl in B. apply Qltb_true in B. exists r. split; [reflexivity | lra].
      * right. destruct W as [W | (I & point & Lp & Dp)].
        -- injection W as -> ->. split; [left; reflexivity|].
           exists (route_lat, route_lon). split; [exact L | reflexivity].
        -- split; [right; exact I|]. exists point. split; assumption.
    + destruct best_distance as [b|]; [|discriminate]. simpl in B. apply Qltb_false in B.
      destruct (IH _ _ E) as (V & U & W).
      destruct (U b eq_refl) as (r & -> & Rb).
      split; [|split].
      * intros j point [<- | I] Lj.
        -- rewrite L in Lj. injection Lj as <-. exists r. split; [reflexivity|].
           fold distance. lra.
        -- apply (V j point I Lj).
      * intros b' [= <-]. exists r. split; [reflexivity | exact Rb].
      * destruct W as [W | (I & point & Lp & Dp)]; [left; exact W|].
        right. split; [right; exact I|]. exists point. split; assumption.
Qed.

(** Every station the outer loop keeps is one of the candidates, lies within
    the corridor radius of its nearest sampled route point, and carries that
    point's cumulative mileage. *)
Lemma map_candidates_spec (route_points : list (Q * Q)) (cumulative : list Q)
    (sampled_indexes : list nat) (candidates : list Station) (mapped : list MappedStation) :
  map_candidates route_points cumulative sampled_indexes candidates = Ret mapped ->
  Forall
    (fun m =>
       In (station_of m) candidates
       /\ detour_miles m <= CORRIDOR_RADIUS_MILES
       /\ exists i,
            nearest_sampled (station_of m) route_points sampled_indexes i (detour_miles m)
            /\ cumulative !! i = Some (route_mile m))
    mapped.
Proof.
  revert mapped. induction candidates as [|station rest IH]; intros mapped E; simpl in E.
  - injection E as <-. constructor.
  - destruct (nearest_sample station route_points sampled_indexes None 0%nat)
      as [[d i]|e] eqn:N; simpl in E; [|discriminate].
    assert (T : forall l, Forall
      (fun m => In (station_of m) rest /\ detour_miles m <= CORRIDOR_RADIUS_MILES
                /\ exists i, nearest_sampled (station_of m) route_points sampled_indexes i
                               (detour_miles m)
                             /\ cumulative !! i = Some (route_mile m)) l ->
      Forall
      (fun m => In (station_of m) (station :: rest) /\ detour_miles m <= CORRIDOR_RADIUS_MILES
                /\ exists i, nearest_sampled (station_of m) route_points sampled_indexes i
                               (detour_miles m)
                             /\ cumulative !! i = Some (route_mile m)) l).
    { intros l F. eapply Forall_impl; [exact F|]. simpl. intros m (I & R). split; [right|]; tauto. }
    destruct (best_within d CORRIDOR_RADIUS_MILES) eqn:W; [|apply T, IH, E].
    destruct d as [r|]; [|discriminate]. simpl in W. apply Qleb_true in W.
    destruct (cumulative !! i) as [mile|] eqn:C; [|discriminate].
    destruct (map_candidates route_points cumulative sampled_indexes rest) as [tail|] eqn:R;
      simpl in E; [|discriminate].
    injection E as <-. constructor; [|apply T, IH; reflexivity].
    simpl. split; [left; reflexivity|]. split; [exact W|].
    exists i. split; [|exact C].
    destruct (nearest_sample_inv _ _ _ _ _ _ _ N) as (V & _ & [X | (I & point & Lp & Dp)]);
      [discriminate|].
    injection Dp as ->. split; [exact I|]. split.
    + exists point. split; [exact Lp | reflexivity].
    + intros j p' Ij Lj. destruct (V j p' Ij Lj) as (r' & [= <-] & Le). exact Le.
Qed.

(** What [_map_stations_to_route] returns. *)
Lemma map_stations_to_route_spec (route_points : list (Q * Q)) (cumulative : list Q)
    (w w' : World) (mapped : list MappedStation) :
  _map_stations_to_route route_points cumulative w = (Ret mapped, w') ->
  mapped = []
  \/ exists sampled_indexes,
       sampled_indexes_of (length route_points) = Ret sampled_indexes
       /\ Forall
            (fun m =>
               detour_miles m <= CORRIDOR_RADIUS_MILES
               /\ exists i,
                    nearest_sampled (station_of m) route_points sampled_indexes i
                                    (detour_miles m)
                    /\ cumulative !! i = Some (route_mile m))
            mapped.
Proof.
  unfold _map_stations_to_route. destruct route_points as [|p0 ps] eqn:Er.
  - intros [= <- _]. left. reflexivity.
  - rewrite <- Er. unfold mbind, M_bind, liftM.
    destruct (_route_bbox route_points _) as [[[[lat_min lat_max] lon_min] lon_max]|];
      [|discriminate].
    unfold _load_station_rows, emit, mbind, M_bind, mret, M_ret. cbn beta iota.
    match goal with
    | |- context [List.filter ?f ?l] => destruct (List.filter f l) as [|c cs]
    end; [intros [= <- _]; left; reflexivity|].
    destruct (sampled_indexes_of (length route_points)) as [sampled|]; [|discriminate].
    destruct (map_candidates route_points cumulative sampled (c :: cs)) as [l|] eqn:E;
      [|discriminate].
    intros [= <- _]. right. exists sampled. split; [reflexivity|].
    eapply Forall_impl; [exact (map_candidates_spec _ _ _ _ _ E)|].
    simpl. tauto.
Qed.

End Corridor.

(** C1. A station returned by the stop selector from the stations mapped to
    a route is one of the mapped stations, and its [detour_miles], which is the
    smallest distance from the station to a sampled route point, is at most 25
    miles. *)
Theorem selected_station_within_corridor
    {math : MathLib} {py : PyLib} {services : Collaborators}
    (route_points : list (Q * Q)) (cumulative : list Q) (w w' : World)
    (mapped : list MappedStation) (marker previous_marker : Q) (s : MappedStation) :
  _map_stations_to_route route_points cumulative w = (Ret mapped, w') ->
  _select_station mapped marker previous_marker = Ret (Some s) ->
  In s mapped
  /\ detour_miles s <= 25
  /\ exists sampled_indexes i,
       sampled_indexes_of (length route_points) = Ret sampled_indexes
       /\ nearest_sampled (station_of s) route_points sampled_indexes i (detour_miles s).
Proof.
  intros Hmap Hsel.
  assert (I : In s mapped).
  { destruct (select_station_spec mapped marker previous_marker) as (r & E & S).
    rewrite Hsel in E. injection E as <-. simpl in S.
    destruct S as (_ & pool & P & M). apply first_minimizer_in in M.
    destruct P as [e wd l pool _ _ K _ | pool _ K _ | _ _]; try assumption;
      apply (kept_sublist _ _ _ _ K M). }
  split; [exact I|].
  destruct (map_stations_to_route_spec _ _ _ _ _ Hmap) as [-> | (sampled & Es & F)];
    [destruct I|].
  rewrite Forall_forall in F. apply list_elem_of_In in I.
  destruct (F s I) as (D & i & N & _).
  split; [exact D|]. exists sampled, i. split; assumption.
Qed.

Lemma selected_station_within_corridor_witness :
  let s :=
    mkMapped (mkStation "Roadside Fuel" "Shamrock" "TX" 3.00 35.0 (-100.0)) 0 (0 # 10000) in
  In s [s]
  /\ detour_miles s <= 25
  /\ exists sampled_indexes i,
       sampled_indexes_of (length Fixture.hop_route) = Ret sampled_indexes
       /\ nearest_sampled (math := Fixture.math) (station_of s) Fixture.hop_route
            sampled_indexes i (detour_miles s).
Proof.
  apply (selected_station_within_corridor
           (math := Fixture.math) (py := Fixture.python)
           (services := Fixture.short_hop_services)
           Fixture.hop_route (_build_cumulative_miles (math := Fixture.math) Fixture.hop_route)
           Fixture.empty_world (mkWorld ∅ [EvStationTable]) _ 0 (- (500)));
    vm_compute; reflexivity.
Defined.

(** ** Coordinate parsing *)

Lemma split_on_without_separator (sep : ascii) (s : string) :
  contains_char sep s = false -> split_on sep s = [s].
Proof.
  induction s as [|c s IH]; simpl; [reflexivity|].
  destruct (Ascii.eqb c sep); [discriminate|].
  intros E. rewrite (IH E). reflexivity.
Qed.

Section Parsing.
Context {py : PyLib}.

(** What the text branch of [_parse_coords] returns for two numeric parts. *)
Lemma parse_coords_two_parts (s p0 p1 : string) (rest : list string) (a b : Q) :
  json_loads (strip s) = None ->
  map strip (split_on comma (strip s)) = p0 :: p1 :: rest ->
  float_of_str p0 = Some a ->
  float_of_str p1 = Some b ->
  _parse_coords (PStr s)
  = Ret (Some (if Qltb 90 (Qabs a) && Qleb (Qabs b) 90 then (a, b)
               else if Qltb 90 (Qabs b) && Qleb (Qabs a) 90 then (b, a)
               else (a, b))).
Proof.
  intros J P F0 F1. unfold _parse_coords. simpl.
  assert (C : contains_char comma (strip s) = true).
  { destruct (contains_char comma (strip s)) eqn:C; [reflexivity|].
    rewrite (split_on_without_separator _ _ C) in P. discriminate. }
  assert (N : is_empty_string (strip s) = false).
  { destruct (strip s); [discriminate | reflexivity]. }
  rewrite N, J. simpl. rewrite C, P, F0, F1.
  destruct (Qltb 90 (Qabs a) && Qleb (Qabs b) 90); [reflexivity|].
  destruct (Qltb 90 (Qabs b) && Qleb (Qabs a) 90); reflexivity.
Qed.

End Parsing.

(** C7. For a text ["a,b"] that is not a JSON document and whose first two
    comma-separated parts read as the numbers [a] and [b], [_parse_coords]
    returns [[b, a]] when [|b| > 90] and [|a| <= 90], and [[a, b]] in every
    other case; so when exactly one of [|a|], [|b|] exceeds 90 the returned
    pair [[lon, lat]] has the component above 90 as its longitude. *)
Theorem parse_coords_swap_rule {py : PyLib}
    (s p0 p1 : string) (rest : list string) (a b : Q) :
  json_loads (strip s) = None ->
  map strip (split_on comma (strip s)) = p0 :: p1 :: rest ->
  float_of_str p0 = Some a ->
  float_of_str p1 = Some b ->
  (90 < Qabs b /\ Qabs a <= 90 -> _parse_coords (PStr s) = Ret (Some (b, a)))
  /\ (~ (90 < Qabs b /\ Qabs a <= 90) -> _parse_coords (PStr s) = Ret (Some (a, b)))
  /\ ((90 < Qabs a /\ Qabs b <= 90) \/ (90 < Qabs b /\ Qabs a <= 90) ->
      exists lon lat,
        _parse_coords (PStr s) = Ret (Some (lon, lat)) /\ 90 < Qabs lon /\ Qabs lat <= 90).
Proof.
  intros J P F0 F1. rewrite (parse_coords_two_parts s p0 p1 rest a b J P F0 F1).
  destruct (Qltb 90 (Qabs a)) eqn:A1; destruct (Qleb (Qabs b) 90) eqn:B1;
    destruct (Qltb 90 (Qabs b)) eqn:B2; destruct (Qleb (Qabs a) 90) eqn:A2; simpl;
    rewrite ?Qltb_true, ?Qltb_false, ?Qleb_true, ?Qleb_false in *;
    (split; [intros [? ?]; first [reflexivity | lra]
            |split; [intros ?; first [reflexivity | exfalso; tauto | lra]
                    |intros [[? ?]|[? ?]]; try lra;
                     first [exists a, b; split; [reflexivity | split; assumption]
                           |exists b, a; split; [reflexivity | split; assumption]]]]).
Qed.

Lemma parse_coords_swap_rule_witness :
  (90 < Qabs (-120) /\ Qabs 35 <= 90 ->
   _parse_coords (py := Fixture.python) (PStr "35,-120") = Ret (Some (-120, 35)))
  /\ (~ (90 < Qabs (-120) /\ Qabs 35 <= 90) ->
      _parse_coords (py := Fixture.python) (PStr "35,-120") = Ret (Some (35, -120)))
  /\ ((90 < Qabs 35 /\ Qabs (-120) <= 90) \/ (90 < Qabs (-120) /\ Qabs 35 <= 90) ->
      exists lon lat,
        _parse_coords (py := Fixture.python) (PStr "35,-120") = Ret (Some (lon, lat))
        /\ 90 < Qabs lon /\ Qabs lat <= 90).
Proof.
  apply (parse_coords_swap_rule (py := Fixture.python) "35,-120" "35" "-120" [] 35 (-120));
    reflexivity.
Defined.

(** ** Exceptions of the planner *)

Section Exceptions.
Context {math : MathLib} {py : PyLib} {services : Collaborators}.

Lemma parse_coords_at_raises (depth : nat) (value : pyval) (e : exn) :
  parse_coords_at depth value = Raise e -> e = RecursionError.
Proof.
  revert value. induction depth as [|depth IH]; intros value; simpl.
  - congruence.
  - destruct value as [| | | |s|l|]; try discriminate.
    + destruct (is_empty_string (strip s)); [discriminate|].
      destruct (default PNone (json_loads (strip s))) eqn:P; try apply IH.
      destruct (contains_char comma (strip s)); [|discriminate].
      destruct (map strip (split_on comma (strip s))) as [|p0 [|p1 ps]]; try discriminate.
      destruct (float_of_str p0), (float_of_str p1); try discriminate.
      repeat match goal with |- context [if ?c then _ else _] => destruct c end;
        discriminate.
    + destruct l as [|v0 [|v1 vs]]; try discriminate.
      destruct (py_float v0), (py_float v1); discriminate.
Qed.

Lemma resolve_location_raises (raw : pyval) (w w' : World) (e : exn) :
  _resolve_location raw w = (Raise e, w') -> e = RecursionError.
Proof.
  unfold _resolve_location, mbind, M_bind, liftM.
  destruct (_parse_coords raw) as [[c|]|e'] eqn:P.
  - discriminate.
  - destruct raw; try discriminate.
    destruct (is_empty_string (strip s)); discriminate.
  - intros [= <- _]. exact (parse_coords_at_raises _ _ _ P).
Qed.

Lemma nearest_sample_raises (station : Station) (route_points : list (Q * Q))
    (sampled_indexes : list nat) (best_distance : option Q) (best_index : nat) (e : exn) :
  nearest_sample station route_points sampled_indexes best_distance best_index = Raise e ->
  e = IndexError.
Proof.
  revert best_distance best_index.
  induction sampled_indexes as [|idx rest IH]; intros bd bi; simpl; [discriminate|].
  destruct (route_points !! idx) as [[lat lon]|]; [|congruence].
  destruct (below_best _ bd); apply IH.
Qed.

Lemma map_candidates_raises (route_points : list (Q * Q)) (cumulative : list Q)
    (sampled_indexes : list nat) (candidates : list Station) (e : exn) :
  map_candidates route_points cumulative sampled_indexes candidates = Raise e ->
  e = IndexError.
Proof.
  induction candidates as [|station rest IH]; simpl; [discriminate|].
  destruct (nearest_sample station route_points sampled_indexes None 0%nat)
    as [[d i]|e'] eqn:N; simpl.
  - destruct (best_within d CORRIDOR_RADIUS_MILES); [|exact IH].
    destruct (cumulative !! i), d; try congruence.
    destruct (map_candidates route_points cumulative sampled_indexes rest); simpl;
      [discriminate|]. intros [= <-]. apply IH. reflexivity.
  - intros [= <-]. exact (nearest_sample_raises _ _ _ _ _ _ N).
Qed.

Lemma map_stations_to_route_raises (route_points : list (Q * Q)) (cumulative : list Q)
    (w w' : World) (e : exn) :
  _map_stations_to_route route_points cumulative w = (Raise e, w') ->
  e = ValueError \/ e = IndexError.
Proof.
  unfold _map_stations_to_route. destruct route_points as [|p0 ps] eqn:Er; [discriminate|].
  rewrite <- Er. unfold mbind, M_bind, liftM.
  destruct (_route_bbox route_points _) as [[[[lat_min lat_max] lon_min] lon_max]|e'] eqn:B.
  - unfold _load_station_rows, emit, mbind, M_bind, mret, M_ret. cbn beta iota.
    match goal with
    | |- context [List.filter ?f ?l] => destruct (List.filter f l) as [|c cs]
    end; [discriminate|].
    destruct (sampled_indexes_of (length route_points)) as [sampled|e'] eqn:S.
    + destruct (map_candidates route_points cumulative sampled (c :: cs)) as [l|e'] eqn:E;
        [discriminate|].
      intros [= <- _]. right. exact (map_candidates_raises _ _ _ _ _ E).
    + intros [= <- _]. right. unfold sampled_indexes_of in S.
      destruct (last _); [|congruence]. destruct (negb _); discriminate.
  - intros [= <- _]. left. unfold _route_bbox, mbind, Result_bind in B.
    repeat match type of B with
           | context [py_min_list ?l] => destruct l; simpl in B; try congruence
           | context [py_max_list ?l] => destruct l; simpl in B; try congruence
           end.
    discriminate B.
Qed.

Lemma stops_loop_total (mapped : list MappedStation) (total_distance_miles : Q)
    (order : Z) (waypoints : list Q) (st : LoopState) :
  exists st', stops_loop mapped total_distance_miles order waypoints st = Ret st'.
Proof.
  revert order st. induction waypoints as [|marker rest IH]; intros order st; simpl.
  - exists st. reflexivity.
  - destruct (Qleb _ 0); [apply IH|].
    destruct (select_station_spec mapped marker (previous_marker st)) as ([s|] & E & _);
      rewrite E; simpl; apply IH.
Qed.

(** The only [TripPlanningError]s are the three the planner raises itself:
    two with status 400, one with status 502. *)
Lemma build_trip_plan_error_status (start_raw finish_raw : pyval) (start_with_full_tank : bool)
    (w w' : World) (message : string) (code : Z) :
  _build_trip_plan start_raw finish_raw start_with_full_tank w
  = (Raise (TripPlanningError message code), w') ->
  code = 400%Z \/ code = 502%Z.
Proof.
  unfold _build_trip_plan. unfold mbind at 1, M_bind at 1.
  destruct (_resolve_location start_raw w) as [[sc|e] w1] eqn:R1;
    [|intros [= -> _]; apply resolve_location_raises in R1; discriminate].
  unfold mbind at 1, M_bind at 1.
  destruct (_resolve_location finish_raw w1) as [[fc|e] w2] eqn:R2;
    [|intros [= -> _]; apply resolve_location_raises in R2; discriminate].
  destruct sc as [sc|], fc as [fc|]; try (intros [= _ <- _]; left; reflexivity).
  destruct (negb _ || negb _); [intros [= _ <- _]; left; reflexivity|].
  unfold mbind at 1, M_bind at 1, emit.
  destruct (get_route sc fc) as [[[dm|] poly] decoded];
    [|intros [= _ <- _]; right; reflexivity].
  unfold mbind at 1, M_bind at 1.
  destruct (_map_stations_to_route _ _ _) as [[mapped|e] w3] eqn:Mp.
  - unfold mbind, M_bind, liftM, mret, M_ret.
    match goal with
    | |- context [stops_loop ?m ?t ?o ?ws ?st] =>
        destruct (stops_loop_total m t o ws st) as (st' & ->)
    end. discriminate.
  - intros [= -> _]. apply map_stations_to_route_raises in Mp. destruct Mp; discriminate.
Qed.

End Exceptions.

(** ** The [/route/] handler *)

Lemma is_none_true (v : pyval) : is_none v = true <-> v = PNone.
Proof. destruct v; simpl; split; congruence. Qed.

Lemma assemble_plan_polyline {py : PyLib}
    (start_raw finish_raw : pyval) (start_with_full_tank : bool)
    (start_coords finish_coords : Q * Q) (encoded_polyline : option string)
    (total_distance_miles : Q) (st : LoopState) :
  assemble_plan start_raw finish_raw start_with_full_tank start_coords finish_coords
    encoded_polyline total_distance_miles st !! "route_polyline"
  = Some (option_str encoded_polyline).
Proof.
  unfold assemble_plan. destruct (missing_station_markers st); [reflexivity|].
  rewrite lookup_insert_ne by discriminate. reflexivity.
Qed.

Section WorldFacts.
Context {math : MathLib} {py : PyLib} {services : Collaborators}.

Lemma resolve_location_cache (raw : pyval) (w w' : World) (r : Result (option (Q * Q))) :
  _resolve_location raw w = (r, w') -> cache w' = cache w.
Proof.
  unfold _resolve_location, mbind, M_bind, liftM, mret, M_ret, emit.
  repeat match goal with
         | |- context [match ?x with _ => _ end] => destruct x
         end; intros [= _ <-]; reflexivity.
Qed.

Lemma map_stations_to_route_cache (route_points : list (Q * Q)) (cumulative : list Q)
    (w w' : World) (r : Result (list MappedStation)) :
  _map_stations_to_route route_points cumulative w = (r, w') -> cache w' = cache w.
Proof.
  unfold _map_stations_to_route, _load_station_rows, mbind, M_bind, liftM, mret, M_ret, emit.
  repeat match goal with
         | |- context [match ?x with _ => _ end] => destruct x
         end; intros [= _ <-]; reflexivity.
Qed.

(** Planning reads and writes no cache entry. *)
Lemma build_trip_plan_cache (start_raw finish_raw : pyval) (start_with_full_tank : bool)
    (w w' : World) (r : Result (gmap string pyval)) :
  _build_trip_plan start_raw finish_raw start_with_full_tank w = (r, w') ->
  cache w' = cache w.
Proof.
  unfold _build_trip_plan. unfold mbind at 1, M_bind at 1.
  destruct (_resolve_location start_raw w) as [r1 w1] eqn:R1.
  apply resolve_location_cache in R1.
  destruct r1 as [sc|]; [|intros [= _ <-]; exact R1].
  unfold mbind at 1, M_bind at 1.
  destruct (_resolve_location finish_raw w1) as [r2 w2] eqn:R2.
  apply resolve_location_cache in R2.
  destruct r2 as [fc|]; [|intros [= _ <-]; congruence].
  destruct sc as [sc|], fc as [fc|]; try (intros [= _ <-]; congruence).
  destruct (negb _ || negb _); [intros [= _ <-]; congruence|].
  unfold mbind at 1, M_bind at 1, emit.
  destruct (get_route sc fc) as [[[dm|] poly] decoded]; [|intros [= _ <-]; simpl; congruence].
  unfold mbind at 1, M_bind at 1.
  destruct (_map_stations_to_route _ _ _) as [r3 w3] eqn:Mp.
  apply map_stations_to_route_cache in Mp. simpl in Mp.
  destruct r3 as [mapped|]; [|intros [= _ <-]; congruence].
  unfold mbind, M_bind, liftM, mret, M_ret.
  destruct (stops_loop _ _ _ _ _); intros [= _ <-]; congruence.
Qed.

End WorldFacts.



(** C8, as stated, fails: after a successful request the value stored in
    the cache under the trip key still holds the raw encoded path. *)
Lemma cached_plan_keeps_polyline :
  match route_distance (math := Fixture.math) (py := Fixture.python)
          (services := Fixture.no_station_services)
          (Fixture.get_request [("start", "-100,35"); ("finish", "-99,35")]%string)
          Fixture.empty_world with
  | (Ret response, w') =>
      status response = 200%Z
      /\ payload response !! "route_polyline" = None
      /\ match cache w' !! "trip:v2:-100,35:-99,35:0" with
         | Some stored => stored !! "route_polyline" = Some (PStr "encoded-polyline")
         | None => False
         end
  | (Raise _, _) => False
  end.
Proof. vm_compute. repeat split. Qed.

(** C8, amended. No payload returned by [route_distance] has the key
    ["route_polyline"].  When the answer has status 200: on a cache hit the
    payload is the cached value without that key and the cache is untouched;
    on a cache miss the freshly built plan is stored under the trip key with
    its ["route_polyline"] entry, and the payload is that plan without it. *)
Theorem route_polyline_public_not_stored
    {math : MathLib} {py : PyLib} {services : Collaborators}
    (request : HttpRequest) (w w' : World) (response : HttpResponse) :
  route_distance request w = (Ret response, w') ->
  let '(start, finish, start_with_full_tank) := _extract_inputs request in
  let cache_key := _trip_cache_key start finish start_with_full_tank in
  payload response !! "route_polyline" = None
  /\ (status response = 200%Z ->
      match cache w !! cache_key with
      | Some cached =>
          payload response = delete "route_polyline" cached /\ cache w' = cache w
      | None =>
          exists plan polyline,
            cache w' = <[cache_key := plan]> (cache w)
            /\ plan !! "route_polyline" = Some polyline
            /\ payload response = delete "route_polyline" plan
      end).
Proof.
  unfold route_distance.
  destruct (_extract_inputs request) as [[start finish] full]. cbv beta iota zeta.
  destruct (is_none start || is_none finish).
  - intros [= <- <-]. split; [reflexivity | discriminate].
  - unfold mbind at 1, M_bind at 1, cache_get.
    destruct (cache w !! _trip_cache_key start finish full) as [cached|] eqn:C.
    + intros [= <- <-]. cbn [payload status cache].
      split; [apply lookup_delete_eq|]. intros _. auto.
    + unfold mbind at 1, M_bind at 1, try_build_trip_plan.
      destruct (_build_trip_plan start finish full _) as [[plan|e] w1] eqn:B.
      * unfold mbind, M_bind, cache_set, mret, M_ret. intros [= <- <-].
        cbn [payload status cache].
        split; [apply lookup_delete_eq|]. intros _.
        exists plan. 
        assert (P : exists polyline, plan !! "route_polyline" = Some polyline).
        { revert B. unfold _build_trip_plan, mbind, M_bind, liftM, mret, M_ret, raiseM, emit.
          repeat match goal with
                 | |- context [match ?x with _ => _ end] => destruct x eqn:?; try discriminate
                 end.
          intros [= <- _]. eexists. apply assemble_plan_polyline. }
        destruct P as (polyline & P). exists polyline.
        apply build_trip_plan_cache in B. cbn [cache] in B. rewrite B. auto.
      * destruct e as [message code| | |]; try discriminate.
        intros [= <- <-]. cbn [payload status cache]. split; [reflexivity|]. intros S.
        apply build_trip_plan_error_status in B. lia.
Qed.

Lemma route_polyline_public_not_stored_witness :
  let request := Fixture.get_request [("start", "-100,35"); ("finish", "-99,35")]%string in
  exists response w',
    route_distance (math := Fixture.math) (py := Fixture.python)
      (services := Fixture.no_station_services) request Fixture.empty_world
    = (Ret response, w')
    /\ payload response !! "route_polyline" = None
    /\ (status response = 200%Z ->
        match cache Fixture.empty_world !! "trip:v2:-100,35:-99,35:0" with
        | Some cached =>
            payload response = delete "route_polyline" cached
            /\ cache w' = cache Fixture.empty_world
        | None =>
            exists plan polyline,
              cache w' = <["trip:v2:-100,35:-99,35:0"%string := plan]> (cache Fixture.empty_world)
              /\ plan !! "route_polyline" = Some polyline
              /\ payload response = delete "route_polyline" plan
        end).
Proof.
  intros request.
  pose (run := route_distance (math := Fixture.math) (py := Fixture.python)
                 (services := Fixture.no_station_services) request Fixture.empty_world).
  assert (E : run = (Ret (Fixture.value_of (JsonResponse ∅ 0) run), Fixture.world_of run))
    by (vm_compute; reflexivity).
  exists (Fixture.value_of (JsonResponse ∅ 0) run), (Fixture.world_of run).
  split; [exact E|].
  exact (route_polyline_public_not_stored (math := Fixture.math) (py := Fixture.python)
           (services := Fixture.no_station_services)
           request Fixture.empty_world _ _ E).
Defined.

(** ** Rounding *)

Lemma Qfloor_nonneg (x : Q) : 0 <= x -> (0 <= Qfloor x)%Z.
Proof.
  intros P. rewrite <- (Qfloor_Z 0). apply Qfloor_resp_le. exact P.
Qed.

Lemma round_half_even_nonneg (x : Q) : 0 <= x -> (0 <= round_half_even x)%Z.
Proof.
  intros P. pose proof (Qfloor_nonneg x P). unfold round_half_even.
  repeat match goal with |- context [if ?c then _ else _] => destruct c end; lia.
Qed.

Lemma round_half_even_above_half (x : Q) : 1 # 2 < x -> (1 <= round_half_even x)%Z.
Proof.
  intros P. assert (F : (0 <= Qfloor x)%Z) by (apply Qfloor_nonneg; lra).
  assert (Z0 : Qfloor x = 0%Z -> 1 # 2 < x - inject_Z (Qfloor x)).
  { intros ->. change (inject_Z 0) with 0. lra. }
  unfold round_half_even.
  destruct (Qltb (x - inject_Z (Qfloor x)) (1 # 2)) eqn:A.
  - apply Qltb_true in A.
    destruct (Z.eq_dec (Qfloor x) 0%Z) as [E|N]; [|lia]. specialize (Z0 E). lra.
  - destruct (Qltb (1 # 2) (x - inject_Z (Qfloor x))) eqn:B; [lia|].
    apply Qltb_false in B.
    destruct (Z.even (Qfloor x)); [|lia].
    destruct (Z.eq_dec (Qfloor x) 0%Z) as [E|N]; [|lia]. specialize (Z0 E). lra.
Qed.

Lemma round_half_even_below_half (x : Q) : 0 <= x -> x < 1 # 2 -> round_half_even x = 0%Z.
Proof.
  intros P L. assert (F : (0 <= Qfloor x)%Z) by (apply Qfloor_nonneg; exact P).
  assert (U : (Qfloor x < 1)%Z).
  { apply Zlt_of_inject. pose proof (Qfloor_le x). change (inject_Z 1) with 1. lra. }
  assert (E : Qfloor x = 0%Z) by lia.
  unfold round_half_even. rewrite E. change (inject_Z 0) with 0.
  assert (A : Qltb (x - 0) (1 # 2) = true) by (apply Qltb_true; lra).
  rewrite A. reflexivity.
Qed.

Lemma scale_positive (ndigits : nat) : 0 < inject_Z (10 ^ Z.of_nat ndigits).
Proof.
  change 0 with (inject_Z 0). rewrite <- Zlt_Qlt. apply Z.pow_pos_nonneg; lia.
Qed.

Lemma py_round_nonneg (x : Q) (ndigits : nat) : 0 <= x -> 0 <= py_round x ndigits.
Proof.
  intros P. unfold py_round. pose proof (scale_positive ndigits) as S.
  apply Qle_shift_div_l; [exact S|]. rewrite Qmult_0_l.
  change 0 with (inject_Z 0). rewrite <- Zle_Qle.
  apply round_half_even_nonneg. apply Qmult_le_0_compat; lra.
Qed.

Lemma py_round_2_positive (x : Q) : 1 # 200 < x -> 0 < py_round x 2.
Proof.
  intros P. unfold py_round. change (inject_Z (10 ^ Z.of_nat 2)) with 100.
  apply Qlt_shift_div_l; [reflexivity|]. rewrite Qmult_0_l.
  change 0 with (inject_Z 0). rewrite <- Zlt_Qlt.
  assert (1 <= round_half_even (x * 100))%Z by (apply round_half_even_above_half; lra).
  lia.
Qed.

Lemma py_round_2_zero (x : Q) : 0 <= x -> x < 1 # 200 -> py_round x 2 == 0.
Proof.
  intros P L. unfold py_round. change (inject_Z (10 ^ Z.of_nat 2)) with 100.
  rewrite round_half_even_below_half by lra. reflexivity.
Qed.

Lemma py_min2_positive (a b : Q) : 0 < a -> 0 < b -> 0 < py_min2 a b.
Proof. intros A B. unfold py_min2. destruct (Qltb b a); assumption. Qed.

(** ** The plan *)

Section Plan.
Context {math : MathLib} {py : PyLib} {services : Collaborators}.

Lemma assemble_plan_summary
    (start_raw finish_raw : pyval) (start_with_full_tank : bool)
    (start_coords finish_coords : Q * Q) (encoded_polyline : option string)
    (total_distance_miles : Q) (st : LoopState) :
  let plan :=
    assemble_plan start_raw finish_raw start_with_full_tank start_coords finish_coords
      encoded_polyline total_distance_miles st in
  plan_summary plan "total_distance_miles" = Some (PNum (py_round total_distance_miles 2))
  /\ plan_summary plan "total_fuel_cost_usd" = Some (PNum (py_round (total_cost st) 2))
  /\ plan_summary plan "number_of_fuel_stops"
     = Some (PInt (Z.of_nat
                     (length (List.filter (fun stop => has_key stop "name") (fuel_stops st)))))
  /\ plan_fuel_stops plan = Some (map PDict (fuel_stops st)).
Proof.
  unfold assemble_plan, plan_summary, plan_fuel_stops.
  destruct (missing_station_markers st).
  - repeat split.
  - rewrite !lookup_insert_ne by discriminate. repeat split.
Qed.

(** A successful run of [_build_trip_plan], step by step. *)
Lemma build_trip_plan_success (start_raw finish_raw : pyval) (start_with_full_tank : bool)
    (w w' : World) (plan : gmap string pyval) :
  _build_trip_plan start_raw finish_raw start_with_full_tank w = (Ret plan, w') ->
  exists start_coords finish_coords w1 w2 distance_meters encoded_polyline decoded_route
         mapped_stations st,
    _resolve_location start_raw w = (Ret (Some start_coords), w1)
    /\ _resolve_location finish_raw w1 = (Ret (Some finish_coords), w2)
    /\ get_route start_coords finish_coords
       = (Some distance_meters, encoded_polyline, decoded_route)
    /\ let route_points := _to_route_points decoded_route start_coords finish_coords in
       let cumulative_miles := _build_cumulative_miles route_points in
       let total_distance_miles := total_distance_of cumulative_miles distance_meters in
       _map_stations_to_route route_points cumulative_miles
         (mkWorld (cache w2) (calls w2 ++ [EvRoute start_coords finish_coords]))
       = (Ret mapped_stations, w')
       /\ stops_loop mapped_stations total_distance_miles 1
            (_build_waypoint_markers total_distance_miles start_with_full_tank)
            (mkLoop [] 0.0 (- MAX_RANGE_MILES) [])
          = Ret st
       /\ plan = assemble_plan start_raw finish_raw start_with_full_tank
                   start_coords finish_coords encoded_polyline total_distance_miles st.
Proof.
  unfold _build_trip_plan. unfold mbind at 1, M_bind at 1.
  destruct (_resolve_location start_raw w) as [[sc|e] w1] eqn:R1; [|discriminate].
  unfold mbind at 1, M_bind at 1.
  destruct (_resolve_location finish_raw w1) as [[fc|e] w2] eqn:R2; [|discriminate].
  destruct sc as [sc|], fc as [fc|]; try discriminate.
  destruct (negb _ || negb _); [discriminate|].
  unfold mbind at 1, M_bind at 1, emit.
  destruct (get_route sc fc) as [[[dm|] poly] decoded] eqn:G; [|discriminate].
  unfold mbind at 1, M_bind at 1.
  destruct (_map_stations_to_route _ _ _) as [[mapped|e] w3] eqn:Mp; [|discriminate].
  unfold mbind, M_bind, liftM, mret, M_ret.
  destruct (stops_loop _ _ _ _ _) as [st|e] eqn:L; [|discriminate].
  intros [= <- <-].
  exists sc, fc, w1, w2, dm, poly, decoded, mapped, st.
  repeat split; assumption.
Qed.

End Plan.

(** ** The stop loop *)

Lemma gap_stop_fields (order : Z) (marker segment_distance : Q) :
  let stop := gap_stop order marker segment_distance in
  stop !! "order" = Some (PInt order)
  /\ stop !! "route_mile_marker" = Some (PNum (py_round marker 2))
  /\ stop !! "segment_distance_miles" = Some (PNum (py_round segment_distance 2))
  /\ has_key stop "name" = false
  /\ has_key stop "note" = true.
Proof. repeat split. Qed.

Lemma station_stop_fields (order : Z) (marker segment_distance : Q) (station : MappedStation)
    (gallons segment_cost : Q) :
  let stop := station_stop order marker segment_distance station gallons segment_cost in
  stop !! "order" = Some (PInt order)
  /\ stop !! "route_mile_marker" = Some (PNum (py_round marker 2))
  /\ stop !! "segment_distance_miles" = Some (PNum (py_round segment_distance 2))
  /\ has_key stop "name" = true
  /\ has_key stop "note" = false
  /\ stop !! "price_per_gallon_usd" = Some (PNum (py_round (price (station_of station)) 3))
  /\ stop !! "segment_cost_usd" = Some (PNum (py_round segment_cost 2)).
Proof. repeat split. Qed.

Lemma segment_positive (total_distance_miles marker : Q) :
  marker < total_distance_miles ->
  Qleb (py_min2 MAX_RANGE_MILES (total_distance_miles - marker)) 0 = false.
Proof.
  intros L. apply Qleb_false. apply py_min2_positive; [reflexivity | lra].
Qed.

Lemma previous_from_tail (p marker : Q) (rest : list Q) (j : nat) (m : Q) :
  rest !! j = Some m ->
  previous_from p (marker :: rest) (S j) = previous_from marker rest j.
Proof.
  intros E. destruct j as [|k]; simpl; [reflexivity|].
  destruct (rest !! k) eqn:K; [reflexivity|].
  apply lookup_ge_None in K. apply lookup_lt_Some in E. lia.
Qed.

Section Loop.
Variable mapped : list MappedStation.
Variable total : Q.

(** Every marker below the total distance gets exactly one entry, numbered
    consecutively; the entry is a station entry when the selector returns a
    station and a gap entry otherwise. *)
Lemma stops_loop_entries (waypoints : list Q) (order : Z) (st st' : LoopState) :
  Forall (fun m => m < total) waypoints ->
  stops_loop mapped total order waypoints st = Ret st' ->
  exists new,
    fuel_stops st' = fuel_stops st ++ new
    /\ length new = length waypoints
    /\ forall i stop, new !! i = Some stop ->
         exists marker,
           waypoints !! i = Some marker
           /\ stop !! "order" = Some (PInt (order + Z.of_nat i))
           /\ stop !! "route_mile_marker" = Some (PNum (py_round marker 2))
           /\ stop !! "segment_distance_miles"
              = Some (PNum (py_round (py_min2 MAX_RANGE_MILES (total - marker)) 2))
           /\ ((has_key stop "name" = true /\ has_key stop "note" = false
                /\ exists s, _select_station mapped marker
                               (previous_from (previous_marker st) waypoints i)
                             = Ret (Some s))
               \/ (has_key stop "name" = false /\ has_key stop "note" = true
                   /\ _select_station mapped marker
                        (previous_from (previous_marker st) waypoints i)
                      = Ret None)).
Proof.
  revert order st. induction waypoints as [|marker rest IH]; intros order st F E; simpl in E.
  - injection E as <-. exists []. rewrite app_nil_r. repeat split.
    intros i stop L. destruct i; discriminate.
  - rewrite (segment_positive _ _ (Forall_inv F)) in E.
    destruct (_select_station mapped marker (previous_marker st)) as [[s|]|e] eqn:Sel0;
      simpl in E; [| |discriminate];
      destruct (IH _ _ (Forall_inv_tail F) E) as (new & Ef & Len & Each);
      cbn [fuel_stops previous_marker] in Ef, Each;
      (eexists (_ :: new); split; [rewrite Ef, <- app_assoc; reflexivity|];
       split; [simpl; rewrite Len; reflexivity|]);
      intros [|j] stop L; simpl in L.
    + injection L as <-. exists marker. rewrite Z.add_0_r. split; [reflexivity|].
      destruct (station_stop_fields order marker
                  (py_min2 MAX_RANGE_MILES (total - marker)) s
                  (py_min2 MAX_RANGE_MILES (total - marker) / MPG)
                  (py_min2 MAX_RANGE_MILES (total - marker) / MPG * price (station_of s)))
        as (F1 & F2 & F3 & F4 & F5 & _).
      repeat (split; [assumption|]). left. repeat (split; [assumption|]).
      exists s. exact Sel0.
    + destruct (Each j stop L) as (m & Lm & F1 & F2 & F3 & Kind).
      exists m. split; [exact Lm|].
      rewrite (previous_from_tail _ _ _ _ _ Lm).
      replace (order + Z.of_nat (S j))%Z with (order + 1 + Z.of_nat j)%Z by lia.
      repeat (split; [assumption|]). exact Kind.
    + injection L as <-. exists marker. rewrite Z.add_0_r. split; [reflexivity|].
      destruct (gap_stop_fields order marker (py_min2 MAX_RANGE_MILES (total - marker)))
        as (F1 & F2 & F3 & F4 & F5).
      repeat (split; [assumption|]). right. repeat (split; [assumption|]). exact Sel0.
    + destruct (Each j stop L) as (m & Lm & F1 & F2 & F3 & Kind).
      exists m. split; [exact Lm|].
      rewrite (previous_from_tail _ _ _ _ _ Lm).
      replace (order + Z.of_nat (S j))%Z with (order + 1 + Z.of_nat j)%Z by lia.
      repeat (split; [assumption|]). exact Kind.
Qed.

(** With no negative price among the mapped stations the accumulated cost
    never decreases, and it increases strictly as soon as one stop is filled
    with a station of positive price. *)
Lemma stops_loop_cost (waypoints : list Q) (order : Z) (st st' : LoopState) :
  Forall (fun m => m < total) waypoints ->
  Forall (fun s => 0 <= price (station_of s)) mapped ->
  stops_loop mapped total order waypoints st = Ret st' ->
  total_cost st <= total_cost st'
  /\ forall i marker s,
       waypoints !! i = Some marker ->
       _select_station mapped marker (previous_from (previous_marker st) waypoints i)
       = Ret (Some s) ->
       0 < price (station_of s) ->
       total_cost st < total_cost st'.
Proof.
  intros F NonNeg. revert order st F.
  induction waypoints as [|marker rest IH]; intros order st F E; simpl in E.
  - injection E as <-. split; [lra|]. intros i marker s L. destruct i; discriminate.
  - pose proof (segment_positive _ _ (Forall_inv F)) as Seg. rewrite Seg in E.
    apply Qleb_false in Seg.
    destruct (select_station_spec mapped marker (previous_marker st)) as (r & Sel0 & Spec).
    rewrite Sel0 in E. simpl in E. destruct r as [s0|].
    + destruct (IH _ _ (Forall_inv_tail F) E) as (Mono & Strict).
      cbn [total_cost previous_marker] in Mono, Strict.
      assert (I : In s0 mapped).
      { simpl in Spec. destruct Spec as (_ & pool & P & M). apply first_minimizer_in in M.
        destruct P as [e wd l pool _ _ K _ | pool _ K _ | _ _]; try assumption;
          apply (kept_sublist _ _ _ _ K M). }
      assert (P0 : 0 <= price (station_of s0)).
      { rewrite Forall_forall in NonNeg. apply NonNeg, list_elem_of_In, I. }
      assert (G : 0 < py_min2 MAX_RANGE_MILES (total - marker) / MPG).
      { apply Qlt_shift_div_l; [reflexivity|]. lra. }
      assert (C0 : 0 <= py_min2 MAX_RANGE_MILES (total - marker) / MPG * price (station_of s0)).
      { apply Qmult_le_0_compat; lra. }
      split; [lra|].
      intros [|j] m s L Sel Pos; simpl in L.
      * injection L as <-. simpl in Sel. rewrite Sel0 in Sel. injection Sel as <-.
        assert (0 < py_min2 MAX_RANGE_MILES (total - marker) / MPG * price (station_of s0)).
        { apply Qmult_lt_0_compat; assumption. }
        lra.
      * rewrite (previous_from_tail _ _ _ _ _ L) in Sel.
        pose proof (Strict j m s L Sel Pos). lra.
    + destruct (IH _ _ (Forall_inv_tail F) E) as (Mono & Strict).
      cbn [total_cost previous_marker] in Mono, Strict.
      split; [exact Mono|].
      intros [|j] m s L Sel Pos; simpl in L.
      * injection L as <-. simpl in Sel. congruence.
      * rewrite (previous_from_tail _ _ _ _ _ L) in Sel.
        exact (Strict j m s L Sel Pos).
Qed.

End Loop.

Lemma previous_from_initial (waypoints : list Q) (i : nat) :
  previous_from (- MAX_RANGE_MILES) waypoints i = previous_marker_at waypoints i.
Proof. reflexivity. Qed.

Lemma waypoint_markers_below (total_miles : Q) (start_with_full_tank : bool) :
  Forall (fun m => m < total_miles) (_build_waypoint_markers total_miles start_with_full_tank).
Proof.
  unfold _build_waypoint_markers. destruct (Qleb total_miles 0); [constructor|].
  apply Forall_forall. intros m I. apply list_elem_of_lookup in I.
  destruct I as [i E]. apply (markers_from_lookup _ _ _ _ E).
Qed.

(** ** Properties of a built plan *)

Lemma build_trip_plan_run {math : MathLib} {py : PyLib} {services : Collaborators}
    (start_raw finish_raw : pyval) (start_with_full_tank : bool)
    (w w' : World) (plan : gmap string pyval) :
  _build_trip_plan start_raw finish_raw start_with_full_tank w = (Ret plan, w') ->
  exists r, trip_run start_raw finish_raw start_with_full_tank w w' plan r.
Proof.
  intros B. apply build_trip_plan_success in B.
  destruct B as (sc & fc & w1 & w2 & dm & poly & decoded & mapped & st
                 & R1 & R2 & G & Mp & L & ->).
  exists (mkRun sc fc dm poly
            (_to_route_points decoded sc fc)
            (_build_cumulative_miles (_to_route_points decoded sc fc))
            (total_distance_of
               (_build_cumulative_miles (_to_route_points decoded sc fc)) dm)
            mapped
            (_build_waypoint_markers
               (total_distance_of
                  (_build_cumulative_miles (_to_route_points decoded sc fc)) dm)
               start_with_full_tank)
            st).
  exists w1, w2, decoded. cbn [run_start_coords run_finish_coords run_distance_meters
    run_polyline run_route_points run_cumulative run_total run_mapped run_waypoints run_state].
  repeat split; assumption.
Qed.

Lemma cumulative_miles_nonempty {math : MathLib} (route_points : list (Q * Q)) :
  exists final, last (_build_cumulative_miles route_points) = Some final.
Proof.
  destruct (last (_build_cumulative_miles route_points)) as [final|] eqn:E; [eauto|].
  apply last_None in E. destruct route_points; discriminate.
Qed.

(** C5, as stated, fails: on a hop of a few yards next to a station priced
    at 3.00 the single stop is filled and [total_fuel_cost_usd] is 0. *)
Lemma total_fuel_cost_rounds_to_zero :
  match _build_trip_plan (math := Fixture.math) (py := Fixture.python)
          (services := Fixture.short_hop_services)
          (PStr "-100,35") (PStr "-100.0001,35") false Fixture.empty_world with
  | (Ret plan, _) =>
      match plan_fuel_stops plan with
      | Some [PDict stop] =>
          stop !! "name" = Some (PStr "Roadside Fuel")
          /\ exists p, stop !! "price_per_gallon_usd" = Some (PNum p) /\ p == 3 /\ 0 < p
      | _ => False
      end
      /\ plan_summary plan "number_of_fuel_stops" = Some (PInt 1)
      /\ exists c, plan_summary plan "total_fuel_cost_usd" = Some (PNum c) /\ c == 0 /\ ~ 0 < c
  | (Raise _, _) => False
  end.
Proof.
  vm_compute. split; [split; [reflexivity|]|split; [reflexivity|]]; eexists;
    (split; [reflexivity|]); split; try reflexivity; discriminate.
Qed.

(** C5, amended. The reported [total_fuel_cost_usd] is the accumulated cost
    rounded to two decimals.  When no mapped station has a negative price it
    is non-negative; if moreover some stop is filled with a station of strictly
    positive price, the accumulated cost is strictly positive, and the reported
    value is strictly positive when that cost exceeds half a cent and zero when
    it is below half a cent. *)
Theorem total_fuel_cost_after_rounding
    {math : MathLib} {py : PyLib} {services : Collaborators}
    (start_raw finish_raw : pyval) (start_with_full_tank : bool)
    (w w' : World) (plan : gmap string pyval) :
  _build_trip_plan start_raw finish_raw start_with_full_tank w = (Ret plan, w') ->
  exists r,
    trip_run start_raw finish_raw start_with_full_tank w w' plan r
    /\ plan_summary plan "total_fuel_cost_usd"
       = Some (PNum (py_round (total_cost (run_state r)) 2))
    /\ (Forall (fun s => 0 <= price (station_of s)) (run_mapped r) ->
        0 <= py_round (total_cost (run_state r)) 2
        /\ ((exists i s,
               filled_with (run_mapped r) (run_waypoints r) i s /\ 0 < price (station_of s)) ->
            0 < total_cost (run_state r)
            /\ (1 # 200 < total_cost (run_state r) ->
                0 < py_round (total_cost (run_state r)) 2)
            /\ (total_cost (run_state r) < 1 # 200 ->
                py_round (total_cost (run_state r)) 2 == 0))).
Proof.
  intros B. destruct (build_trip_plan_run _ _ _ _ _ _ B) as (r & Run).
  exists r. split; [exact Run|].
  destruct Run as (w1 & w2 & decoded & _ & _ & _ & _ & _ & _ & _ & Ew & L & ->).
  split; [apply assemble_plan_summary|].
  intros NonNeg.
  assert (F : Forall (fun m => m < run_total r) (run_waypoints r)).
  { rewrite Ew. apply waypoint_markers_below. }
  destruct (stops_loop_cost _ _ _ _ _ _ F NonNeg L) as (Mono & Strict).
  cbn [total_cost previous_marker] in Mono, Strict.
  split; [apply py_round_nonneg; lra|].
  intros (i & s & (marker & Lm & Sel) & Pos).
  assert (T : 0 < total_cost (run_state r)).
  { pose proof (Strict i marker s Lm Sel Pos). lra. }
  split; [exact T|]. split.
  - apply py_round_2_positive.
  - apply py_round_2_zero. lra.
Qed.

Lemma total_fuel_cost_after_rounding_witness :
  exists plan w' r,
    _build_trip_plan (math := Fixture.math) (py := Fixture.python)
      (services := Fixture.short_hop_services)
      (PStr "-100,35") (PStr "-99,35") false Fixture.empty_world = (Ret plan, w')
    /\ trip_run (math := Fixture.math) (py := Fixture.python)
         (services := Fixture.short_hop_services)
         (PStr "-100,35") (PStr "-99,35") false Fixture.empty_world w' plan r
    /\ plan_summary plan "total_fuel_cost_usd"
       = Some (PNum (py_round (total_cost (run_state r)) 2))
    /\ (Forall (fun s => 0 <= price (station_of s)) (run_mapped r) ->
        0 <= py_round (total_cost (run_state r)) 2
        /\ ((exists i s,
               filled_with (run_mapped r) (run_waypoints r) i s /\ 0 < price (station_of s)) ->
            0 < total_cost (run_state r)
            /\ (1 # 200 < total_cost (run_state r) ->
                0 < py_round (total_cost (run_state r)) 2)
            /\ (total_cost (run_state r) < 1 # 200 ->
                py_round (total_cost (run_state r)) 2 == 0))).
Proof.
  pose (run := _build_trip_plan (math := Fixture.math) (py := Fixture.python)
                 (services := Fixture.short_hop_services)
                 (PStr "-100,35") (PStr "-99,35") false Fixture.empty_world).
  assert (E : run = (Ret (Fixture.value_of ∅ run), Fixture.world_of run))
    by (vm_compute; reflexivity).
  destruct (total_fuel_cost_after_rounding (math := Fixture.math) (py := Fixture.python)
              (services := Fixture.short_hop_services) _ _ _ _ _ _ E) as (r & P).
  exists (Fixture.value_of ∅ run), (Fixture.world_of run), r. split; [exact E | exact P].
Defined.


(** C10. In a built plan [fuel_stops] has exactly one entry per waypoint
    marker, in order: the entry of index [i] carries [order = i + 1] and the
    rounded marker, its segment distance [min(500, total - marker)] is
    strictly positive, and it is either a station entry (with ["name"]) or a
    gap entry (with ["note"]); [number_of_fuel_stops] counts the station
    entries only, so it is at most, and in some plans strictly less than, the
    length of [fuel_stops]. *)
Theorem fuel_stops_one_per_marker :
  (forall {math : MathLib} {py : PyLib} {services : Collaborators}
          (start_raw finish_raw : pyval) (start_with_full_tank : bool)
          (w w' : World) (plan : gmap string pyval),
      _build_trip_plan start_raw finish_raw start_with_full_tank w = (Ret plan, w') ->
      exists r,
        trip_run start_raw finish_raw start_with_full_tank w w' plan r
        /\ plan_fuel_stops plan = Some (map PDict (fuel_stops (run_state r)))
        /\ length (fuel_stops (run_state r)) = length (run_waypoints r)
        /\ (forall i stop,
              fuel_stops (run_state r) !! i = Some stop ->
              exists marker,
                run_waypoints r !! i = Some marker
                /\ 0 < py_min2 MAX_RANGE_MILES (run_total r - marker)
                /\ stop !! "order" = Some (PInt (Z.of_nat i + 1))
                /\ stop !! "route_mile_marker" = Some (PNum (py_round marker 2))
                /\ ((has_key stop "name" = true /\ has_key stop "note" = false
                     /\ exists s, filled_with (run_mapped r) (run_waypoints r) i s)
                    \/ (has_key stop "name" = false /\ has_key stop "note" = true)))
        /\ plan_summary plan "number_of_fuel_stops"
           = Some (PInt (Z.of_nat
                           (length (List.filter (fun stop => has_key stop "name")
                                                (fuel_stops (run_state r))))))
        /\ (length (List.filter (fun stop => has_key stop "name") (fuel_stops (run_state r)))
            <= length (fuel_stops (run_state r)))%nat)
  /\ (exists (math : MathLib) (py : PyLib) (services : Collaborators)
             (start_raw finish_raw : pyval) (start_with_full_tank : bool)
             (w w' : World) (plan : gmap string pyval) (n : Z) (stops : list pyval),
        _build_trip_plan start_raw finish_raw start_with_full_tank w = (Ret plan, w')
        /\ plan_summary plan "number_of_fuel_stops" = Some (PInt n)
        /\ plan_fuel_stops plan = Some stops
        /\ (n < Z.of_nat (length stops))%Z).
Proof.
  split.
  - intros math py services start_raw finish_raw full w w' plan B.
    destruct (build_trip_plan_run _ _ _ _ _ _ B) as (r & Run).
    exists r. split; [exact Run|].
    destruct Run as (w1 & w2 & decoded & _ & _ & _ & _ & _ & _ & _ & Ew & L & ->).
    assert (F : Forall (fun m => m < run_total r) (run_waypoints r)).
    { rewrite Ew. apply waypoint_markers_below. }
    destruct (stops_loop_entries _ _ _ _ _ _ F L) as (new & Ef & Len & Each).
    cbn [fuel_stops previous_marker app] in Ef, Each. rewrite <- Ef in *.
    split; [apply assemble_plan_summary|]. split; [exact Len|]. split.
    + intros i stop Ls.
      destruct (Each i stop Ls) as (marker & Lm & F1 & F2 & _ & Kind).
      exists marker. split; [exact Lm|]. split.
      { apply py_min2_positive; [reflexivity|].
        rewrite Forall_forall in F.
        assert (marker < run_total r) by (apply F; eapply list_elem_of_lookup_2; exact Lm).
        lra. }
      split; [rewrite Z.add_comm; exact F1|]. split; [exact F2|].
      destruct Kind as [(K1 & K2 & s & Sel) | (K1 & K2 & _)]; [left | right; auto].
      split; [exact K1|]. split; [exact K2|]. exists s, marker. split; [exact Lm | exact Sel].
    + split; [apply assemble_plan_summary|]. apply List.filter_length_le.
  - pose (run := _build_trip_plan (math := Fixture.math) (py := Fixture.python)
                   (services := Fixture.no_station_services)
                   (PStr "-100,35") (PStr "-99,35") false Fixture.empty_world).
    exists Fixture.math, Fixture.python, Fixture.no_station_services,
      (PStr "-100,35"), (PStr "-99,35"), false, Fixture.empty_world,
      (Fixture.world_of run), (Fixture.value_of ∅ run), 0%Z,
      (default [] (plan_fuel_stops (Fixture.value_of ∅ run))).
    repeat split; vm_compute; reflexivity.
Qed.

(** ** The scenario of [routing/tests.py], run on the model *)

Example markers_of_1200_miles :
  _build_waypoint_markers 1200 false = [0; 500; 1000]
  /\ _build_waypoint_markers 1200 true = [500; 1000].
Proof. split; reflexivity. Qed.

(** [test_route_requires_inputs] *)
Example test_route_requires_inputs :
  let run :=
    route_distance (math := Fixture.math) (py := Fixture.python)
      (services := Fixture.test_services) (Fixture.get_request []) Fixture.empty_world in
  status (Fixture.value_of (JsonResponse ∅ 0) run) = 400%Z
  /\ has_key (payload (Fixture.value_of (JsonResponse ∅ 0) run)) "error" = true
  /\ calls (Fixture.world_of run) = [].
Proof. vm_compute. repeat split. Qed.

(** [test_route_returns_stops_and_cost] *)
Example test_route_returns_stops_and_cost :
  let response := Fixture.answer_to Fixture.default_request in
  status response = 200%Z
  /\ Fixture.summary_of Fixture.default_request "number_of_fuel_stops" = Some (PInt 4)
  /\ (exists cost,
        Fixture.summary_of Fixture.default_request "total_fuel_cost_usd" = Some (PNum cost)
        /\ cost == 572.24)
  /\ has_key (payload response) "route_polyline" = false
  /\ has_key (payload response) "start_end_map" = true
  /\ has_key (payload response) "map_url" = true.
Proof.
  vm_compute. split; [reflexivity|]. split; [reflexivity|].
  split; [eexists; split; reflexivity|]. repeat split.
Qed.

(** [test_start_with_full_tank_reduces_stops] *)
Example test_start_with_full_tank_reduces_stops :
  Fixture.summary_of Fixture.default_request "number_of_fuel_stops" = Some (PInt 4)
  /\ Fixture.summary_of Fixture.full_tank_request "number_of_fuel_stops" = Some (PInt 3).
Proof. split; vm_compute; reflexivity. Qed.

(** A tie in the score goes to the station met first in corridor order. *)
Example select_station_tie :
  let first := mkMapped (mkStation "A" "" "" 3 35 (-100)) 10 0 in
  let second := mkMapped (mkStation "B" "" "" 3 35 (-100)) 10 0 in
  _select_station [first; second] 0 (- (500)) = Ret (Some first)
  /\ _select_station [second; first] 0 (- (500)) = Ret (Some second).
Proof. split; reflexivity. Qed.

Section Absent.
Context {py : PyLib}.

(** A request without the query parameter and without the body keys has the
    input [None]. *)
Lemma extract_inputs_absent (request : HttpRequest) :
  (GET request !! "start" = None ->
   _parse_body request !! "start" = None ->
   _parse_body request !! "start_coords" = None ->
   fst (fst (_extract_inputs request)) = PNone)
  /\ (GET request !! "finish" = None ->
      _parse_body request !! "finish" = None ->
      _parse_body request !! "end" = None ->
      _parse_body request !! "end_coords" = None ->
      snd (fst (_extract_inputs request)) = PNone).
Proof.
  unfold _extract_inputs, query_get, dict_get. simpl. split.
  - intros -> -> ->. reflexivity.
  - intros -> -> -> ->. reflexivity.
Qed.

End Absent.

(** * Further properties of the code *)


(** ** Text normalisation *)

Lemma lstrip_idempotent (s : string) : lstrip (lstrip s) = lstrip s.
Proof.
  induction s as [|c s IH]; simpl; [reflexivity|].
  destruct (py_isspace c) eqn:E; [exact IH|]. simpl. rewrite E. reflexivity.
Qed.

Lemma rstrip_idempotent (s : string) : rstrip (rstrip s) = rstrip s.
Proof.
  induction s as [|c s IH]; simpl; [reflexivity|].
  destruct (py_isspace c && is_empty_string (rstrip s)) eqn:E; [reflexivity|].
  simpl. rewrite IH, E. reflexivity.
Qed.

Lemma rstrip_lstrip_fixed (t : string) : rstrip t = t -> rstrip (lstrip t) = lstrip t.
Proof.
  induction t as [|c t IH]; simpl; [reflexivity|].
  destruct (py_isspace c && is_empty_string (rstrip t)) eqn:E; [discriminate|].
  intros [= F]. destruct (py_isspace c) eqn:Sp.
  - apply IH. exact F.
  - simpl. rewrite Sp, F. reflexivity.
Qed.

Lemma strip_idempotent (s : string) : strip (strip s) = strip s.
Proof.
  unfold strip. rewrite (rstrip_lstrip_fixed (rstrip s) (rstrip_idempotent s)).
  apply lstrip_idempotent.
Qed.

Lemma lower_ascii_space (c : ascii) : py_isspace (lower_ascii c) = py_isspace c.
Proof. destruct c as [[] [] [] [] [] [] [] []]; reflexivity. Qed.

Lemma lower_ascii_idempotent (c : ascii) : lower_ascii (lower_ascii c) = lower_ascii c.
Proof. destruct c as [[] [] [] [] [] [] [] []]; reflexivity. Qed.

Lemma lower_idempotent (s : string) : lower (lower s) = lower s.
Proof.
  induction s as [|c s IH]; simpl; [reflexivity|].
  rewrite lower_ascii_idempotent, IH. reflexivity.
Qed.

Lemma lower_empty (s : string) : is_empty_string (lower s) = is_empty_string s.
Proof. destruct s; reflexivity. Qed.

Lemma lstrip_lower (s : string) : lstrip (lower s) = lower (lstrip s).
Proof.
  induction s as [|c s IH]; simpl; [reflexivity|].
  rewrite lower_ascii_space. destruct (py_isspace c); [exact IH | reflexivity].
Qed.

Lemma rstrip_lower (s : string) : rstrip (lower s) = lower (rstrip s).
Proof.
  induction s as [|c s IH]; simpl; [reflexivity|].
  rewrite lower_ascii_space, IH, lower_empty.
  destruct (py_isspace c && is_empty_string (rstrip s)); reflexivity.
Qed.

Lemma strip_lower (s : string) : strip (lower s) = lower (strip s).
Proof. unfold strip. rewrite rstrip_lower, lstrip_lower. reflexivity. Qed.



(** ** Bounding box *)

Lemma py_min2_le (a b : Q) : py_min2 a b <= a /\ py_min2 a b <= b.
Proof.
  unfold py_min2. destruct (Qltb b a) eqn:E.
  - apply Qltb_true in E. split; lra.
  - apply Qltb_false in E. split; lra.
Qed.

Lemma py_max2_ge (a b : Q) : a <= py_max2 a b /\ b <= py_max2 a b.
Proof.
  unfold py_max2. destruct (Qltb a b) eqn:E.
  - apply Qltb_true in E. split; lra.
  - apply Qltb_false in E. split; lra.
Qed.

Lemma fold_min_le (xs : list Q) (x : Q) :
  fold_left py_min2 xs x <= x /\ Forall (fun y => fold_left py_min2 xs x <= y) xs.
Proof.
  revert x. induction xs as [|y ys IH]; intros x; simpl.
  - split; [lra | constructor].
  - destruct (IH (py_min2 x y)) as [A B]. destruct (py_min2_le x y) as [C D].
    split; [lra|]. constructor; [lra | exact B].
Qed.

Lemma fold_max_ge (xs : list Q) (x : Q) :
  x <= fold_left py_max2 xs x /\ Forall (fun y => y <= fold_left py_max2 xs x) xs.
Proof.
  revert x. induction xs as [|y ys IH]; intros x; simpl.
  - split; [lra | constructor].
  - destruct (IH (py_max2 x y)) as [A B]. destruct (py_max2_ge x y) as [C D].
    split; [lra|]. constructor; [lra | exact B].
Qed.

Lemma py_min_list_spec (xs : list Q) (m : Q) :
  py_min_list xs = Ret m -> Forall (fun y => m <= y) xs.
Proof.
  destruct xs as [|x xs]; simpl; [discriminate|]. intros [= <-].
  destruct (fold_min_le xs x). constructor; assumption.
Qed.

Lemma py_max_list_spec (xs : list Q) (m : Q) :
  py_max_list xs = Ret m -> Forall (fun y => y <= m) xs.
Proof.
  destruct xs as [|x xs]; simpl; [discriminate|]. intros [= <-].
  destruct (fold_max_ge xs x). constructor; assumption.
Qed.

Lemma route_bbox_nonempty {math : MathLib} (p : Q * Q) (ps : list (Q * Q)) (padding : Q) :
  exists box, _route_bbox (p :: ps) padding = Ret box.
Proof. unfold _route_bbox. simpl. eexists. reflexivity. Qed.

(** X3. For a non-negative padding the box of [_route_bbox] contains every
    route point, whatever the cosine function returns: the latitude padding is
    [padding / 69] and the longitude padding lies between 0 and
    [padding / (69.172 * 0.2)].  An empty route raises [ValueError]. *)
Theorem route_bbox_contains_route {math : MathLib}
    (route_points : list (Q * Q)) (padding_miles : Q) :
  0 <= padding_miles ->
  match _route_bbox route_points padding_miles with
  | Ret (lat_min, lat_max, lon_min, lon_max) =>
      route_points <> []
      /\ Forall (fun point => lat_min <= fst point <= lat_max
                              /\ lon_min <= snd point <= lon_max) route_points
      /\ (exists low high,
            py_min_list (map fst route_points) = Ret low
            /\ py_max_list (map fst route_points) = Ret high
            /\ lat_min == low - padding_miles / 69
            /\ lat_max == high + padding_miles / 69)
      /\ (exists low high pad,
            py_min_list (map snd route_points) = Ret low
            /\ py_max_list (map snd route_points) = Ret high
            /\ lon_min == low - pad /\ lon_max == high + pad
            /\ 0 <= pad <= padding_miles / (69.172 * 0.2))
  | Raise e => route_points = [] /\ e = ValueError
  end.
Proof.
  intros P. destruct route_points as [|p ps]; [split; reflexivity|].
  unfold _route_bbox.
  destruct (py_min_list (map fst (p :: ps))) as [min_lat|] eqn:E1; [|discriminate].
  destruct (py_max_list (map fst (p :: ps))) as [max_lat|] eqn:E2; [|discriminate].
  destruct (py_min_list (map snd (p :: ps))) as [min_lon|] eqn:E3; [|discriminate].
  destruct (py_max_list (map snd (p :: ps))) as [max_lon|] eqn:E4; [|discriminate].
  cbn [mbind Result_bind mret Result_ret].
  set (denominator :=
         69.172 * py_max2 0.2 (Qabs (m_cos (m_radians ((min_lat + max_lat) / 2.0))))).
  assert (D : 69.172 * 0.2 <= denominator).
  { subst denominator.
    destruct (py_max2_ge 0.2 (Qabs (m_cos (m_radians ((min_lat + max_lat) / 2.0))))).
    lra. }
  assert (D0 : 0 < denominator) by lra.
  assert (L : 0 <= padding_miles / 69.0).
  { apply Qle_shift_div_l; [reflexivity | lra]. }
  assert (G : 0 <= padding_miles / denominator <= padding_miles / (69.172 * 0.2)).
  { split.
    - apply Qle_shift_div_l; [exact D0 | lra].
    - apply Qle_shift_div_r; [exact D0|].
      assert (S : padding_miles / (69.172 * 0.2) * (69.172 * 0.2) == padding_miles)
        by (field; discriminate).
      assert (0 <= padding_miles / (69.172 * 0.2)).
      { apply Qle_shift_div_l; [reflexivity | lra]. }
      nra. }
  apply py_min_list_spec in E1 as F1. apply py_max_list_spec in E2 as F2.
  apply py_min_list_spec in E3 as F3. apply py_max_list_spec in E4 as F4.
  split; [discriminate|]. split.
  - rewrite Forall_forall in F1. rewrite Forall_forall in F2.
    rewrite Forall_forall in F3. rewrite Forall_forall in F4.
    apply Forall_forall. intros point I.
    assert (I1 : fst point ∈ map fst (p :: ps)) by (apply list_elem_of_fmap_2; exact I).
    assert (I2 : snd point ∈ map snd (p :: ps)) by (apply list_elem_of_fmap_2; exact I).
    pose proof (F1 _ I1). pose proof (F2 _ I1). pose proof (F3 _ I2). pose proof (F4 _ I2).
    lra.
  - split.
    + exists min_lat, max_lat.
      split; [reflexivity|]. split; [reflexivity|]. split; field.
    + exists min_lon, max_lon, (padding_miles / denominator).
      split; [reflexivity|]. split; [reflexivity|].
      split; [reflexivity|]. split; [reflexivity | exact G].
Qed.

Lemma route_bbox_contains_route_witness :
  0 <= 45
  /\ match _route_bbox (math := Fixture.math) Fixture.hop_route 45 with
     | Ret (lat_min, lat_max, lon_min, lon_max) =>
         Fixture.hop_route <> []
         /\ Forall (fun point => lat_min <= fst point <= lat_max
                                 /\ lon_min <= snd point <= lon_max) Fixture.hop_route
         /\ (exists low high,
               py_min_list (map fst Fixture.hop_route) = Ret low
               /\ py_max_list (map fst Fixture.hop_route) = Ret high
               /\ lat_min == low - 45 / 69
               /\ lat_max == high + 45 / 69)
         /\ (exists low high pad,
               py_min_list (map snd Fixture.hop_route) = Ret low
               /\ py_max_list (map snd Fixture.hop_route) = Ret high
               /\ lon_min == low - pad /\ lon_max == high + pad
               /\ 0 <= pad <= 45 / (69.172 * 0.2))
     | Raise e => Fixture.hop_route = [] /\ e = ValueError
     end.
Proof.
  split; [discriminate|].
  apply (route_bbox_contains_route (math := Fixture.math) Fixture.hop_route 45).
  discriminate.
Defined.

(** ** Route sampling *)

Lemma py_range_step_lookup (stop step i : nat) :
  (i < (stop + step - 1) / step)%nat ->
  py_range_step stop step !! i = Some (i * step)%nat.
Proof.
  intros L. unfold py_range_step. rewrite list_lookup_fmap.
  rewrite lookup_seq_lt by exact L. reflexivity.
Qed.

Lemma py_range_step_length (stop step : nat) :
  length (py_range_step stop step) = ((stop + step - 1) / step)%nat.
Proof. unfold py_range_step. rewrite length_map, length_seq. reflexivity. Qed.

Lemma range_count_positive (n step : nat) :
  (1 <= n)%nat -> (1 <= step)%nat -> (1 <= (n + step - 1) / step)%nat.
Proof. intros N S. apply Nat.div_le_lower_bound; lia. Qed.

Lemma range_element_below (n step k : nat) :
  (1 <= step)%nat -> (k < (n + step - 1) / step)%nat -> (k * step < n)%nat.
Proof.
  intros S K.
  assert (M : (step * ((n + step - 1) / step) <= n + step - 1)%nat)
    by (apply Nat.Div0.mul_div_le).
  nia.
Qed.

Lemma range_count_bound (n : nat) :
  ((n + Nat.max 1 (n / 800) - 1) / Nat.max 1 (n / 800) < 1600)%nat.
Proof.
  assert (U : (n < 800 * S (n / 800))%nat) by (apply Nat.mul_succ_div_gt; lia).
  apply Nat.Div0.div_lt_upper_bound. lia.
Qed.



(** ** Cumulative mileage *)

Section Cumulative.
Context {math : MathLib}.

Lemma cumulative_from_length (previous : Q * Q) (rest : list (Q * Q)) (v : Q) :
  length (cumulative_from previous rest v) = length rest.
Proof.
  revert previous v. induction rest as [|p rest IH]; intros [lat lon] v; simpl; [reflexivity|].
  destruct p as [lat2 lon2]. simpl. rewrite IH. reflexivity.
Qed.

Lemma cumulative_from_step (previous : Q * Q) (rest : list (Q * Q)) (v : Q)
    (i : nat) (a b lat1 lon1 lat2 lon2 : Q) :
  (v :: cumulative_from previous rest v) !! i = Some a ->
  (v :: cumulative_from previous rest v) !! S i = Some b ->
  (previous :: rest) !! i = Some (lat1, lon1) ->
  (previous :: rest) !! S i = Some (lat2, lon2) ->
  b = a + _haversine_miles lat1 lon1 lat2 lon2.
Proof.
  revert previous v i. induction rest as [|r rest IH]; intros [lat lon] v i Ea Eb Ep Eq.
  - destruct i; discriminate.
  - destruct r as [rlat rlon]. cbn [cumulative_from] in Ea, Eb. destruct i as [|i].
    + cbn in Ea, Eb, Ep, Eq. congruence.
    + exact (IH (rlat, rlon) _ i Ea Eb Ep Eq).
Qed.

End Cumulative.


(** ** Exceptions that cannot happen *)

Lemma sampled_indexes_below (n : nat) :
  (1 <= n)%nat ->
  exists sampled, sampled_indexes_of n = Ret sampled /\ Forall (fun i => (i < n)%nat) sampled.
Proof.
  intros N. unfold sampled_indexes_of.
  set (stride := Nat.max 1 (n / 800)).
  assert (S1 : (1 <= stride)%nat) by (subst stride; lia).
  assert (F : Forall (fun i => (i < n)%nat) (py_range_step n stride)).
  { apply Forall_forall. intros x I. apply list_elem_of_lookup in I as [i Li].
    pose proof (lookup_lt_Some _ _ _ Li) as Lt. rewrite py_range_step_length in Lt.
    rewrite (py_range_step_lookup _ _ _ Lt) in Li. injection Li as <-.
    apply range_element_below; assumption. }
  destruct (last (py_range_step n stride)) as [final|] eqn:La.
  - destruct (negb (final =? n - 1)%nat); eexists; (split; [reflexivity|]); [|exact F].
    apply Forall_app. split; [exact F|]. constructor; [lia | constructor].
  - apply last_None in La. pose proof (py_range_step_length n stride) as Len.
    rewrite La in Len. simpl in Len.
    pose proof (range_count_positive n stride N S1). lia.
Qed.

Section NoFault.
Context {math : MathLib} {py : PyLib} {services : Collaborators}.

Lemma nearest_sample_total (station : Station) (route_points : list (Q * Q))
    (sampled_indexes : list nat) (best_distance : option Q) (best_index : nat) :
  Forall (fun i => (i < length route_points)%nat) sampled_indexes ->
  exists d i,
    nearest_sample station route_points sampled_indexes best_distance best_index = Ret (d, i)
    /\ (i = best_index \/ In i sampled_indexes).
Proof.
  revert best_distance best_index.
  induction sampled_indexes as [|idx rest IH]; intros bd bi F; simpl.
  - exists bd, bi. auto.
  - destruct (lookup_lt_is_Some_2 route_points idx (Forall_inv F)) as [[lat lon] L].
    rewrite L.
    destruct (below_best _ bd).
    + destruct (IH (Some (_haversine_miles (latitude station) (longitude station) lat lon))
                   idx (Forall_inv_tail F)) as (d & i & E & W).
      exists d, i. split; [exact E|]. right. destruct W as [-> | W]; [left | right]; auto.
    + destruct (IH bd bi (Forall_inv_tail F)) as (d & i & E & W).
      exists d, i. split; [exact E|]. destruct W as [-> | W]; [left | right; right]; auto.
Qed.

Lemma map_candidates_total (route_points : list (Q * Q)) (cumulative : list Q)
    (sampled_indexes : list nat) (candidates : list Station) :
  Forall (fun i => (i < length route_points)%nat) sampled_indexes ->
  length cumulative = length route_points ->
  (0 < length route_points)%nat ->
  exists mapped,
    map_candidates route_points cumulative sampled_indexes candidates = Ret mapped.
Proof.
  intros F Len Pos. induction candidates as [|station rest IH]; simpl.
  - eexists. reflexivity.
  - destruct (nearest_sample_total station route_points sampled_indexes None 0%nat F)
      as (d & i & E & W).
    rewrite E. simpl. destruct IH as (tail & T).
    destruct (best_within d CORRIDOR_RADIUS_MILES) eqn:B; [|eexists; exact T].
    destruct d as [r|]; [|discriminate].
    assert (Li : (i < length cumulative)%nat).
    { rewrite Len. destruct W as [-> | W]; [exact Pos|].
      rewrite Forall_forall in F. apply F, list_elem_of_In, W. }
    destruct (lookup_lt_is_Some_2 cumulative i Li) as [mile C].
    rewrite C, T. simpl. eexists. reflexivity.
Qed.

(** With a cumulative table as long as the route, the corridor indexer
    returns. *)
Lemma map_stations_to_route_total (route_points : list (Q * Q)) (cumulative : list Q)
    (w : World) :
  length cumulative = length route_points ->
  exists mapped w', _map_stations_to_route route_points cumulative w = (Ret mapped, w').
Proof.
  intros Len. unfold _map_stations_to_route.
  destruct route_points as [|p0 ps] eqn:Er; [eexists; eexists; reflexivity|].
  rewrite <- Er in *. unfold mbind, M_bind, liftM.
  destruct (route_bbox_nonempty p0 ps (CORRIDOR_RADIUS_MILES + 20.0)) as (box & B).
  rewrite <- Er in B. rewrite B. destruct box as [[[lat_min lat_max] lon_min] lon_max].
  unfold _load_station_rows, emit, mbind, M_bind, mret, M_ret. cbn beta iota.
  match goal with
  | |- context [List.filter ?f ?l] => destruct (List.filter f l) as [|c cs]
  end; [eexists; eexists; reflexivity|].
  assert (Pos : (1 <= length route_points)%nat) by (rewrite Er; simpl; lia).
  destruct (sampled_indexes_below _ Pos) as (sampled & S & F). rewrite S.
  destruct (map_candidates_total route_points cumulative sampled (c :: cs) F Len Pos)
    as (mapped & Mp).
  rewrite Mp. eexists. eexists. reflexivity.
Qed.

Lemma cumulative_miles_length (route_points : list (Q * Q)) :
  route_points <> [] ->
  length (_build_cumulative_miles route_points) = length route_points.
Proof.
  destruct route_points as [|p rest]; [congruence|]. intros _.
  simpl. rewrite cumulative_from_length. reflexivity.
Qed.

Lemma to_route_points_nonempty (decoded : list (Q * Q)) (sc fc : Q * Q) :
  _to_route_points decoded sc fc <> [].
Proof. destruct decoded as [|[lat lon] ds]; discriminate. Qed.

End NoFault.

(** ** Calls made while planning *)

Section Calls.
Context {math : MathLib} {py : PyLib} {services : Collaborators}.

Lemma is_probably_us_box (coords : Q * Q) :
  _is_probably_us (fst coords) (snd coords) = true <-> inside_us_box coords.
Proof.
  unfold _is_probably_us, inside_us_box. rewrite !andb_true_iff, !Qleb_true.
  split; intros; repeat split; try tauto; lra.
Qed.

(** What [_resolve_location] does, by the cases of its source. *)
Lemma resolve_location_outcome (raw : pyval) (w w' : World) (r : Result (option (Q * Q))) :
  _resolve_location raw w = (r, w') ->
  (w' = w /\ r = _parse_coords raw)
  \/ (exists s, raw = PStr s /\ strip s <> ""%string
                /\ _parse_coords raw = Ret None
                /\ r = Ret (geocode_address_opencage s)
                /\ w' = mkWorld (cache w) (calls w ++ [EvGeocode s])).
Proof.
  unfold _resolve_location, mbind, M_bind, liftM, mret, M_ret, emit.
  destruct (_parse_coords raw) as [[c|]|e] eqn:P; simpl.
  - intros [= <- <-]. left. auto.
  - destruct raw as [| | | |s| |]; try (intros [= <- <-]; left; auto).
    destruct (is_empty_string (strip s)) eqn:E.
    + intros [= <- <-]. left. auto.
    + intros [= <- <-]. right. exists s. repeat split; try reflexivity.
      intros Z. rewrite Z in E. discriminate.
  - intros [= <- <-]. left. auto.
Qed.

Lemma resolve_location_calls (raw other : pyval) (first : bool)
    (w w' : World) (r : Result (option (Q * Q))) :
  _resolve_location raw w = (r, w') ->
  exists g,
    calls w' = calls w ++ g /\ cache w' = cache w /\ (length g <= 1)%nat
    /\ Forall (geocode_of (if first then raw else other) (if first then other else raw)) g
    /\ (forall e, r = Raise e -> e = RecursionError /\ g = []).
Proof.
  intros R. pose proof R as R0. apply resolve_location_outcome in R.
  destruct R as [[-> _] | (s & -> & _ & _ & -> & ->)].
  - exists []. rewrite app_nil_r.
    split; [reflexivity|]. split; [reflexivity|]. split; [simpl; lia|].
    split; [constructor|].
    intros x ->. split; [|reflexivity]. exact (resolve_location_raises _ _ _ _ R0).
  - exists [EvGeocode s].
    split; [reflexivity|]. split; [reflexivity|]. split; [simpl; lia|]. split.
    + constructor; [|constructor]. exists s. destruct first; auto.
    + discriminate.
Qed.

Lemma map_stations_to_route_calls (route_points : list (Q * Q)) (cumulative : list Q)
    (w w' : World) (mapped : list MappedStation) :
  route_points <> [] ->
  _map_stations_to_route route_points cumulative w = (Ret mapped, w') ->
  w' = mkWorld (cache w) (calls w ++ [EvStationTable]).
Proof.
  intros N. unfold _map_stations_to_route.
  destruct route_points as [|p0 ps] eqn:Er; [congruence|].
  rewrite <- Er. unfold mbind, M_bind, liftM.
  destruct (_route_bbox route_points _) as [[[[lat_min lat_max] lon_min] lon_max]|];
    [|discriminate].
  unfold _load_station_rows, emit, mbind, M_bind, mret, M_ret. cbn beta iota.
  match goal with
  | |- context [List.filter ?f ?l] => destruct (List.filter f l) as [|c cs]
  end; [intros [= _ <-]; reflexivity|].
  destruct (sampled_indexes_of (length route_points)) as [sampled|]; [|discriminate].
  destruct (map_candidates route_points cumulative sampled (c :: cs)); [|discriminate].
  intros [= _ <-]. reflexivity.
Qed.

(** The outcome of [_build_trip_plan], by the cases of its source. *)
Lemma build_trip_plan_outcome (start_raw finish_raw : pyval) (start_with_full_tank : bool)
    (w w' : World) (r : Result (gmap string pyval)) :
  _build_trip_plan start_raw finish_raw start_with_full_tank w = (r, w') ->
  exists r1 w1 r2 w2,
    _resolve_location start_raw w = (r1, w1)
    /\ (forall e, r1 = Raise e -> r = Raise e /\ w' = w1)
    /\ (forall sc, r1 = Ret sc ->
        _resolve_location finish_raw w1 = (r2, w2)
        /\ (forall e, r2 = Raise e -> r = Raise e /\ w' = w2)
        /\ (forall fc, r2 = Ret fc ->
            (sc = None \/ fc = None ->
             w' = w2
             /\ r = Raise (TripPlanningError
                    "Invalid start or finish. Use US address text or coordinates [lon, lat]."
                    400))
            /\ (forall s f, sc = Some s -> fc = Some f ->
                (~ (inside_us_box s /\ inside_us_box f) ->
                 w' = w2
                 /\ r = Raise (TripPlanningError
                                 "Start and finish must be locations within the USA." 400))
                /\ (inside_us_box s /\ inside_us_box f ->
                    (fst (fst (get_route s f)) = None ->
                     w' = mkWorld (cache w2) (calls w2 ++ [EvRoute s f])
                     /\ r = Raise (TripPlanningError
                            "Route service failed. Check API key/quota and try again." 502))
                    /\ (forall dm, fst (fst (get_route s f)) = Some dm ->
                        w' = mkWorld (cache w2)
                                     (calls w2 ++ [EvRoute s f] ++ [EvStationTable])
                        /\ exists plan, r = Ret plan))))).
Proof.
  unfold _build_trip_plan. unfold mbind at 1, M_bind at 1.
  destruct (_resolve_location start_raw w) as [r1 w1] eqn:R1.
  destruct (_resolve_location finish_raw w1) as [r2 w2] eqn:R2.
  intros B. exists r1, w1, r2, w2. split; [reflexivity|].
  destruct r1 as [sc|e1].
  2:{ injection B as <- <-. split; [intros e [= <-]; auto | discriminate]. }
  split; [discriminate|]. intros sc' [= <-]. split; [exact R2|].
  unfold mbind at 1, M_bind at 1 in B. rewrite R2 in B.
  destruct r2 as [fc|e2].
  2:{ injection B as <- <-. split; [intros e [= <-]; auto | discriminate]. }
  split; [discriminate|]. intros fc' [= <-].
  destruct sc as [s|], fc as [f|];
    try (injection B as <- <-; split; [auto | intros; discriminate]).
  split; [intros [|]; discriminate|]. intros s' f' [= <-] [= <-].
  destruct (negb (_is_probably_us (fst s) (snd s))
            || negb (_is_probably_us (fst f) (snd f))) eqn:U.
  - injection B as <- <-. split; [auto|]. intros [Us Uf].
    apply is_probably_us_box in Us, Uf. rewrite Us, Uf in U. discriminate.
  - apply orb_false_iff in U as [Us Uf]. apply negb_false_iff in Us, Uf.
    split; [intros NU; exfalso; apply NU; split; apply is_probably_us_box; assumption|].
    intros _. unfold mbind at 1, M_bind at 1, emit in B.
    destruct (get_route s f) as [[[dm|] poly] decoded] eqn:G; simpl.
    + split; [discriminate|]. intros dm' [= <-].
      unfold mbind at 1, M_bind at 1 in B.
      set (route := _to_route_points decoded s f) in *.
      assert (Nr : route <> []) by apply to_route_points_nonempty.
      destruct (map_stations_to_route_total route (_build_cumulative_miles route)
                  (mkWorld (cache w2) (calls w2 ++ [EvRoute s f]))
                  (cumulative_miles_length route Nr)) as (mapped & w3 & Mp).
      rewrite Mp in B.
      pose proof (map_stations_to_route_calls _ _ _ _ _ Nr Mp) as W3.
      cbn [cache calls] in W3. rewrite <- app_assoc in W3.
      unfold mbind, M_bind, liftM, mret, M_ret in B.
      match type of B with
      | context [stops_loop ?m ?t ?o ?ws ?st] =>
          destruct (stops_loop_total m t o ws st) as (st' & L)
      end.
      rewrite L in B. injection B as <- <-. split; [exact W3 | eauto].
    + injection B as <- <-. split; [auto | discriminate].
Qed.

End Calls.

(** The exceptions that leave [_build_trip_plan]: the [RecursionError] of
    coordinate parsing and its own [TripPlanningError]s. *)
Lemma build_trip_plan_raises {math : MathLib} {py : PyLib} {services : Collaborators}
    (start_raw finish_raw : pyval) (start_with_full_tank : bool) (w : World)
    (e : exn) (w' : World) :
  _build_trip_plan start_raw finish_raw start_with_full_tank w = (Raise e, w') ->
  e = RecursionError
  \/ exists message code,
       e = TripPlanningError message code /\ (code = 400 \/ code = 502)%Z.
Proof.
  intros E.
  destruct (build_trip_plan_outcome _ _ _ _ _ _ E)
    as (r1 & w1 & r2 & w2 & R1 & Raise1 & Ret1).
  destruct r1 as [sc|e1].
  2:{ destruct (Raise1 e1 eq_refl) as [[= ->] _]. left.
      exact (resolve_location_raises _ _ _ _ R1). }
  destruct (Ret1 sc eq_refl) as (R2 & Raise2 & Ret2).
  destruct r2 as [fc|e2].
  2:{ destruct (Raise2 e2 eq_refl) as [[= ->] _]. left.
      exact (resolve_location_raises _ _ _ _ R2). }
  destruct (Ret2 fc eq_refl) as (Invalid & Valid).
  destruct sc as [s|]; [|destruct (Invalid (or_introl eq_refl)) as [_ [= ->]]; eauto 6].
  destruct fc as [f|]; [|destruct (Invalid (or_intror eq_refl)) as [_ [= ->]]; eauto 6].
  destruct (Valid s f eq_refl eq_refl) as (Outside & Inside).
  destruct (_is_probably_us (fst s) (snd s)) eqn:Us.
  2:{ destruct Outside as [_ [= ->]]; [|eauto 6].
      intros [I _]. apply is_probably_us_box in I. congruence. }
  destruct (_is_probably_us (fst f) (snd f)) eqn:Uf.
  2:{ destruct Outside as [_ [= ->]]; [|eauto 6].
      intros [_ I]. apply is_probably_us_box in I. congruence. }
  destruct Inside as (NoRoute & Routed).
  { split; apply is_probably_us_box; assumption. }
  destruct (fst (fst (get_route s f))) as [dm|] eqn:G.
  - destruct (Routed dm eq_refl) as (_ & plan & [=]).
  - destruct (NoRoute eq_refl) as [_ [= ->]]. eauto 6.
Qed.




(** ** The handler and its cache *)

Section Handler.
Context {math : MathLib} {py : PyLib} {services : Collaborators}.

(** The four ways [route_distance] answers. *)
Lemma route_distance_outcome (request : HttpRequest) (w w' : World) (response : HttpResponse) :
  route_distance request w = (Ret response, w') ->
  let '(start, finish, start_with_full_tank) := _extract_inputs request in
  let cache_key := _trip_cache_key start finish start_with_full_tank in
  let w0 := mkWorld (cache w) (calls w ++ [EvCacheGet cache_key]) in
  (response = missing_inputs_response /\ w' = w)
  \/ is_none start || is_none finish = false
     /\ ((exists cached,
        cache w !! cache_key = Some cached
        /\ response = JsonResponse (delete "route_polyline" cached) 200
        /\ w' = w0)
  \/ (exists plan w1,
        cache w !! cache_key = None
        /\ _build_trip_plan start finish start_with_full_tank w0 = (Ret plan, w1)
        /\ response = JsonResponse (delete "route_polyline" plan) 200
        /\ w' = mkWorld (<[cache_key := plan]> (cache w1)) (calls w1 ++ [EvCacheSet cache_key]))
  \/ (exists message code,
        cache w !! cache_key = None
        /\ _build_trip_plan start finish start_with_full_tank w0
           = (Raise (TripPlanningError message code), w')
        /\ response = JsonResponse (mkdict [("error", PStr message)]) code)).
Proof.
  unfold route_distance.
  destruct (_extract_inputs request) as [[start finish] full]. cbv beta iota zeta.
  destruct (is_none start || is_none finish).
  - intros [= <- <-]. left. auto.
  - unfold mbind at 1, M_bind at 1, cache_get.
    destruct (cache w !! _trip_cache_key start finish full) as [cached|] eqn:C.
    + intros [= <- <-]. right. split; [reflexivity|]. left. eauto.
    + unfold mbind at 1, M_bind at 1, try_build_trip_plan.
      destruct (_build_trip_plan start finish full _) as [[plan|e] w1] eqn:B.
      * unfold mbind, M_bind, cache_set, mret, M_ret. intros [= <- <-].
        right. split; [reflexivity|]. right. left. exists plan, w1. auto.
      * destruct e as [message code| | |]; try discriminate.
        intros [= <- <-]. right. split; [reflexivity|]. right. right.
        exists message, code. auto.
Qed.

End Handler.

(** X8. [route_distance] answers with status 200, 400 or 502 and nothing
    else.  An answer other than 200 carries an ["error"] entry and no plan, and
    leaves the cache contents as they were: failures are never cached. *)
Theorem route_distance_failures_not_cached
    {math : MathLib} {py : PyLib} {services : Collaborators}
    (request : HttpRequest) (w w' : World) (response : HttpResponse) :
  route_distance request w = (Ret response, w') ->
  (status response = 200 \/ status response = 400 \/ status response = 502)%Z
  /\ (status response <> 200%Z ->
      cache w' = cache w
      /\ is_Some (payload response !! "error")
      /\ payload response !! "summary" = None
      /\ payload response !! "fuel_stops" = None).
Proof.
  intros R. apply route_distance_outcome in R.
  destruct (_extract_inputs request) as [[start finish] full]. cbv beta iota zeta in R.
  destruct R as [[-> ->] | [_ [(cached & C & -> & ->) | [(plan & w1 & C & B & -> & ->)
                | (message & code & C & B & ->)]]]]; cbn [status payload cache].
  - split; [auto|]. intros _. split; [reflexivity|]. split; [eexists; reflexivity|].
    split; reflexivity.
  - split; [auto|]. congruence.
  - split; [auto|]. congruence.
  - pose proof (build_trip_plan_error_status _ _ _ _ _ _ _ B) as S.
    split; [destruct S; auto|]. intros _.
    apply build_trip_plan_cache in B. cbn [cache] in B.
    split; [exact B|]. split; [eexists; reflexivity|]. split; reflexivity.
Qed.

Lemma route_distance_failures_not_cached_witness :
  exists response w',
    route_distance (math := Fixture.math) (py := Fixture.python)
      (services := Fixture.test_services)
      (Fixture.get_request [("start", "2,48"); ("finish", "-90,35")]%string)
      Fixture.empty_world = (Ret response, w')
    /\ (status response = 200 \/ status response = 400 \/ status response = 502)%Z
    /\ (status response <> 200%Z ->
        cache w' = cache Fixture.empty_world
        /\ is_Some (payload response !! "error")
        /\ payload response !! "summary" = None
        /\ payload response !! "fuel_stops" = None).
Proof.
  pose (run := route_distance (math := Fixture.math) (py := Fixture.python)
                 (services := Fixture.test_services)
                 (Fixture.get_request [("start", "2,48"); ("finish", "-90,35")]%string)
                 Fixture.empty_world).
  assert (E : run = (Ret (Fixture.value_of (JsonResponse ∅ 0) run), Fixture.world_of run))
    by (vm_compute; reflexivity).
  exists (Fixture.value_of (JsonResponse ∅ 0) run), (Fixture.world_of run).
  split; [exact E|].
  exact (route_distance_failures_not_cached (math := Fixture.math) (py := Fixture.python)
           (services := Fixture.test_services) _ _ _ _ E).
Defined.

(** X9. A request answered with status 200 is answered again, from the
    world the first answer left, with the same response and a single cache
    read: no geocoder, router or station-table call, and the cache contents
    stay as they are. *)
Theorem route_distance_repeat_from_cache
    {math : MathLib} {py : PyLib} {services : Collaborators}
    (request : HttpRequest) (w w' : World) (response : HttpResponse) :
  route_distance request w = (Ret response, w') ->
  status response = 200%Z ->
  let '(start, finish, start_with_full_tank) := _extract_inputs request in
  route_distance request w'
  = (Ret response,
     mkWorld (cache w')
       (calls w' ++ [EvCacheGet (_trip_cache_key start finish start_with_full_tank)])).
Proof.
  intros R S. apply route_distance_outcome in R.
  unfold route_distance.
  destruct (_extract_inputs request) as [[start finish] full]. cbv beta iota zeta in R |- *.
  destruct R as [[-> ->] | [N [(cached & C & -> & ->) | [(plan & w1 & C & B & -> & ->)
                | (message & code & C & B & ->)]]]]; cbn [status] in S.
  - discriminate.
  - rewrite N. unfold mbind, M_bind, cache_get, mret, M_ret. cbn [cache calls].
    rewrite C. reflexivity.
  - rewrite N. unfold mbind, M_bind, cache_get, mret, M_ret. cbn [cache calls].
    rewrite lookup_insert_eq. reflexivity.
  - apply build_trip_plan_error_status in B. lia.
Qed.

Lemma route_distance_repeat_from_cache_witness :
  let request := Fixture.get_request [("start", "-100,35"); ("finish", "-99,35")]%string in
  exists response w',
    route_distance (math := Fixture.math) (py := Fixture.python)
      (services := Fixture.no_station_services) request Fixture.empty_world
    = (Ret response, w')
    /\ status response = 200%Z
    /\ route_distance (math := Fixture.math) (py := Fixture.python)
         (services := Fixture.no_station_services) request w'
       = (Ret response,
          mkWorld (cache w') (calls w' ++ [EvCacheGet "trip:v2:-100,35:-99,35:0"])).
Proof.
  intros request.
  pose (run := route_distance (math := Fixture.math) (py := Fixture.python)
                 (services := Fixture.no_station_services) request Fixture.empty_world).
  assert (E : run = (Ret (Fixture.value_of (JsonResponse ∅ 0) run), Fixture.world_of run))
    by (vm_compute; reflexivity).
  assert (S : status (Fixture.value_of (JsonResponse ∅ 0) run) = 200%Z)
    by (vm_compute; reflexivity).
  exists (Fixture.value_of (JsonResponse ∅ 0) run), (Fixture.world_of run).
  split; [exact E|]. split; [exact S|].
  exact (route_distance_repeat_from_cache (math := Fixture.math) (py := Fixture.python)
           (services := Fixture.no_station_services) request _ _ _ E S).
Defined.

(** ** The cache key *)

Lemma string_app_cons (x : ascii) (a b : string) : String x a +:+ b = String x (a +:+ b).
Proof. reflexivity. Qed.

Lemma string_app_empty (b : string) : "" +:+ b = b.
Proof. reflexivity. Qed.

Lemma string_app_assoc (a b c : string) : (a +:+ b) +:+ c = a +:+ (b +:+ c).
Proof.
  induction a as [|x a IH]; [reflexivity|].
  rewrite !string_app_cons, IH. reflexivity.
Qed.

Lemma string_app_not_empty (a : string) (x : ascii) : a +:+ String x "" <> ""%string.
Proof. destruct a; [rewrite string_app_empty | rewrite string_app_cons]; discriminate. Qed.

Lemma last_character_differs (p q : string) (x y : ascii) :
  x <> y -> p +:+ String x "" <> q +:+ String y "".
Proof.
  intros N. revert q. induction p as [|c p IH]; intros [|d q];
    rewrite ?string_app_cons, ?string_app_empty.
  - congruence.
  - intros [= _ E]. symmetry in E. exact (string_app_not_empty _ _ E).
  - intros [= _ E]. exact (string_app_not_empty _ _ E).
  - intros [= _ E]. exact (IH _ E).
Qed.


(** ** Segments and purchased fuel *)

Lemma py_round_comp (x y : Q) (ndigits : nat) : x == y -> py_round x ndigits = py_round y ndigits.
Proof.
  intros E. unfold py_round. f_equal. f_equal. unfold round_half_even.
  set (scale := inject_Z (10 ^ Z.of_nat ndigits)).
  assert (E' : x * scale == y * scale) by (rewrite E; reflexivity).
  rewrite (Qfloor_comp _ _ E').
  assert (R : forall a b c, a == b -> Qltb a c = Qltb b c /\ Qltb c a = Qltb c b).
  { intros a b c Eab. unfold Qltb. split; f_equal.
    - apply Qleb_comp; [reflexivity | exact Eab].
    - apply Qleb_comp; [exact Eab | reflexivity]. }
  assert (D : x * scale - inject_Z (Qfloor (y * scale))
              == y * scale - inject_Z (Qfloor (y * scale))) by (rewrite E'; reflexivity).
  destruct (R _ _ (1 # 2) D) as [-> ->]. reflexivity.
Qed.

Lemma markers_from_segments (marker total_miles : Q) :
  Qsum (map (fun m => py_min2 MAX_RANGE_MILES (total_miles - m))
            (markers_from marker total_miles))
  == py_max2 (total_miles - marker) 0.
Proof.
  funelim (markers_from marker total_miles).
  - simpl. rewrite H. clear H. unfold py_min2, py_max2, MAX_RANGE_MILES.
    repeat match goal with
           | |- context [Qltb ?a ?b] =>
               let E := fresh "E" in
               destruct (Qltb a b) eqn:E;
               [apply Qltb_true in E | apply Qltb_false in E]
           end; lra.
  - simpl. unfold py_max2.
    destruct (Qltb (total_miles - marker) 0) eqn:E;
      [reflexivity | apply Qltb_false in E; lra].
Qed.

Lemma waypoint_segments_sum (total_miles : Q) (start_with_full_tank : bool) :
  Qsum (map (fun m => py_min2 MAX_RANGE_MILES (total_miles - m))
            (_build_waypoint_markers total_miles start_with_full_tank))
  == py_max2 (total_miles - (if start_with_full_tank then MAX_RANGE_MILES else 0)) 0.
Proof.
  unfold _build_waypoint_markers. destruct (Qleb total_miles 0) eqn:Z.
  - apply Qleb_true in Z. simpl. unfold py_max2, MAX_RANGE_MILES.
    destruct start_with_full_tank;
      match goal with
      | |- context [Qltb ?a ?b] =>
          let E := fresh "E" in
          destruct (Qltb a b) eqn:E; [apply Qltb_true in E | apply Qltb_false in E]
      end; lra.
  - apply markers_from_segments.
Qed.

(** X11. The segment distances [min(500, total - marker)] of the waypoint
    markers add up to the purchasable distance [max(total - first, 0)], where
    [first] is 500 with a full starting tank and 0 otherwise; so the purchased
    gallons a plan reports are the sum of the unrounded gallons of its
    stops. *)
Theorem segments_cover_purchasable_distance
    {math : MathLib} {py : PyLib} {services : Collaborators}
    (start_raw finish_raw : pyval) (start_with_full_tank : bool)
    (w w' : World) (plan : gmap string pyval) :
  _build_trip_plan start_raw finish_raw start_with_full_tank w = (Ret plan, w') ->
  exists run,
    trip_run start_raw finish_raw start_with_full_tank w w' plan run
    /\ Qsum (map (fun m => py_min2 MAX_RANGE_MILES (run_total run - m)) (run_waypoints run))
       == py_max2 (run_total run - (if start_with_full_tank then MAX_RANGE_MILES else 0)) 0
    /\ plan_summary plan "total_fuel_purchased_gallons"
       = Some (PNum (py_round
                       (Qsum (map (fun m => py_min2 MAX_RANGE_MILES (run_total run - m) / MPG)
                                  (run_waypoints run))) 2)).
Proof.
  intros B. destruct (build_trip_plan_run _ _ _ _ _ _ B) as (run & Run).
  exists run. split; [exact Run|].
  destruct Run as (w1 & w2 & decoded & _ & _ & _ & _ & _ & _ & _ & Ew & L & ->).
  assert (S : Qsum (map (fun m => py_min2 MAX_RANGE_MILES (run_total run - m))
                        (run_waypoints run))
              == py_max2 (run_total run
                          - (if start_with_full_tank then MAX_RANGE_MILES else 0)) 0).
  { rewrite Ew. apply waypoint_segments_sum. }
  split; [exact S|].
  assert (G : forall l : list Q,
            Qsum (map (fun m => py_min2 MAX_RANGE_MILES (run_total run - m) / MPG) l)
            == Qsum (map (fun m => py_min2 MAX_RANGE_MILES (run_total run - m)) l) / MPG).
  { induction l as [|x l IH]; simpl; [reflexivity|]. rewrite IH. unfold MPG. field. }
  assert (P : plan_summary
                (assemble_plan start_raw finish_raw start_with_full_tank
                   (run_start_coords run) (run_finish_coords run) (run_polyline run)
                   (run_total run) (run_state run)) "total_fuel_purchased_gallons"
              = Some (PNum (py_round
                              (py_max2 (run_total run
                                        - (if start_with_full_tank
                                           then MAX_RANGE_MILES else 0.0)) 0.0 / MPG) 2))).
  { unfold assemble_plan, plan_summary.
    destruct (missing_station_markers (run_state run)).
    - reflexivity.
    - rewrite lookup_insert_ne by discriminate. reflexivity. }
  rewrite P. f_equal. f_equal. apply py_round_comp.
  rewrite (G (run_waypoints run)), S.
  apply Qmult_comp; [|reflexivity].
  unfold py_max2, MAX_RANGE_MILES.
  destruct start_with_full_tank;
    repeat match goal with
           | |- context [Qltb ?a ?b] =>
               let E := fresh "E" in
               destruct (Qltb a b) eqn:E;
               [apply Qltb_true in E | apply Qltb_false in E]
           end; lra.
Qed.

Lemma segments_cover_purchasable_distance_witness :
  exists plan w',
    _build_trip_plan (math := Fixture.math) (py := Fixture.python)
      (services := Fixture.test_services)
      (PStr "-120,35") (PStr "-90,35") true Fixture.empty_world = (Ret plan, w')
    /\ exists run,
         trip_run (math := Fixture.math) (py := Fixture.python)
           (services := Fixture.test_services)
           (PStr "-120,35") (PStr "-90,35") true Fixture.empty_world w' plan run
         /\ Qsum (map (fun m => py_min2 MAX_RANGE_MILES (run_total run - m))
                      (run_waypoints run))
            == py_max2 (run_total run - (if true then MAX_RANGE_MILES else 0)) 0
         /\ plan_summary plan "total_fuel_purchased_gallons"
            = Some (PNum (py_round
                            (Qsum (map (fun m => py_min2 MAX_RANGE_MILES (run_total run - m) / MPG)
                                       (run_waypoints run))) 2)).
Proof.
  pose (run := _build_trip_plan (math := Fixture.math) (py := Fixture.python)
                 (services := Fixture.test_services)
                 (PStr "-120,35") (PStr "-90,35") true Fixture.empty_world).
  assert (E : run = (Ret (Fixture.value_of ∅ run), Fixture.world_of run))
    by (vm_compute; reflexivity).
  exists (Fixture.value_of ∅ run), (Fixture.world_of run).
  split; [exact E|].
  exact (segments_cover_purchasable_distance (math := Fixture.math) (py := Fixture.python)
           (services := Fixture.test_services) _ _ _ _ _ _ E).
Defined.

(** ** Estimated stops and the warning *)

Lemma stops_loop_without_stations (total : Q) (waypoints : list Q) (order : Z)
    (st st' : LoopState) :
  Forall (fun m => m < total) waypoints ->
  stops_loop [] total order waypoints st = Ret st' ->
  total_cost st' = total_cost st
  /\ missing_station_markers st'
     = missing_station_markers st ++ map (fun m => py_round m 2) waypoints.
Proof.
  revert order st. induction waypoints as [|marker rest IH]; intros order st F E; simpl in E.
  - injection E as <-. rewrite app_nil_r. split; reflexivity.
  - rewrite (segment_positive _ _ (Forall_inv F)) in E. simpl in E.
    destruct (IH _ _ (Forall_inv_tail F) E) as (C & Mi).
    cbn [total_cost missing_station_markers] in C, Mi.
    split; [exact C|]. rewrite Mi, <- app_assoc. reflexivity.
Qed.

Lemma stops_loop_with_stations (mapped : list MappedStation) (total : Q)
    (waypoints : list Q) (order : Z) (st st' : LoopState) :
  mapped <> [] ->
  stops_loop mapped total order waypoints st = Ret st' ->
  missing_station_markers st' = missing_station_markers st.
Proof.
  intros N. revert order st.
  induction waypoints as [|marker rest IH]; intros order st E; simpl in E.
  - injection E as <-. reflexivity.
  - destruct (Qleb _ 0); [exact (IH _ _ E)|].
    destruct (select_station_spec mapped marker (previous_marker st)) as ([s|] & Sel & Spec).
    + rewrite Sel in E. simpl in E. exact (IH _ _ E).
    + simpl in Spec. contradiction.
Qed.

Lemma filter_all {A : Type} (f : A -> bool) (l : list A) :
  Forall (fun x => f x = true) l -> List.filter f l = l.
Proof.
  induction 1 as [|x l Hx _ IH]; simpl; [reflexivity|]. rewrite Hx, IH. reflexivity.
Qed.

Lemma filter_none {A : Type} (f : A -> bool) (l : list A) :
  Forall (fun x => f x = false) l -> List.filter f l = [].
Proof.
  induction 1 as [|x l Hx _ IH]; simpl; [reflexivity|]. rewrite Hx, IH. reflexivity.
Qed.

Lemma assemble_plan_warnings
    {py : PyLib}
    (start_raw finish_raw : pyval) (start_with_full_tank : bool)
    (start_coords finish_coords : Q * Q) (encoded_polyline : option string)
    (total_distance_miles : Q) (st : LoopState) :
  let plan :=
    assemble_plan start_raw finish_raw start_with_full_tank start_coords finish_coords
      encoded_polyline total_distance_miles st in
  match missing_station_markers st with
  | [] => plan !! "warnings" = None
  | _ :: _ =>
      exists warnings,
        plan !! "warnings" = Some (PDict warnings)
        /\ warnings !! "missing_station_markers_miles"
           = Some (PList (map PNum (missing_station_markers st)))
  end.
Proof.
  unfold assemble_plan. destruct (missing_station_markers st) as [|m ms].
  - reflexivity.
  - eexists. rewrite lookup_insert_eq. split; reflexivity.
Qed.

(** X12. A plan never mixes estimated stops and station stops.  When the
    corridor holds no station, every stop is an estimate with a note and no
    station, no stop is counted, the cost is the rounding of zero, and the
    plan carries a warning listing every marker (no warning when there is no
    stop at all).  When the corridor holds a station, every stop names a
    station, every stop is counted and the plan has no warning. *)
Theorem stops_all_estimated_or_all_stations
    {math : MathLib} {py : PyLib} {services : Collaborators}
    (start_raw finish_raw : pyval) (start_with_full_tank : bool)
    (w w' : World) (plan : gmap string pyval) :
  _build_trip_plan start_raw finish_raw start_with_full_tank w = (Ret plan, w') ->
  exists run stops,
    trip_run start_raw finish_raw start_with_full_tank w w' plan run
    /\ plan_fuel_stops plan = Some (map PDict stops)
    /\ length stops = length (run_waypoints run)
    /\ match run_mapped run with
       | [] =>
           Forall (fun stop => has_key stop "note" = true /\ has_key stop "name" = false) stops
           /\ plan_summary plan "number_of_fuel_stops" = Some (PInt 0)
           /\ plan_summary plan "total_fuel_cost_usd" = Some (PNum (py_round 0.0 2))
           /\ match run_waypoints run with
              | [] => plan !! "warnings" = None
              | _ :: _ =>
                  exists warnings,
                    plan !! "warnings" = Some (PDict warnings)
                    /\ warnings !! "missing_station_markers_miles"
                       = Some (PList (map (fun m => PNum (py_round m 2)) (run_waypoints run)))
              end
       | _ :: _ =>
           Forall (fun stop => has_key stop "name" = true /\ has_key stop "note" = false) stops
           /\ plan_summary plan "number_of_fuel_stops"
              = Some (PInt (Z.of_nat (length (run_waypoints run))))
           /\ plan !! "warnings" = None
       end.
Proof.
  intros B. destruct (build_trip_plan_run _ _ _ _ _ _ B) as (run & Run).
  exists run, (fuel_stops (run_state run)). split; [exact Run|].
  destruct Run as (w1 & w2 & decoded & _ & _ & _ & _ & _ & _ & _ & Ew & L & ->).
  pose proof (waypoint_markers_below (run_total run) start_with_full_tank) as Below.
  rewrite <- Ew in Below.
  destruct (stops_loop_entries _ _ _ _ _ _ Below L) as (new & Fs & Len & Each).
  cbn [fuel_stops previous_marker] in Fs, Each. simpl in Fs. subst new.
  pose proof (assemble_plan_summary start_raw finish_raw start_with_full_tank
                (run_start_coords run) (run_finish_coords run) (run_polyline run)
                (run_total run) (run_state run)) as Sm.
  cbv zeta in Sm. destruct Sm as (_ & Cost & Count & Stops).
  pose proof (assemble_plan_warnings start_raw finish_raw start_with_full_tank
                (run_start_coords run) (run_finish_coords run) (run_polyline run)
                (run_total run) (run_state run)) as Wn.
  cbv zeta in Wn.
  split; [exact Stops|]. split; [exact Len|].
  destruct (run_mapped run) as [|m0 ms] eqn:Em.
  - assert (Notes : Forall (fun stop => has_key stop "note" = true
                                        /\ has_key stop "name" = false)
                           (fuel_stops (run_state run))).
    { apply List.Forall_forall. intros stop I.
      destruct (In_nth_error _ _ I) as (i & Hi).
      assert (Li : fuel_stops (run_state run) !! i = Some stop).
      { clear -Hi. revert i Hi. induction (fuel_stops (run_state run)) as [|x l IH];
          intros [|i] Hi; simpl in *; try discriminate; [exact Hi | exact (IH _ Hi)]. }
      destruct (Each _ _ Li) as (marker & _ & _ & _ & _ & [(_ & _ & s & Sel) | (Nn & Nt & _)]).
      - simpl in Sel. discriminate.
      - split; assumption. }
    destruct (stops_loop_without_stations _ _ _ _ _ Below L) as (C & Mi).
    cbn [total_cost missing_station_markers] in C, Mi. simpl in Mi.
    split; [exact Notes|].
    split.
    { rewrite Count. rewrite filter_none; [reflexivity|].
      eapply List.Forall_impl; [|exact Notes]. intros stop [_ Nn]. exact Nn. }
    split; [rewrite Cost, C; reflexivity|].
    rewrite Mi in Wn. destruct (run_waypoints run) as [|m1 rest]; simpl in Wn.
    + exact Wn.
    + destruct Wn as (warnings & W1 & W2). exists warnings. split; [exact W1|].
      rewrite W2. simpl. rewrite map_map. reflexivity.
  - assert (N : m0 :: ms <> []) by discriminate.
    assert (Names : Forall (fun stop => has_key stop "name" = true
                                        /\ has_key stop "note" = false)
                           (fuel_stops (run_state run))).
    { apply List.Forall_forall. intros stop I.
      destruct (In_nth_error _ _ I) as (i & Hi).
      assert (Li : fuel_stops (run_state run) !! i = Some stop).
      { clear -Hi. revert i Hi. induction (fuel_stops (run_state run)) as [|x l IH];
          intros [|i] Hi; simpl in *; try discriminate; [exact Hi | exact (IH _ Hi)]. }
      destruct (Each _ _ Li) as (marker & _ & _ & _ & _ & [(Nn & Nt & _) | (_ & _ & Sel)]).
      - split; assumption.
      - destruct (select_station_spec (m0 :: ms) marker
                    (previous_from (- MAX_RANGE_MILES) (run_waypoints run) i))
          as (r & Sel' & Spec).
        rewrite Sel in Sel'. injection Sel' as <-. simpl in Spec. discriminate. }
    split; [exact Names|].
    split.
    { rewrite Count. rewrite filter_all; [rewrite Len; reflexivity|].
      eapply List.Forall_impl; [|exact Names]. intros stop [Nn _]. exact Nn. }
    rewrite (stops_loop_with_stations _ _ _ _ _ _ N L) in Wn. exact Wn.
Qed.

Lemma stops_all_estimated_or_all_stations_witness :
  exists plan w',
    _build_trip_plan (math := Fixture.math) (py := Fixture.python)
      (services := Fixture.no_station_services)
      (PStr "-100,35") (PStr "-99,35") false Fixture.empty_world = (Ret plan, w')
    /\ exists run stops,
         trip_run (math := Fixture.math) (py := Fixture.python)
           (services := Fixture.no_station_services)
           (PStr "-100,35") (PStr "-99,35") false Fixture.empty_world w' plan run
         /\ plan_fuel_stops plan = Some (map PDict stops)
         /\ length stops = length (run_waypoints run)
         /\ match run_mapped run with
            | [] =>
                Forall (fun stop => has_key stop "note" = true /\ has_key stop "name" = false)
                       stops
                /\ plan_summary plan "number_of_fuel_stops" = Some (PInt 0)
                /\ plan_summary plan "total_fuel_cost_usd" = Some (PNum (py_round 0.0 2))
                /\ match run_waypoints run with
                   | [] => plan !! "warnings" = None
                   | _ :: _ =>
                       exists warnings,
                         plan !! "warnings" = Some (PDict warnings)
                         /\ warnings !! "missing_station_markers_miles"
                            = Some (PList (map (fun m => PNum (py_round m 2))
                                               (run_waypoints run)))
                   end
            | _ :: _ =>
                Forall (fun stop => has_key stop "name" = true /\ has_key stop "note" = false)
                       stops
                /\ plan_summary plan "number_of_fuel_stops"
                   = Some (PInt (Z.of_nat (length (run_waypoints run))))
                /\ plan !! "warnings" = None
            end.
Proof.
  pose (run := _build_trip_plan (math := Fixture.math) (py := Fixture.python)
                 (services := Fixture.no_station_services)
                 (PStr "-100,35") (PStr "-99,35") false Fixture.empty_world).
  assert (E : run = (Ret (Fixture.value_of ∅ run), Fixture.world_of run))
    by (vm_compute; reflexivity).
  exists (Fixture.value_of ∅ run), (Fixture.world_of run).
  split; [exact E|].
  exact (stops_all_estimated_or_all_stations (math := Fixture.math) (py := Fixture.python)
           (services := Fixture.no_station_services) _ _ _ _ _ _ E).
Defined.

(** ** The corridor as a selection from the station table *)

Lemma filter_sublist {A : Type} (f : A -> bool) (l : list A) : sublist (List.filter f l) l.
Proof.
  induction l as [|x l IH]; simpl; [constructor|].
  destruct (f x); [apply sublist_skip | apply sublist_cons]; exact IH.
Qed.

Lemma map_candidates_sublist {math : MathLib} (route_points : list (Q * Q))
    (cumulative : list Q) (sampled_indexes : list nat) (candidates : list Station)
    (mapped : list MappedStation) :
  map_candidates route_points cumulative sampled_indexes candidates = Ret mapped ->
  sublist (map station_of mapped) candidates.
Proof.
  revert mapped. induction candidates as [|station rest IH]; intros mapped E; simpl in E.
  - injection E as <-. constructor.
  - destruct (nearest_sample station route_points sampled_indexes None 0%nat)
      as [[d i]|e]; simpl in E; [|discriminate].
    destruct (best_within d CORRIDOR_RADIUS_MILES).
    + destruct (cumulative !! i) as [mile|]; [|discriminate].
      destruct d as [distance|]; [|discriminate].
      destruct (map_candidates route_points cumulative sampled_indexes rest) as [tail|];
        simpl in E; [|discriminate].
      injection E as <-. simpl. apply sublist_skip. apply IH. reflexivity.
    + apply sublist_cons. apply IH. exact E.
Qed.

Lemma map_candidates_complete {math : MathLib} (route_points : list (Q * Q))
    (cumulative : list Q) (sampled_indexes : list nat) (candidates : list Station)
    (mapped : list MappedStation) (station : Station) (d : Q) (i : nat) :
  map_candidates route_points cumulative sampled_indexes candidates = Ret mapped ->
  In station candidates ->
  nearest_sample station route_points sampled_indexes None 0%nat = Ret (Some d, i) ->
  d <= CORRIDOR_RADIUS_MILES ->
  exists mile, cumulative !! i = Some mile /\ In (mkMapped station mile d) mapped.
Proof.
  intros E I N D. revert mapped E.
  induction candidates as [|c rest IH]; intros mapped E; [destruct I|].
  simpl in E.
  destruct (nearest_sample c route_points sampled_indexes None 0%nat)
    as [[dc ic]|e] eqn:Nc; simpl in E; [|discriminate].
  destruct (best_within dc CORRIDOR_RADIUS_MILES) eqn:Bw.
  - destruct (cumulative !! ic) as [mile|] eqn:Cu; [|discriminate].
    destruct dc as [distance|]; [|discriminate].
    destruct (map_candidates route_points cumulative sampled_indexes rest) as [tail|];
      simpl in E; [|discriminate].
    injection E as <-. destruct I as [-> | I].
    + rewrite N in Nc. injection Nc as <- <-. exists mile. split; [exact Cu|]. left. reflexivity.
    + destruct (IH I tail eq_refl) as (mile' & Cu' & In'). exists mile'.
      split; [exact Cu'|]. right. exact In'.
  - destruct I as [-> | I].
    + rewrite N in Nc. injection Nc as <- <-. simpl in Bw.
      apply Qleb_false in Bw. lra.
    + exact (IH I mapped E).
Qed.

(** X13. The stations mapped to a route are a selection from the table rows
    that have both coordinates: they keep the order of the table and no row
    is taken twice.  Each lies inside the bounding box of the route padded by
    45 miles.  Conversely every such row inside the box whose nearest sampled
    route point is within 25 miles is mapped, at the cumulative mile of that
    point. *)
Theorem corridor_stations_from_table
    {math : MathLib} {services : Collaborators}
    (route_points : list (Q * Q)) (cumulative : list Q) (w w' : World)
    (mapped : list MappedStation) :
  _map_stations_to_route route_points cumulative w = (Ret mapped, w') ->
  sublist (map station_of mapped) eligible_stations
  /\ (forall box,
        _route_bbox route_points (CORRIDOR_RADIUS_MILES + 20.0) = Ret box ->
        Forall (fun m => inside_box box (station_of m)) mapped)
  /\ (forall box sampled_indexes station d i,
        _route_bbox route_points (CORRIDOR_RADIUS_MILES + 20.0) = Ret box ->
        sampled_indexes_of (length route_points) = Ret sampled_indexes ->
        In station eligible_stations ->
        inside_box box station ->
        nearest_sample station route_points sampled_indexes None 0%nat = Ret (Some d, i) ->
        d <= CORRIDOR_RADIUS_MILES ->
        exists mile, cumulative !! i = Some mile /\ In (mkMapped station mile d) mapped).
Proof.
  unfold _map_stations_to_route. destruct route_points as [|p0 ps] eqn:Er.
  - intros [= <- _]. split; [apply sublist_nil_l|]. split.
    + intros box _. constructor.
    + intros box sampled station d i B. discriminate B.
  - rewrite <- Er. unfold mbind, M_bind, liftM.
    destruct (_route_bbox route_points _) as [[[[lat_min lat_max] lon_min] lon_max]|] eqn:B;
      [|discriminate].
    unfold _load_station_rows, emit, mbind, M_bind, mret, M_ret. cbn beta iota.
    fold eligible_stations.
    set (inside := fun station : Station =>
           Qleb lat_min (latitude station) && Qleb (latitude station) lat_max
           && Qleb lon_min (longitude station) && Qleb (longitude station) lon_max).
    assert (Box : forall station,
              inside station = true <-> inside_box (lat_min, lat_max, lon_min, lon_max) station).
    { intros station. unfold inside, inside_box.
      rewrite !andb_true_iff, !Qleb_true. tauto. }
    pose proof (filter_sublist inside eligible_stations) as Sub.
    pose proof (fun station => List.filter_In inside station eligible_stations) as FIn.
    destruct (List.filter inside eligible_stations) as [|c cs] eqn:C.
    + intros [= <- _]. split; [apply sublist_nil_l|]. split.
      * intros box _. constructor.
      * intros box sampled station d i [= <-] _ I Ib _ _.
        destruct (proj2 (FIn station) (conj I (proj2 (Box station) Ib))).
    + destruct (sampled_indexes_of (length route_points)) as [sampled|]; [|discriminate].
      destruct (map_candidates route_points cumulative sampled (c :: cs)) as [l|] eqn:E;
        [|discriminate].
      intros [= <- _].
      pose proof (map_candidates_sublist _ _ _ _ _ E) as Sl.
      split; [etransitivity; [exact Sl | exact Sub]|]. split.
      * intros box [= <-]. apply List.Forall_forall. intros m Im.
        apply Box. apply (FIn (station_of m)).
        apply list_elem_of_In. eapply elem_of_sublist; [|exact Sl].
        apply list_elem_of_In. apply in_map. exact Im.
      * intros box sampled' station d i [= <-] [= <-] I Ib N D.
        apply (map_candidates_complete _ _ _ _ _ _ _ _ E); [|exact N|exact D].
        apply FIn. split; [exact I | apply Box; exact Ib].
Qed.

Lemma corridor_stations_from_table_witness :
  let cumulative := _build_cumulative_miles (math := Fixture.math) Fixture.hop_route in
  exists mapped w',
    _map_stations_to_route (math := Fixture.math) (services := Fixture.short_hop_services)
      Fixture.hop_route cumulative Fixture.empty_world = (Ret mapped, w')
    /\ sublist (map station_of mapped)
               (eligible_stations (services := Fixture.short_hop_services))
    /\ (forall box,
          _route_bbox (math := Fixture.math) Fixture.hop_route (CORRIDOR_RADIUS_MILES + 20.0)
          = Ret box ->
          Forall (fun m => inside_box box (station_of m)) mapped)
    /\ (forall box sampled_indexes station d i,
          _route_bbox (math := Fixture.math) Fixture.hop_route (CORRIDOR_RADIUS_MILES + 20.0)
          = Ret box ->
          sampled_indexes_of (length Fixture.hop_route) = Ret sampled_indexes ->
          In station (eligible_stations (services := Fixture.short_hop_services)) ->
          inside_box box station ->
          nearest_sample (math := Fixture.math) station Fixture.hop_route sampled_indexes
            None 0%nat = Ret (Some d, i) ->
          d <= CORRIDOR_RADIUS_MILES ->
          exists mile, cumulative !! i = Some mile /\ In (mkMapped station mile d) mapped).
Proof.
  intros cumulative.
  pose (run := _map_stations_to_route (math := Fixture.math)
                 (services := Fixture.short_hop_services)
                 Fixture.hop_route cumulative Fixture.empty_world).
  assert (E : run = (Ret (Fixture.value_of [] run), Fixture.world_of run))
    by (vm_compute; reflexivity).
  exists (Fixture.value_of [] run), (Fixture.world_of run).
  split; [exact E|].
  exact (corridor_stations_from_table (math := Fixture.math)
           (services := Fixture.short_hop_services) _ _ _ _ _ E).
Defined.

(** ** What the selected station guarantees *)

Lemma kept_complete {A : Type} (P : A -> Prop) (l k : list A) (x : A) :
  kept P l k -> In x l -> P x -> In x k.
Proof.
  induction 1 as [|y l k Py K IH|y l k Py K IH]; simpl; intros I Px.
  - contradiction.
  - destruct I as [-> | I]; [left; reflexivity | right; exact (IH I Px)].
  - destruct I as [-> | I]; [contradiction | exact (IH I Px)].
Qed.

Lemma first_minimizer_least {A : Type} (score : A -> Q) (pool : list A) (s x : A) :
  first_minimizer score pool s -> In x pool -> score s <= score x.
Proof.
  intros (before & after & -> & B & Af) I.
  apply in_app_or in I. destruct I as [I | [<- | I]].
  - rewrite List.Forall_forall in B. apply Qlt_le_weak. exact (B x I).
  - apply Qle_refl.
  - rewrite List.Forall_forall in Af. exact (Af x I).
Qed.

Lemma selection_pool (mapped : list MappedStation) (marker previous_marker : Q)
    (pool : list MappedStation) (s x : MappedStation) :
  spec_pool mapped marker previous_marker pool ->
  In s pool ->
  In x mapped ->
  (spec_not_behind previous_marker x -> spec_not_behind previous_marker s)
  /\ (forall window,
        In window spec_windows ->
        spec_in_window marker previous_marker window x ->
        Qabs (route_mile s - marker) <= window)
  /\ (spec_not_behind previous_marker x ->
      Qabs (route_mile x - marker) <= Qabs (route_mile s - marker) ->
      In x pool).
Proof.
  intros P Is Ix.
  destruct P as [earlier window later pool W Fe K N | pool Fw K N | Fw K].
  - destruct (kept_sublist _ _ _ _ K Is) as (_ & Sw & Sb).
    split; [intros _; exact Sb|]. split.
    + intros window' Iw Xw.
      assert (Earlier : forall e, In e earlier -> window' <> e).
      { intros e Ie ->. rewrite List.Forall_forall in Fe.
        exact (kept_complete _ _ _ _ (Fe e Ie) Ix Xw). }
      unfold spec_windows in W, Iw.
      destruct earlier as [|e1 [|e2 [|e3 [|e4 [|e5 rest]]]]]; simpl in W;
        injection W; intros; subst;
        simpl in Iw;
        repeat match goal with
               | H : _ \/ _ |- _ => destruct H as [H | H]
               | H : False |- _ => destruct H
               end;
        subst;
        try (exfalso; eapply Earlier; [|reflexivity]; simpl; tauto);
        try lra.
      all: try discriminate.
    + intros Xb Near. apply (kept_complete _ _ _ _ K Ix).
      split; [lra | exact Xb].
  - destruct (kept_sublist _ _ _ _ K Is) as (_ & Sb).
    split; [intros _; exact Sb|]. split.
    + intros window Iw Xw. rewrite List.Forall_forall in Fw.
      destruct (kept_complete _ _ _ _ (Fw window Iw) Ix Xw).
    + intros Xb _. exact (kept_complete _ _ _ _ K Ix Xb).
  - split; [intros Xb; destruct (kept_complete _ _ _ _ K Ix Xb)|]. split.
    + intros window Iw Xw. rewrite List.Forall_forall in Fw.
      destruct (kept_complete _ _ _ _ (Fw window Iw) Ix Xw).
    + intros _ _. exact Ix.
Qed.

(** X14. The station the selector returns is one of the mapped stations and
    is the best reachable choice in three ways.  It is not behind the
    previous marker by more than 40 miles whenever some mapped station is not.
    It lies within every search window (60, 120, 200, 320 miles) that
    contains a mapped station that is not behind.  And no mapped station that
    is not behind and at least as near to the marker has a smaller score. *)
Theorem selected_station_guarantees
    (mapped : list MappedStation) (marker previous_marker : Q) (s : MappedStation) :
  _select_station mapped marker previous_marker = Ret (Some s) ->
  In s mapped
  /\ forall x,
       In x mapped ->
       previous_marker - 40 <= route_mile x ->
       previous_marker - 40 <= route_mile s
       /\ (forall window,
             In window WAYPOINT_WINDOWS_MILES ->
             Qabs (route_mile x - marker) <= window ->
             Qabs (route_mile s - marker) <= window)
       /\ (Qabs (route_mile x - marker) <= Qabs (route_mile s - marker) ->
           _score_station s marker <= _score_station x marker).
Proof.
  intros Sel.
  destruct (select_station_spec mapped marker previous_marker) as (r & E & Spec).
  rewrite Sel in E. injection E as <-. simpl in Spec.
  destruct Spec as (_ & pool & P & M).
  pose proof (first_minimizer_in _ _ _ M) as Is.
  assert (Im : In s mapped).
  { destruct P as [e wd l pool _ _ K _ | pool _ K _ | _ _]; try assumption;
      apply (kept_sublist _ _ _ _ K Is). }
  split; [exact Im|].
  intros x Ix Xb.
  destruct (selection_pool _ _ _ _ _ _ P Is Ix) as (Nb & Win & Pool).
  split; [exact (Nb Xb)|]. split.
  - intros window Iw Near. apply (Win window Iw). split; [exact Near | exact Xb].
  - intros Near. rewrite !score_station_spec.
    apply (first_minimizer_least _ _ _ _ M). exact (Pool Xb Near).
Qed.

Lemma selected_station_guarantees_witness :
  let near := mkMapped (mkStation "Near" "Amarillo" "TX" 3.5 35.2 (-101.8)) 510 2 in
  let far := mkMapped (mkStation "Far" "Tulsa" "OK" 2.9 36.1 (-95.9)) 700 1 in
  _select_station [far; near] 500 0 = Ret (Some near)
  /\ In near [far; near]
  /\ forall x,
       In x [far; near] ->
       0 - 40 <= route_mile x ->
       0 - 40 <= route_mile near
       /\ (forall window,
             In window WAYPOINT_WINDOWS_MILES ->
             Qabs (route_mile x - 500) <= window ->
             Qabs (route_mile near - 500) <= window)
       /\ (Qabs (route_mile x - 500) <= Qabs (route_mile near - 500) ->
           _score_station near 500 <= _score_station x 500).
Proof.
  intros near far.
  assert (E : _select_station [far; near] 500 0 = Ret (Some near)) by reflexivity.
  split; [exact E|].
  exact (selected_station_guarantees [far; near] 500 0 near E).
Defined.

(** ** The [/map/] handler *)

Lemma map_stop_gap (order : Z) (marker segment_distance : Q) :
  map_stop (PDict (gap_stop order marker segment_distance)) = Done None
  /\ has_key (gap_stop order marker segment_distance) "name" = false.
Proof. split; reflexivity. Qed.

Lemma map_stop_station (order : Z) (marker segment_distance : Q) (station : MappedStation)
    (gallons segment_cost : Q) :
  let stop := station_stop order marker segment_distance station gallons segment_cost in
  map_stop (PDict stop) = Done (Some (map_entry stop))
  /\ has_key stop "name" = true.
Proof. split; reflexivity. Qed.

(** Every stop the loop adds is one of the two dict literals of the source,
    so [map_view] reads each of them without a [KeyError]. *)
Lemma stops_loop_readable (mapped : list MappedStation) (total : Q) (waypoints : list Q)
    (order : Z) (st st' : LoopState) :
  Forall (fun stop =>
            map_stop (PDict stop)
            = Done (if has_key stop "name" then Some (map_entry stop) else None))
         (fuel_stops st) ->
  stops_loop mapped total order waypoints st = Ret st' ->
  Forall (fun stop =>
            map_stop (PDict stop)
            = Done (if has_key stop "name" then Some (map_entry stop) else None))
         (fuel_stops st').
Proof.
  revert order st. induction waypoints as [|marker rest IH]; intros order st F E; simpl in E.
  - injection E as <-. exact F.
  - destruct (Qleb _ 0); [exact (IH _ _ F E)|].
    destruct (_select_station mapped marker (previous_marker st)) as [[s|]|e];
      simpl in E; [| |discriminate]; refine (IH _ _ _ E);
      cbn [fuel_stops]; apply Forall_app; (split; [exact F|]);
      (constructor; [reflexivity | constructor]).
Qed.

Lemma map_stops_of_readable (stops : list (gmap string pyval)) :
  Forall (fun stop =>
            map_stop (PDict stop)
            = Done (if has_key stop "name" then Some (map_entry stop) else None))
         stops ->
  map_stops_of (map PDict stops)
  = Done (map map_entry (List.filter (fun stop => has_key stop "name") stops)).
Proof.
  induction 1 as [|stop stops Hs _ IH]; [reflexivity|].
  cbn [map_stops_of map List.filter]. rewrite Hs, IH.
  destruct (has_key stop "name"); reflexivity.
Qed.

Lemma assemble_plan_entries {py : PyLib}
    (start_raw finish_raw : pyval) (start_with_full_tank : bool)
    (start_coords finish_coords : Q * Q) (encoded_polyline : option string)
    (total_distance_miles : Q) (st : LoopState) :
  let plan :=
    assemble_plan start_raw finish_raw start_with_full_tank start_coords finish_coords
      encoded_polyline total_distance_miles st in
  plan !! "fuel_stops" = Some (PList (map PDict (fuel_stops st)))
  /\ plan !! "start"
     = Some (PDict (mkdict [
         ("input", start_raw);
         ("coordinates",
          PDict (mkdict [("lon", PNum (fst start_coords)); ("lat", PNum (snd start_coords))]))
       ]))
  /\ plan !! "finish"
     = Some (PDict (mkdict [
         ("input", finish_raw);
         ("coordinates",
          PDict (mkdict [("lon", PNum (fst finish_coords)); ("lat", PNum (snd finish_coords))]))
       ])).
Proof.
  unfold assemble_plan. destruct (missing_station_markers st).
  - repeat split.
  - rewrite !lookup_insert_ne by discriminate. repeat split.
Qed.

Lemma render_map_plan {py : PyLib}
    (start_raw finish_raw : pyval) (start_with_full_tank : bool)
    (start_coords finish_coords : Q * Q) (encoded_polyline : option string)
    (total_distance_miles : Q) (st : LoopState) :
  Forall (fun stop =>
            map_stop (PDict stop)
            = Done (if has_key stop "name" then Some (map_entry stop) else None))
         (fuel_stops st) ->
  render_map
    (assemble_plan start_raw finish_raw start_with_full_tank start_coords finish_coords
       encoded_polyline total_distance_miles st)
  = Done (Rendered "routing/map.html"
            (mkdict [
               ("polyline", PStr (default ""%string encoded_polyline));
               ("fuel_stops",
                PStr (json_dumps
                        (PList (map PDict
                                  (map map_entry
                                     (List.filter (fun stop => has_key stop "name")
                                                  (fuel_stops st)))))));
               ("start_coords",
                PStr (json_dumps (PList [PNum (fst start_coords); PNum (snd start_coords)])));
               ("end_coords",
                PStr (json_dumps (PList [PNum (fst finish_coords); PNum (snd finish_coords)])))
             ])).
Proof.
  intros F.
  destruct (assemble_plan_entries start_raw finish_raw start_with_full_tank start_coords
              finish_coords encoded_polyline total_distance_miles st) as (Es & Est & Ef).
  pose proof (assemble_plan_polyline start_raw finish_raw start_with_full_tank start_coords
                finish_coords encoded_polyline total_distance_miles st) as Ep.
  assert (Sub : forall d key item, d !! key = Some item -> subscript (PDict d) key = Done item).
  { intros d key item L. unfold subscript. rewrite L. reflexivity. }
  assert (P : py_or (default PNone (Some (option_str encoded_polyline))) (PStr "")
              = PStr (default ""%string encoded_polyline)).
  { destruct encoded_polyline as [[|c p]|]; reflexivity. }
  unfold render_map, dict_get.
  rewrite (Sub _ _ _ Es), (Sub _ _ _ Est), (Sub _ _ _ Ef), Ep.
  cbn [mbind ViewResult_bind]. rewrite (map_stops_of_readable _ F).
  cbn [mbind ViewResult_bind]. cbv zeta.
  rewrite P. reflexivity.
Qed.



(** ** Instances of the statements above *)






(** ** Absent inputs *)

Lemma py_or_none (a b : pyval) :
  is_none (py_or a b) = true <-> truthy a = false /\ b = PNone.
Proof.
  unfold py_or. destruct (truthy a) eqn:T.
  - split; [|intros [? _]; discriminate].
    destruct a; simpl in *; discriminate.
  - rewrite is_none_true. tauto.
Qed.

Lemma extract_inputs_none {py : PyLib} (request : HttpRequest) :
  (is_none (fst (fst (_extract_inputs request))) = true <-> start_absent request)
  /\ (is_none (snd (fst (_extract_inputs request))) = true <-> finish_absent request).
Proof.
  unfold _extract_inputs, start_absent, finish_absent, query_get. cbn [fst snd]. split.
  - destruct (GET request !! "start") as [s|].
    + split; [discriminate | intros [? _]; discriminate].
    + rewrite py_or_none. tauto.
  - destruct (GET request !! "finish") as [s|].
    + split; [discriminate | intros [? _]; discriminate].
    + rewrite py_or_none.
      split.
      * intros [T E]. unfold py_or in T.
        destruct (truthy (dict_get (_parse_body request) "finish")) eqn:Tf;
          [congruence|]. tauto.
      * intros (_ & Tf & Te & E). unfold py_or. rewrite Tf. tauto.
Qed.



(** ** The total distance as a sum of legs *)

Lemma cumulative_from_last {math : MathLib} (previous : Q * Q) (rest : list (Q * Q))
    (last_value : Q) :
  exists final,
    last (last_value :: cumulative_from previous rest last_value) = Some final
    /\ final == last_value + Qsum (leg_distances (previous :: rest)).
Proof.
  revert previous last_value. induction rest as [|current rest IH]; intros previous last_value.
  - exists last_value. split; [reflexivity|]. simpl. lra.
  - destruct previous as [lat1 lon1], current as [lat2 lon2] eqn:Ec.
    destruct (IH (lat2, lon2) (last_value + _haversine_miles lat1 lon1 lat2 lon2))
      as (final & L & E).
    exists final. split.
    + cbn [cumulative_from]. rewrite <- L. reflexivity.
    + rewrite E. cbn [leg_distances fst snd Qsum fold_right].
      destruct rest; cbn [leg_distances fst snd Qsum fold_right]; lra.
Qed.

Lemma total_distance_legs {math : MathLib} (route_points : list (Q * Q)) (distance_meters : Q) :
  total_distance_of (_build_cumulative_miles route_points) distance_meters
  == Qsum (leg_distances route_points).
Proof.
  unfold total_distance_of, _build_cumulative_miles.
  destruct route_points as [|first rest]; [reflexivity|].
  destruct (cumulative_from_last first rest 0) as (final & L & E).
  rewrite L, E. lra.
Qed.

(** X17. The total distance of a plan is the sum of the haversine distances
    between consecutive route points; the distance the router reports does
    not enter it.  When the router gives no decoded path the route is the two
    end points, read as [(lat, lon)] from the [[lon, lat]] inputs, and the
    total is the haversine distance from start to finish.  The summary shows
    this total rounded to 2 decimals. *)
Theorem total_distance_sums_legs
    {math : MathLib} {py : PyLib} {services : Collaborators}
    (start_raw finish_raw : pyval) (start_with_full_tank : bool)
    (w w' : World) (plan : gmap string pyval) :
  _build_trip_plan start_raw finish_raw start_with_full_tank w = (Ret plan, w') ->
  exists run,
    trip_run start_raw finish_raw start_with_full_tank w w' plan run
    /\ run_total run == Qsum (leg_distances (run_route_points run))
    /\ plan_summary plan "total_distance_miles"
       = Some (PNum (py_round (Qsum (leg_distances (run_route_points run))) 2))
    /\ (snd (get_route (run_start_coords run) (run_finish_coords run)) = [] ->
        run_total run
        == _haversine_miles (snd (run_start_coords run)) (fst (run_start_coords run))
                            (snd (run_finish_coords run)) (fst (run_finish_coords run))).
Proof.
  intros B. destruct (build_trip_plan_run _ _ _ _ _ _ B) as (run & Run).
  exists run. split; [exact Run|].
  destruct Run as (w1 & w2 & decoded & _ & _ & G & Rp & Cu & Tot & _ & _ & _ & ->).
  assert (T : run_total run == Qsum (leg_distances (run_route_points run))).
  { rewrite Tot, Cu. apply total_distance_legs. }
  split; [exact T|]. split.
  - pose proof (assemble_plan_summary start_raw finish_raw start_with_full_tank
                  (run_start_coords run) (run_finish_coords run) (run_polyline run)
                  (run_total run) (run_state run)) as Sm.
    cbv zeta in Sm. destruct Sm as (D & _). rewrite D.
    rewrite (py_round_comp _ _ 2 T). reflexivity.
  - intros Empty. rewrite G in Empty. cbn [snd] in Empty. subst decoded.
    rewrite T, Rp. cbn [_to_route_points leg_distances fst snd Qsum fold_right]. lra.
Qed.

Lemma total_distance_sums_legs_witness :
  exists plan w',
    _build_trip_plan (math := Fixture.math) (py := Fixture.python)
      (services := Fixture.short_hop_services)
      (PStr "-100,35") (PStr "-99,35") false Fixture.empty_world = (Ret plan, w')
    /\ exists run,
         trip_run (math := Fixture.math) (py := Fixture.python)
           (services := Fixture.short_hop_services)
           (PStr "-100,35") (PStr "-99,35") false Fixture.empty_world w' plan run
         /\ run_total run
            == Qsum (leg_distances (math := Fixture.math) (run_route_points run))
         /\ plan_summary plan "total_distance_miles"
            = Some (PNum (py_round
                            (Qsum (leg_distances (math := Fixture.math)
                                     (run_route_points run))) 2))
         /\ (snd (get_route (Collaborators := Fixture.short_hop_services)
                    (run_start_coords run) (run_finish_coords run)) = [] ->
             run_total run
             == _haversine_miles (math := Fixture.math)
                  (snd (run_start_coords run)) (fst (run_start_coords run))
                  (snd (run_finish_coords run)) (fst (run_finish_coords run))).
Proof.
  pose (run := _build_trip_plan (math := Fixture.math) (py := Fixture.python)
                 (services := Fixture.short_hop_services)
                 (PStr "-100,35") (PStr "-99,35") false Fixture.empty_world).
  assert (E : run = (Ret (Fixture.value_of ∅ run), Fixture.world_of run))
    by (vm_compute; reflexivity).
  exists (Fixture.value_of ∅ run), (Fixture.world_of run).
  split; [exact E|].
  exact (total_distance_sums_legs (math := Fixture.math) (py := Fixture.python)
           (services := Fixture.short_hop_services) _ _ _ _ _ _ E).
Defined.
